(** * Research assistant: the multi-source retrieval pipeline

    A shallow embedding of [multi_agent_system.py] (the [SearchResult]
    record, the [SearchTool] adapters, the [Agent] wrapper and the
    [MultiAgentSystem] orchestrator) and of the part of [app.py] that reads
    a list field, together with the properties of its specification.

    How the program is modelled:
    - Python text is a [string]; one [ascii] stands for one code point
      (code points above 255 are not represented).
    - What a decoded JSON body holds is dynamically typed, and so is what
      ends up in the fields of a [SearchResult]: both are [value]s, and an
      operation applied to a value of the wrong type raises as it does in
      Python.
    - Everything the program does to the outside (HTTP requests, the arXiv
      client, the generative service, [print], [time.sleep]) goes through
      one monad: a computation reads the history of effects, returns a
      value or raises, and records the effects it performs.  The answers of
      the outside are given by a [World] and may depend on the history.
    - [except Exception] catches every exception of the model
      ([KeyboardInterrupt] and the like are not modelled).
    - A parsed page is given by the answers to the queries the program
      makes on it; these queries do not raise, and a tag that was found is
      true in a condition, as BeautifulSoup has it. *)

From Stdlib Require Import List String Ascii ZArith Bool Lia Arith.
Import ListNotations.
Open Scope list_scope.
Open Scope string_scope.

Set Implicit Arguments.
Set Warnings "-register-all".

(* ===================================================================== *)
(** ** Python string operations used by the program *)

Module PyStr.

Definition nl : string := String (ascii_of_nat 10) "".
Definition dq : string := String (ascii_of_nat 34) "".

(** [s[:n]] for a non-negative count. *)
Fixpoint take (n : nat) (s : string) : string :=
  match n, s with
  | S k, String c r => String c (take k r)
  | _, _ => ""
  end.

(** [s[:n]] for any integer: a negative bound counts from the end. *)
Definition slice_to (n : Z) (s : string) : string :=
  if (0 <=? n)%Z then take (Z.to_nat n) s
  else take (String.length s - Z.to_nat (- n)) s.

(** [sub in s] *)
Fixpoint contains (sub s : string) : bool :=
  String.prefix sub s ||
  match s with
  | "" => false
  | String _ r => contains sub r
  end.

(** [s.split(sep, maxsplit)] for a non-empty separator: [n] is the number
    of splits still allowed, [skip] the number of characters of a matched
    separator still to be dropped, [acc] the piece being collected. *)
Fixpoint splitn (sep : string) (n skip : nat) (acc s : string) : list string :=
  match s with
  | "" => [acc]
  | String c r =>
      match skip with
      | S k => splitn sep n k acc r
      | O =>
          match n with
          | O => [(acc ++ s)%string]
          | S n' =>
              if String.prefix sep s
              then acc :: splitn sep n' (String.length sep - 1) "" r
              else splitn sep n O (acc ++ String c "")%string r
          end
      end
  end.

(** [s.split(sep)]: there can be no more splits than characters. *)
Definition split (sep s : string) : list string :=
  splitn sep (String.length s) 0 "" s.

(** [s.split(sep, 1)] *)
Definition split1 (sep s : string) : list string :=
  splitn sep 1 0 "" s.

(** [l[-1]] and [l[1]] on the result of a split. *)
Definition last (l : list string) : string := List.last l "".
Definition second (l : list string) : string := nth 1 l "".

(** [str.isspace] on one code point below 256. *)
Definition is_space (c : ascii) : bool :=
  let n := nat_of_ascii c in
  (((9 <=? n) && (n <=? 13)) || ((28 <=? n) && (n <=? 32))
   || (n =? 133) || (n =? 160))%nat.

Definition is_empty (s : string) : bool :=
  match s with "" => true | _ => false end.

Fixpoint lstrip_by (p : ascii -> bool) (s : string) : string :=
  match s with
  | "" => ""
  | String c r => if p c then lstrip_by p r else s
  end.

Fixpoint rstrip_by (p : ascii -> bool) (s : string) : string :=
  match s with
  | "" => ""
  | String c r =>
      let r' := rstrip_by p r in
      if p c && is_empty r' then "" else String c r'
  end.

Definition strip_by (p : ascii -> bool) (s : string) : string :=
  rstrip_by p (lstrip_by p s).

(** [s.strip()] *)
Definition strip (s : string) : string := strip_by is_space s.

Fixpoint mem (c : ascii) (chars : string) : bool :=
  match chars with
  | "" => false
  | String d r => Ascii.eqb c d || mem c r
  end.

(** [s.strip(chars)] *)
Definition strip_chars (chars s : string) : string :=
  strip_by (fun c => mem c chars) s.

(** [sep.join(l)] *)
Definition join (sep : string) (l : list string) : string :=
  String.concat sep l.

(** [s.startswith(p)] *)
Definition startswith (p s : string) : bool := String.prefix p s.

(** The characters of a string, as Python iterates over it. *)
Fixpoint chars (s : string) : list string :=
  match s with
  | "" => []
  | String c r => String c "" :: chars r
  end.

(** The regular expression [NCT\d{8}]. *)
Definition is_digit (c : ascii) : bool :=
  let n := nat_of_ascii c in ((48 <=? n) && (n <=? 57))%nat.

Fixpoint digits (n : nat) (s : string) : bool :=
  match n with
  | O => true
  | S k => match s with
           | "" => false
           | String c r => is_digit c && digits k r
           end
  end.

Definition nct_here (s : string) : bool :=
  match s with
  | String "N"%char (String "C"%char (String "T"%char r)) => digits 8 r
  | _ => false
  end.

(** [re.search(r'(NCT\d{8})', s)], giving [group(1)] of the leftmost
    match. *)
Fixpoint search_nct (s : string) : option string :=
  if nct_here s then Some (take 11 s)
  else match s with
       | "" => None
       | String _ r => search_nct r
       end.

End PyStr.

(* ===================================================================== *)
(** ** Dynamically typed values, exceptions *)

(** A Python value as the program meets it: what [response.json()] can
    return, and what the fields of a [SearchResult] can hold.  A float is
    kept by the two things the program can observe of it, its truth value
    and its text.  A dict is an association list, looked up from the
    left. *)
Inductive value : Type :=
| VNone
| VBool (b : bool)
| VInt (z : Z)
| VFloat (nonzero : bool) (text : string)
| VStr (s : string)
| VList (l : list value)
| VDict (kvs : list (string * value)).

Inductive exn : Type :=
| KeyError (key : string)
| TypeError
| AttributeError
| ValueError (msg : string)
| JSONDecodeError
| RemoteError (msg : string).   (* raised inside requests, arxiv or genai *)

Inductive outcome (A : Type) : Type :=
| Ok (a : A)
| Raise (e : exn).
Arguments Ok {A} a.
Arguments Raise {A} e.

(** Sequencing of computations that can raise and do nothing else. *)
Definition and_then {A B} (r : outcome A) (k : A -> outcome B) : outcome B :=
  match r with
  | Ok a => k a
  | Raise e => Raise e
  end.

Declare Scope outcome_scope.
Notation "x <~ r ;; k" := (and_then r (fun x => k))
  (at level 61, r at next level, right associativity) : outcome_scope.
Open Scope outcome_scope.

Module Py.

(** [bool(v)] *)
Definition truthy (v : value) : bool :=
  match v with
  | VNone => false
  | VBool b => b
  | VInt z => negb (z =? 0)%Z
  | VFloat nz _ => nz
  | VStr s => negb (PyStr.is_empty s)
  | VList l => match l with [] => false | _ => true end
  | VDict kvs => match kvs with [] => false | _ => true end
  end.

Fixpoint lookup (k : string) (kvs : list (string * value)) : option value :=
  match kvs with
  | [] => None
  | (k', v) :: r => if String.eqb k k' then Some v else lookup k r
  end.

(** [d.get(k, dflt)]; only a dict has the method. *)
Definition get (d : value) (k : string) (dflt : value) : outcome value :=
  match d with
  | VDict kvs => Ok (match lookup k kvs with Some v => v | None => dflt end)
  | _ => Raise AttributeError
  end.

(** [d[k]] for a string key. *)
Definition getitem (d : value) (k : string) : outcome value :=
  match d with
  | VDict kvs => match lookup k kvs with
                 | Some v => Ok v
                 | None => Raise (KeyError k)
                 end
  | _ => Raise TypeError
  end.

(** The items a [for] loop over [v] visits. *)
Definition iter (v : value) : outcome (list value) :=
  match v with
  | VList l => Ok l
  | VStr s => Ok (map VStr (PyStr.chars s))
  | VDict kvs => Ok (map (fun kv => VStr (fst kv)) kvs)
  | _ => Raise TypeError
  end.

(** [len(v)] *)
Definition len (v : value) : outcome nat :=
  match v with
  | VStr s => Ok (String.length s)
  | VList l => Ok (List.length l)
  | VDict kvs => Ok (List.length kvs)
  | _ => Raise TypeError
  end.

(** [v[:n]] for a literal [n >= 0]. *)
Definition slice_to (n : nat) (v : value) : outcome value :=
  match v with
  | VStr s => Ok (VStr (PyStr.take n s))
  | VList l => Ok (VList (firstn n l))
  | _ => Raise TypeError
  end.

(** [v + "literal"] *)
Definition add_str (v : value) (lit : string) : outcome value :=
  match v with
  | VStr s => Ok (VStr (s ++ lit))
  | _ => Raise TypeError
  end.

Fixpoint strings (l : list value) : outcome (list string) :=
  match l with
  | [] => Ok []
  | VStr s :: r => match strings r with
                   | Ok ss => Ok (s :: ss)
                   | Raise e => Raise e
                   end
  | _ :: _ => Raise TypeError
  end.

(** [sep.join(v)]: [v] must be iterable and yield only strings. *)
Definition join (sep : string) (v : value) : outcome string :=
  match iter v with
  | Ok l => match strings l with
            | Ok ss => Ok (PyStr.join sep ss)
            | Raise e => Raise e
            end
  | Raise e => Raise e
  end.

(** [v.startswith(p)]; only a string has the method. *)
Definition startswith (v : value) (p : string) : outcome bool :=
  match v with
  | VStr s => Ok (PyStr.startswith p s)
  | _ => Raise AttributeError
  end.

(** [l[:n]] on a list, for any integer bound. *)
Definition list_slice_to {A} (n : Z) (l : list A) : list A :=
  if (0 <=? n)%Z then firstn (Z.to_nat n) l
  else firstn (List.length l - Z.to_nat (- n)) l.

End Py.

(* ===================================================================== *)
(** ** The parsed page, as BeautifulSoup presents it *)

(** A tag of a parsed page, given by the answers of the queries the program
    makes on it. *)
Inductive element : Type := Element {
  el_name : string;                                  (* .name *)
  el_text : string;                                  (* .get_text() *)
  el_attrs : list (string * string);                 (* .get(attr, dflt) *)
  el_select : string -> list element;                (* .select(css) *)
  el_find_next : string -> option string -> option element;
                                                     (* .find_next(tag, class_=c) *)
  el_find_next_sibling : string -> option element    (* .find_next_sibling(tag) *)
}.

(** What [soup.find(string=...)] or [soup.find(tag, string=...)] returns:
    the program only asks for its [.parent]. *)
Record node : Type := Node { node_parent : option element }.

Record document : Type := Document {
  doc_select : string -> list element;               (* soup.select(css) *)
  doc_find_all : string -> list element;             (* soup.find_all(tag) *)
  doc_find_string : string -> option node;           (* soup.find(string=s) *)
  doc_find_tag_string : string -> string -> option node;
                                                     (* soup.find(tag, string=s) *)
  doc_find_nct_string : option string;
                        (* soup.find(string=re.compile(r'NCT\d{8}')) *)
  doc_visible_text : string
        (* get_text(separator=" ", strip=True) once script and style
           elements are extracted *)
}.

Module Soup.

(** [select_one] is the first result of [select], if any. *)
Definition select_one (d : document) (css : string) : option element :=
  hd_error (doc_select d css).

Fixpoint assoc (k : string) (kvs : list (string * string)) (dflt : string) : string :=
  match kvs with
  | [] => dflt
  | (k', v) :: r => if String.eqb k k' then v else assoc k r dflt
  end.

(** [tag.get(attr, dflt)] *)
Definition attr (e : element) (k dflt : string) : string :=
  assoc k (el_attrs e) dflt.

End Soup.

(* ===================================================================== *)
(** ** Effects: requests, responses, the trace and the world *)

Record request : Type := Request {
  url : value;
  params : list (string * value);
  headers : list (string * string);
  timeout : option Z
}.

Record response : Type := Response {
  status_code : Z;
  text : string;
  json : outcome value;        (* response.json(), which raises on a bad body *)
  soup : document             (* BeautifulSoup(response.content, "html.parser") *)
}.

(** One entry of an arXiv result feed. *)
Record paper : Type := Paper {
  entry_id : string;
  paper_title : string;
  paper_authors : list string;       (* author.name for each author *)
  published_ymd : string;            (* published.strftime("%Y-%m-%d") *)
  summary : string;
  paper_pdf_url : value              (* a string, or None *)
}.

(** A chat session of the generative service. *)
Record chat_session : Type := ChatSession { session_model : string }.

(** The reply of [send_message]; reading its [.text] can itself fail. *)
Record chat_response : Type := ChatResponse { response_text : outcome string }.

Inductive event : Type :=
| EvPrint (msg : string)
| EvSleep (milliseconds : Z)
| EvGet (r : request)                            (* requests.get *)
| EvArxiv (query : string) (max_results : Z)     (* client.results(search) *)
| EvGenaiStart (key model : string)
| EvSend (message : string).                     (* chat.send_message *)

(** A trace of effects, most recent first. *)
Definition trace : Type := list event.

(** The outside: every answer may depend on all that happened before.
    [str_value] and [str_exn] are the interpreter's [str()] of a value that
    is not a string and of an exception. *)
Record World : Type := {
  transport : trace -> request -> outcome response;
  arxiv_feed : trace -> string -> Z -> list paper * option exn;
      (* the entries the result generator yields, and the exception that
         ends the iteration, if any *)
  genai_start : trace -> string -> string -> outcome chat_session;
      (* configure, GenerativeModel(model), start_chat(history=[]) *)
  genai_send : trace -> chat_session -> string -> outcome chat_response;
  str_value : value -> string;
  str_exn : exn -> string
}.

(** The monad of the program: a computation reads the history (the trace of
    all that happened before it started) and gives its outcome together
    with the effects it performed itself, most recent first. *)
Definition M (A : Type) : Type := trace -> outcome A * trace.

Definition ret {A} (a : A) : M A := fun _ => (Ok a, []).

Definition bind {A B} (m : M A) (k : A -> M B) : M B :=
  fun h => match m h with
           | (Ok a, ev) => let (r, ev') := k a (ev ++ h)%list in (r, (ev' ++ ev)%list)
           | (Raise e, ev) => (Raise e, ev)
           end.

Definition raise {A} (e : exn) : M A := fun _ => (Raise e, []).

(** [try: body  except Exception as e: handler e] *)
Definition try_except {A} (body : M A) (handler : exn -> M A) : M A :=
  fun h => match body h with
           | (Ok a, ev) => (Ok a, ev)
           | (Raise e, ev) =>
               let (r, ev') := handler e (ev ++ h)%list in (r, (ev' ++ ev)%list)
           end.

Definition lift {A} (r : outcome A) : M A := fun _ => (r, []).

Definition emit (e : event) : M unit := fun _ => (Ok tt, [e]).

Declare Scope monad_scope.
Delimit Scope monad_scope with monad.
Notation "x <- m ;; k" := (bind m (fun x => k))
  (at level 61, m at next level, right associativity) : monad_scope.
Notation "m ;; k" := (bind m (fun _ => k))
  (at level 61, right associativity) : monad_scope.
Open Scope monad_scope.

Definition print (msg : string) : M unit := emit (EvPrint msg).
Definition sleep (milliseconds : Z) : M unit := emit (EvSleep milliseconds).

(** A [for] loop whose body updates the loop state [S]; an exception in the
    body ends the loop. *)
Fixpoint for_each {A S} (l : list A) (body : A -> S -> M S) (s : S) : M S :=
  match l with
  | [] => ret s
  | a :: r => s' <- body a s ;; for_each r body s'
  end.

(** A pure [for] loop with [break]: the body returns the new state and
    whether it left the loop. *)
Fixpoint for_break {A S} (l : list A) (body : A -> S -> S * bool) (s : S) : S :=
  match l with
  | [] => s
  | a :: r => let (s', stop) := body a s in
              if stop then s' else for_break r body s'
  end.

(* ===================================================================== *)
(** ** The record all adapters produce *)

(** The dataclass [SearchResult].  Its annotations are not enforced, so a
    field holds whatever value the adapter put there. *)
Record SearchResult : Type := {
  title : value;
  link : value;
  snippet : value;
  body : value;
  authors : value;
  published : value;
  abstract : value;
  pdf_url : value;
  arxiv_url : value;
  nct_id : value;
  status : value;
  study_type : value;
  conditions : value;
  interventions : value;
  phase : value;
  enrollment : value;
  locations : value
}.

(** [SearchResult(title=t)]: every other field at its declared default. *)
Definition SearchResult_defaults (t : value) : SearchResult := {|
  title := t;
  link := VStr "";
  snippet := VStr "";
  body := VStr "";
  authors := VNone;
  published := VStr "";
  abstract := VStr "";
  pdf_url := VStr "";
  arxiv_url := VStr "";
  nct_id := VStr "";
  status := VStr "";
  study_type := VStr "";
  conditions := VNone;
  interventions := VNone;
  phase := VStr "";
  enrollment := VInt 0;
  locations := VNone
|}.

(** Attribute assignment [r.abstract = v], [r.conditions = v],
    [r.interventions = v]. *)
Definition set_abstract (v : value) (r : SearchResult) : SearchResult := {|
  title := title r; link := link r; snippet := snippet r; body := body r;
  authors := authors r; published := published r; abstract := v;
  pdf_url := pdf_url r; arxiv_url := arxiv_url r; nct_id := nct_id r;
  status := status r; study_type := study_type r; conditions := conditions r;
  interventions := interventions r; phase := phase r;
  enrollment := enrollment r; locations := locations r
|}.

Definition set_conditions (v : value) (r : SearchResult) : SearchResult := {|
  title := title r; link := link r; snippet := snippet r; body := body r;
  authors := authors r; published := published r; abstract := abstract r;
  pdf_url := pdf_url r; arxiv_url := arxiv_url r; nct_id := nct_id r;
  status := status r; study_type := study_type r; conditions := v;
  interventions := interventions r; phase := phase r;
  enrollment := enrollment r; locations := locations r
|}.

Definition set_interventions (v : value) (r : SearchResult) : SearchResult := {|
  title := title r; link := link r; snippet := snippet r; body := body r;
  authors := authors r; published := published r; abstract := abstract r;
  pdf_url := pdf_url r; arxiv_url := arxiv_url r; nct_id := nct_id r;
  status := status r; study_type := study_type r; conditions := conditions r;
  interventions := v; phase := phase r;
  enrollment := enrollment r; locations := locations r
|}.

(** The object appended last to [results] is the one the loop body still
    holds and mutates: an assignment to it is seen through the list. *)
Fixpoint update_last {A} (f : A -> A) (l : list A) : list A :=
  match l with
  | [] => []
  | [a] => [f a]
  | a :: r => a :: update_last f r
  end.

(* ===================================================================== *)
(** ** Primitive effects *)

Section Effects.

Context (w : World).

(** [requests.get(url, params=..., headers=..., timeout=...)] *)
Definition http_get (r : request) : M response :=
  fun h => (transport w h r, [EvGet r]).

(** [client.results(search)], iterated to its end. *)
Definition arxiv_results (query : string) (max_results : Z)
  : M (list paper * option exn) :=
  fun h => (Ok (arxiv_feed w h query max_results),
            [EvArxiv query max_results]).

Definition start_chat (key model : string) : M chat_session :=
  fun h => (genai_start w h key model, [EvGenaiStart key model]).

Definition send_message (c : chat_session) (message : string) : M chat_response :=
  fun h => (genai_send w h c message, [EvSend message]).

(** A value inside an f-string. *)
Definition fmt (v : value) : string :=
  match v with
  | VStr s => s
  | _ => str_value w v
  end.

End Effects.

(** [not v] for what [os.getenv] returns. *)
Definition env_missing (o : option string) : bool :=
  match o with
  | None => true
  | Some s => PyStr.is_empty s
  end.

Definition env_value (o : option string) : value :=
  match o with
  | None => VNone
  | Some s => VStr s
  end.

(* ===================================================================== *)
(** ** class SearchTool *)

Module SearchTool.

(** The object: [__init__] reads the two credentials from the
    environment. *)
Record t : Type := {
  api_key : option string;            (* os.getenv('GOOGLE_API_KEY') *)
  search_engine_id : option string    (* os.getenv('GOOGLE_SEARCH_ENGINE_ID') *)
}.

Definition user_agent : string :=
  "Mozilla/5.0 (Windows NT 10.0; Win64; x64) AppleWebKit/537.36 (KHTML, like Gecko) Chrome/91.0.4472.124 Safari/537.36".

Definition accept : string :=
  "text/html,application/xhtml+xml,application/xml;q=0.9,image/webp,*/*;q=0.8".

Definition page_headers : list (string * string) :=
  [("User-Agent", user_agent); ("Accept", accept);
   ("Accept-Language", "en-US,en;q=0.5")].

Definition search_headers : list (string * string) :=
  (page_headers ++ [("Connection", "keep-alive"); ("Upgrade-Insecure-Requests", "1")])%list.

Section Methods.

Context (w : World) (self : t).

(** [_get_page_content(url, max_chars)] *)
Definition _get_page_content (url : value) (max_chars : Z) : M value :=
  try_except
    (response <- http_get w {| url := url; params := [];
                               headers := page_headers; timeout := Some 15%Z |} ;;
     ret (VStr (PyStr.slice_to max_chars (doc_visible_text (soup response)))))
    (fun e =>
       print ("Error fetching " ++ fmt w url ++ ": " ++ str_exn w e) ;;
       ret (VStr "")).

(** One round of the loop over the items of the search response. *)
Definition google_item (max_chars : Z) (item : value)
           (enriched_results : list SearchResult) : M (list SearchResult) :=
  item_link <- lift (Py.getitem item "link") ;;
  body <- _get_page_content item_link max_chars ;;
  item_title <- lift (Py.getitem item "title") ;;
  item_link <- lift (Py.getitem item "link") ;;
  item_snippet <- lift (Py.getitem item "snippet") ;;
  let result := {|
    title := item_title;
    link := item_link;
    snippet := item_snippet;
    body := body;
    authors := VNone;
    published := VStr "";
    abstract := VStr "";
    pdf_url := VStr "";
    arxiv_url := VStr "";
    nct_id := VStr "";
    status := VStr "";
    study_type := VStr "";
    conditions := VNone;
    interventions := VNone;
    phase := VStr "";
    enrollment := VInt 0;
    locations := VNone
  |} in
  sleep 1000 ;;
  ret (enriched_results ++ [result])%list.

Definition google_request (query : string) (num_results : Z) : request := {|
  url := VStr "https://www.googleapis.com/customsearch/v1";
  params := [("key", env_value (api_key self));
             ("cx", env_value (search_engine_id self));
             ("q", VStr query);
             ("num", VInt num_results)];
  headers := [];
  timeout := None
|}.

(** [google_search(query, num_results, max_chars)] *)
Definition google_search (query : string) (num_results max_chars : Z)
  : M (list SearchResult) :=
  if env_missing (api_key self) || env_missing (search_engine_id self) then
    print "Missing API credentials" ;;
    ret []
  else
    try_except
      (response <- http_get w (google_request query num_results) ;;
       if negb (status_code response =? 200)%Z then
         print ("Google Search API error: " ++ fmt w (VInt (status_code response))) ;;
         print ("Response content: " ++ text response) ;;
         ret []
       else
         data <- lift (json response) ;;
         results <- lift (Py.get data "items" (VList [])) ;;
         items <- lift (Py.iter results) ;;
         for_each items (google_item max_chars) [])
      (fun e =>
         print ("Error in Google search: " ++ str_exn w e) ;;
         ret []).

(** One round of the loop over the entries of the arXiv feed. *)
Definition arxiv_entry (p : paper) (results : list SearchResult)
  : M (list SearchResult) :=
  let paper_id := PyStr.last (PyStr.split "/" (entry_id p)) in
  let arxiv_url := "https://arxiv.org/abs/" ++ paper_id in
  let result := {|
    title := VStr (paper_title p);
    link := VStr "";
    snippet := VStr "";
    body := VStr "";
    authors := VList (map VStr (paper_authors p));
    published := VStr (published_ymd p);
    abstract := VStr (summary p);
    pdf_url := paper_pdf_url p;
    arxiv_url := VStr arxiv_url;
    nct_id := VStr "";
    status := VStr "";
    study_type := VStr "";
    conditions := VNone;
    interventions := VNone;
    phase := VStr "";
    enrollment := VInt 0;
    locations := VNone
  |} in
  sleep 500 ;;
  ret (results ++ [result])%list.

(** [arxiv_search(query, max_results)] *)
Definition arxiv_search (query : string) (max_results : Z)
  : M (list SearchResult) :=
  try_except
    (feed <- arxiv_results w query max_results ;;
     results <- for_each (fst feed) arxiv_entry [] ;;
     match snd feed with
     | Some e => raise e
     | None => ret results
     end)
    (fun e =>
       print ("Error in Arxiv search: " ++ str_exn w e) ;;
       ret []).

(** The loop collecting the intervention names of a study. *)
Fixpoint intervention_names (each : list value) (interventions_list : list value)
  : outcome (list value) :=
  match each with
  | [] => Ok interventions_list
  | intervention :: rest =>
      intervention_name <~ Py.get intervention "name" (VStr "") ;;
      intervention_names rest
        (if Py.truthy intervention_name
         then (interventions_list ++ [intervention_name])%list
         else interventions_list)
  end.

(** The record read off the decoded answer of the single-study
    endpoint. *)
Definition details_record (nct_id study : value) : outcome SearchResult :=
  protocol_section <~ Py.get study "protocolSection" (VDict []) ;;
  identification <~ Py.get protocol_section "identificationModule" (VDict []) ;;
  description_module <~ Py.get protocol_section "descriptionModule" (VDict []) ;;
  conditions_module <~ Py.get protocol_section "conditionsModule" (VDict []) ;;
  intervention_module <~ Py.get protocol_section "armsInterventionsModule" (VDict []) ;;
  title <~ Py.get identification "briefTitle" (VStr "") ;;
  summary <~ Py.get description_module "briefSummary" (VStr "") ;;
  detailed_desc <~ Py.get description_module "detailedDescription" (VStr "") ;;
  conditions <~ Py.get conditions_module "conditions" (VList []) ;;
  listed <~ Py.get intervention_module "interventions" (VList []) ;;
  each <~ Py.iter listed ;;
  interventions_list <~ intervention_names each [] ;;
  let study_url := "https://clinicaltrials.gov/ct2/show/" ++ fmt w nct_id in
  Ok {|
    title := title;
    link := VStr study_url;
    snippet := VStr "";
    body := VStr "";
    authors := VNone;
    published := VStr "";
    abstract := if Py.truthy summary then summary else detailed_desc;
    pdf_url := VStr "";
    arxiv_url := VStr "";
    nct_id := nct_id;
    status := VStr "";
    study_type := VStr "";
    conditions := conditions;
    interventions := VList interventions_list;
    phase := VStr "";
    enrollment := VInt 0;
    locations := VNone
  |}.

Definition details_request (nct_id : value) : request := {|
  url := VStr ("https://clinicaltrials.gov/api/v2/studies/" ++ fmt w nct_id);
  params := [("format", VStr "json")];
  headers := [];
  timeout := Some 15%Z
|}.

(** [not nct_id or not nct_id.startswith("NCT")] *)
Definition invalid_nct_id (nct_id : value) : outcome bool :=
  if negb (Py.truthy nct_id) then Ok true
  else starts <~ Py.startswith nct_id "NCT" ;; Ok (negb starts).

(** [_get_clinical_trial_details_api(nct_id)] *)
Definition _get_clinical_trial_details_api (nct_id : value)
  : M (option SearchResult) :=
  invalid <- lift (invalid_nct_id nct_id) ;;
  if (invalid : bool) then
    print ("Invalid NCT ID format: " ++ fmt w nct_id) ;;
    ret None
  else
    try_except
      (response <- http_get w (details_request nct_id) ;;
       if negb (status_code response =? 200)%Z then
         print ("ClinicalTrials.gov API error for study " ++ fmt w nct_id ++ ": "
                ++ fmt w (VInt (status_code response))) ;;
         ret None
       else
         study <- lift (json response) ;;
         detailed_study <- lift (details_record nct_id study) ;;
         ret (Some detailed_study))
      (fun e =>
         print ("Error fetching details for study " ++ fmt w nct_id ++ ": "
                ++ str_exn w e) ;;
         ret None).

(** [result.abstract = d.abstract; result.conditions = d.conditions;
    result.interventions = d.interventions] *)
Definition merge_details (d : SearchResult) (result : SearchResult) : SearchResult :=
  set_interventions (interventions d)
    (set_conditions (conditions d)
       (set_abstract (abstract d) result)).

(** [summary[:200] + "..." if len(summary) > 200 else summary] *)
Definition api_snippet (summary : value) : outcome value :=
  n <~ Py.len summary ;;
  if (200 <? n)%nat then
    head <~ Py.slice_to 200 summary ;;
    Py.add_str head "..."
  else Ok summary.

(** What one study of the search response gives: nothing where it has
    no identifier ([continue]), else the record built from it, and
    whether the source goes on to fetch its details
    ([not summary and not detailed_desc]). *)
Definition api_study_result (study : value)
  : outcome (option (SearchResult * bool)) :=
  protocol_section <~ Py.get study "protocolSection" (VDict []) ;;
  identification <~ Py.get protocol_section "identificationModule" (VDict []) ;;
  status_module <~ Py.get protocol_section "statusModule" (VDict []) ;;
  design_module <~ Py.get protocol_section "designModule" (VDict []) ;;
  conditions_module <~ Py.get protocol_section "conditionsModule" (VDict []) ;;
  description_module <~ Py.get protocol_section "descriptionModule" (VDict []) ;;
  nct_id <~ Py.get identification "nctId" (VStr "") ;;
  if negb (Py.truthy nct_id) then Ok None
  else
    title <~ Py.get identification "briefTitle" (VStr "") ;;
    official_title <~ Py.get identification "officialTitle" (VStr "") ;;
    study_type <~ Py.get design_module "studyType" (VStr "") ;;
    phase_list <~ Py.get design_module "phases" (VList []) ;;
    phase <~ (if Py.truthy phase_list
              then joined <~ Py.join ", " phase_list ;; Ok (VStr joined)
              else Ok (VStr "Not Specified")) ;;
    status <~ Py.get status_module "overallStatus" (VStr "") ;;
    conditions <~ Py.get conditions_module "conditions" (VList []) ;;
    summary <~ Py.get description_module "briefSummary" (VStr "") ;;
    detailed_desc <~ Py.get description_module "detailedDescription" (VStr "") ;;
    let study_url := "https://clinicaltrials.gov/ct2/show/" ++ fmt w nct_id in
    snippet <~ api_snippet summary ;;
    Ok (Some ({|
      title := if Py.truthy title then title else official_title;
      link := VStr study_url;
      snippet := snippet;
      body := VStr "";
      authors := VNone;
      published := VStr "";
      abstract := if Py.truthy summary then summary else detailed_desc;
      pdf_url := VStr "";
      arxiv_url := VStr "";
      nct_id := nct_id;
      status := status;
      study_type := study_type;
      conditions := conditions;
      interventions := VNone;
      phase := phase;
      enrollment := VInt 0;
      locations := VNone
    |}, negb (Py.truthy summary) && negb (Py.truthy detailed_desc))).

(** One round of the loop over the studies of the search response. *)
Definition api_study (study : value) (results : list SearchResult)
  : M (list SearchResult) :=
  built <- lift (api_study_result study) ;;
  match built with
  | None => ret results   (* continue *)
  | Some (result, needs_details) =>
      let results := (results ++ [result])%list in
      results <- (if (needs_details : bool) then
                    detailed_study <- _get_clinical_trial_details_api (nct_id result) ;;
                    match detailed_study with
                    | Some d => ret (update_last (merge_details d) results)
                    | None => ret results
                    end
                  else ret results) ;;
      sleep 2000 ;;
      ret results
  end.

Definition api_request (query : string) (max_results : Z) : request := {|
  url := VStr "https://clinicaltrials.gov/api/v2/studies";
  params := [("query.term", VStr query);
             ("pageSize", VInt max_results);
             ("format", VStr "json")];
  headers := [];
  timeout := Some 15%Z
|}.

(** [clinicaltrials_search_beta_api(query, max_results)] *)
Definition clinicaltrials_search_beta_api (query : string) (max_results : Z)
  : M (list SearchResult) :=
  try_except
    (response <- http_get w (api_request query max_results) ;;
     if negb (status_code response =? 200)%Z then
       print ("ClinicalTrials.gov API error: " ++ fmt w (VInt (status_code response))) ;;
       print ("Response content: " ++ text response) ;;
       ret []
     else
       data <- lift (json response) ;;
       studies <- lift (Py.get data "studies" (VList [])) ;;
       if negb (Py.truthy studies) then
         print ("No clinical trial studies found for query: " ++ query) ;;
         ret []
       else
         each <- lift (Py.iter studies) ;;
         for_each each api_study [])
    (fun e =>
       print ("Error in ClinicalTrials.gov Beta API search: " ++ str_exn w e) ;;
       ret []).

(** The identifier in the href of a result link; [None] where the
    source prints its complaint and goes on to the next link. *)
Definition href_nct_id (href : string) : option string :=
  if PyStr.contains "/study/" href then
    Some (PyStr.last (PyStr.split "/" href))
  else if PyStr.contains "/ct2/show/" href then
    Some (PyStr.last (PyStr.split "/" href))
  else
    PyStr.search_nct href.

(** The identifier of a study page. *)
Definition page_nct_id (url : string) (soup : document) : string :=
  if PyStr.contains "/ct2/show/" url then
    PyStr.last (PyStr.split "/" url)
  else
    match PyStr.search_nct url with
    | Some m => m
    | None =>
        match doc_find_nct_string soup with
        | Some nct_elem =>
            match PyStr.search_nct nct_elem with
            | Some m => m
            | None => "Unknown"
            end
        | None => "Unknown"
        end
    end.

Definition title_selectors : list string :=
  ["h1.tr-h1"; "h1.ct-title"; ".headline-title"].

Definition status_selectors : list string :=
  [".ct-recruitment-status div.ct-recruitment-status__label";
   ".statusLabel";
   "p:contains('Recruitment Status:')"].

Definition summary_selectors : list string :=
  ["#brief-summary div.tr-indent2";
   ".ct-body__section div.tr-indent1";
   "section#brief-summary"].

Definition conditions_selectors : list string :=
  ["#conditions"; "section#conditions"; "section:contains('Condition')"].

(** The element a selector designates: a [:contains] selector is
    resolved by hand, by the first [tag] element whose text has the
    quoted words; any other goes to [select_one]. *)
Definition resolve (soup : document) (tag selector : string) : option element :=
  if PyStr.contains ":contains" selector then
    let text := PyStr.strip_chars "')"
                  (PyStr.second (PyStr.split ":contains(" selector)) in
    find (fun p => PyStr.contains text (el_text p)) (doc_find_all soup tag)
  else
    Soup.select_one soup selector.

Definition title_step (soup : document) (selector : string) (title : string)
  : string * bool :=
  match Soup.select_one soup selector with
  | Some title_elem => (PyStr.strip (el_text title_elem), true)
  | None => (title, false)
  end.

Definition status_of_text (status_text : string) : string :=
  if PyStr.contains "Status:" status_text
  then PyStr.strip (PyStr.second (PyStr.split "Status:" status_text))
  else status_text.

Definition status_step (soup : document) (selector : string) (status : string)
  : string * bool :=
  match resolve soup "p" selector with
  | Some status_elem =>
      (status_of_text (PyStr.strip (el_text status_elem)), true)
  | None => (status, false)
  end.

Definition summary_step (soup : document) (selector : string) (summary : string)
  : string * bool :=
  match Soup.select_one soup selector with
  | Some summary_elem => (PyStr.strip (el_text summary_elem), true)
  | None => (summary, false)
  end.

(** The value next to a label: the following cell of a table, or the
    following value block, or else the next sibling block. *)
Definition value_elem_of (parent : element) : option element :=
  if String.eqb (el_name parent) "th" then
    el_find_next parent "td" None
  else
    match el_find_next parent "div" (Some "ct-data-elem__value") with
    | Some v => Some v
    | None => el_find_next_sibling parent "div"
    end.

Definition labelled_step (soup : document)
           (selector_func : document -> option node) (current : string)
  : string * bool :=
  match selector_func soup with
  | Some label =>
      match node_parent label with
      | Some parent =>
          match value_elem_of parent with
          | Some value_elem => (PyStr.strip (el_text value_elem), true)
          | None => (current, false)
          end
      | None => (current, false)
      end
  | None => (current, false)
  end.

Definition study_type_selectors : list (document -> option node) :=
  [fun s => doc_find_string s "Study Type:";
   fun s => doc_find_tag_string s "th" "Study Type"].

Definition phase_selectors : list (document -> option node) :=
  [fun s => doc_find_string s "Phase:";
   fun s => doc_find_tag_string s "th" "Phase"].

Definition conditions_of_section (conditions_section : element) : list string :=
  match el_select conditions_section "li" with
  | [] =>
      let conditions_text := PyStr.strip (el_text conditions_section) in
      let conditions_text :=
        if PyStr.contains ":" conditions_text
        then PyStr.strip (PyStr.second (PyStr.split1 ":" conditions_text))
        else conditions_text in
      map PyStr.strip (PyStr.split "," conditions_text)
  | condition_items => map (fun item => PyStr.strip (el_text item)) condition_items
  end.

Definition conditions_step (soup : document) (selector : string)
           (conditions : list string) : list string * bool :=
  match resolve soup "section" selector with
  | Some conditions_section => (conditions_of_section conditions_section, true)
  | None => (conditions, false)
  end.

(** [summary[:200] + "..." if summary and len(summary) > 200 else summary] *)
Definition scrape_snippet (summary : string) : string :=
  if negb (PyStr.is_empty summary) && (200 <? String.length summary)%nat
  then PyStr.take 200 summary ++ "..."
  else summary.

(** The record read off a study page. *)
Definition scrape_page (url : string) (soup : document) : SearchResult :=
  let nct_id := page_nct_id url soup in
  let title := for_break title_selectors (title_step soup) "Unknown Title" in
  let status := for_break status_selectors (status_step soup) "Unknown" in
  let summary := for_break summary_selectors (summary_step soup) "" in
  let study_type := for_break study_type_selectors (labelled_step soup) "" in
  let phase := for_break phase_selectors (labelled_step soup) "" in
  let conditions := for_break conditions_selectors (conditions_step soup) [] in
  {|
    title := VStr title;
    link := VStr url;
    snippet := VStr (scrape_snippet summary);
    body := VStr "";
    authors := VNone;
    published := VStr "";
    abstract := VStr summary;
    pdf_url := VStr "";
    arxiv_url := VStr "";
    nct_id := VStr nct_id;
    status := VStr status;
    study_type := VStr study_type;
    conditions := VList (map VStr conditions);
    interventions := VNone;
    phase := VStr phase;
    enrollment := VInt 0;
    locations := VNone
  |}.

(** [_get_clinical_trial_details_scrape(url)] *)
Definition _get_clinical_trial_details_scrape (url : string)
  : M (option SearchResult) :=
  try_except
    (response <- http_get w {| url := VStr url; params := [];
                               headers := page_headers; timeout := Some 15%Z |} ;;
     if negb (status_code response =? 200)%Z then
       print ("Error accessing " ++ url ++ ": " ++ fmt w (VInt (status_code response))) ;;
       ret None
     else
       ret (Some (scrape_page url (soup response))))
    (fun e =>
       print ("Error extracting details from " ++ url ++ ": " ++ str_exn w e) ;;
       ret None).

(** One round of the loop over the links of the search page. *)
Definition scrape_link (link : element) (results : list SearchResult)
  : M (list SearchResult) :=
  let href := Soup.attr link "href" "" in
  if PyStr.is_empty href then ret results   (* continue *)
  else
    match href_nct_id href with
    | None =>
        print ("Could not extract NCT ID from href: " ++ href) ;;
        ret results   (* continue *)
    | Some nct_id =>
        let study_url := "https://clinicaltrials.gov/ct2/show/" ++ nct_id in
        study_info <- _get_clinical_trial_details_scrape study_url ;;
        match study_info with
        | Some info =>
            let results := (results ++ [info])%list in
            sleep 2000 ;;
            ret results
        | None => ret results
        end
    end.

Definition scrape_request (query : string) : request := {|
  url := VStr "https://clinicaltrials.gov/search";
  params := [("term", VStr query); ("draw", VInt 1); ("rank", VInt 1)];
  headers := search_headers;
  timeout := Some 15%Z
|}.

(** [clinicaltrials_search_scrape(query, max_results)] *)
Definition clinicaltrials_search_scrape (query : string) (max_results : Z)
  : M (list SearchResult) :=
  try_except
    (response <- http_get w (scrape_request query) ;;
     if negb (status_code response =? 200)%Z then
       print ("ClinicalTrials.gov search error: " ++ fmt w (VInt (status_code response))) ;;
       ret []
     else
       let study_links :=
         Py.list_slice_to max_results
           (doc_select (soup response)
              ".ct-search-result a.ct-search-result__title-link") in
       match study_links with
       | [] =>
           print "No study links found on the search results page" ;;
           ret []
       | _ => for_each study_links scrape_link []
       end)
    (fun e =>
       print ("Error in ClinicalTrials.gov scrape search: " ++ str_exn w e) ;;
       ret []).

End Methods.

End SearchTool.

(** What [os.getenv] answers. *)
Definition environ : Type := string -> option string.

Definition SearchTool__init__ (env : environ) : SearchTool.t := {|
  SearchTool.api_key := env "GOOGLE_API_KEY";
  SearchTool.search_engine_id := env "GOOGLE_SEARCH_ENGINE_ID"
|}.

(* ===================================================================== *)
(** ** class Agent *)

Module Agent.

Record t : Type := {
  name : string;
  api_key : string;
  chat : option chat_session      (* None where the source stores None *)
}.

Section Methods.

Context (w : World).

(** [Agent(name, model)] *)
Definition __init__ (env : environ) (name model : string) : M t :=
  match env "GOOGLE_API_KEY" with
  | None => raise (ValueError "GOOGLE_API_KEY environment variable not set")
  | Some key =>
      if PyStr.is_empty key then
        raise (ValueError "GOOGLE_API_KEY environment variable not set")
      else
        try_except
          (session <- start_chat w key model ;;
           ret {| name := name; api_key := key; chat := Some session |})
          (fun e =>
             print ("Error initializing " ++ name ++ ": " ++ str_exn w e) ;;
             ret {| name := name; api_key := key; chat := None |})
  end.

(** [process(message)]: a coroutine in the source, which awaits nothing. *)
Definition process (self : t) (message : string) : M string :=
  match chat self with
  | None => ret "Error: Agent not properly initialized"
  | Some session =>
      try_except
        (response <- send_message w session message ;;
         lift (response_text response))
        (fun e =>
           print ("Error processing message: " ++ str_exn w e) ;;
           ret ("Error processing message: " ++ str_exn w e))
  end.

End Methods.

End Agent.

(* ===================================================================== *)
(** ** class MultiAgentSystem *)

Module MultiAgentSystem.

Import PyStr.

Record t : Type := {
  google_agent : Agent.t;
  arxiv_agent : Agent.t;
  clinical_trials_agent : Agent.t;
  report_agent : Agent.t;
  search_tool : SearchTool.t
}.

Section Methods.

Context (w : World).

Definition __init__ (env : environ) : M t :=
  a1 <- Agent.__init__ w env "Google_Search_Agent" "gemini-pro" ;;
  a2 <- Agent.__init__ w env "Arxiv_Search_Agent" "gemini-pro" ;;
  a3 <- Agent.__init__ w env "ClinicalTrials_Search_Agent" "gemini-pro" ;;
  a4 <- Agent.__init__ w env "Report_Agent" "gemini-pro" ;;
  ret {| google_agent := a1; arxiv_agent := a2; clinical_trials_agent := a3;
         report_agent := a4; search_tool := SearchTool__init__ env |}.

(** *** Step 1: Google search *)

Definition google_block (result : SearchResult) : outcome string :=
  match Py.slice_to 500 (body result) with
  | Raise e => Raise e
  | Ok content =>
      Ok (nl ++ "Title: " ++ fmt w (title result) ++ nl
          ++ "Snippet: " ++ fmt w (snippet result) ++ nl
          ++ "Content: " ++ fmt w content ++ "..." ++ nl)
  end.

Definition google_stage (self : t) (topic : string) : M string :=
  print ("Performing Google search for '" ++ topic ++ "'...") ;;
  google_results <- SearchTool.google_search w (search_tool self) topic 2 500 ;;
  let google_context :=
    "Based on Google search for '" ++ topic ++ "', here are the findings:" ++ nl in
  match google_results with
  | [] => ret (google_context ++ nl ++ "No Google search results found." ++ nl)
  | _ =>
      for_each google_results
        (fun result context => block <- lift (google_block result) ;;
                               ret (context ++ block))
        google_context
  end.

(** *** Step 2: arXiv search *)

Definition arxiv_block (result : SearchResult) : outcome string :=
  let authors := if Py.truthy (authors result) then authors result else VList [] in
  match Py.join ", " authors with
  | Raise e => Raise e
  | Ok joined =>
      Ok (nl ++ "Title: " ++ fmt w (title result) ++ nl
          ++ "Authors: " ++ joined ++ nl
          ++ "Published: " ++ fmt w (published result) ++ nl
          ++ "Abstract: " ++ fmt w (abstract result) ++ nl
          ++ "URL: " ++ fmt w (arxiv_url result) ++ nl)
  end.

Definition arxiv_stage (self : t) (topic : string) : M string :=
  print ("Performing Arxiv search for '" ++ topic ++ "'...") ;;
  arxiv_results <- SearchTool.arxiv_search w topic 2 ;;
  let arxiv_context :=
    nl ++ "Based on Arxiv search for '" ++ topic
       ++ "', here are the academic papers:" ++ nl in
  match arxiv_results with
  | [] => ret (arxiv_context ++ nl ++ "No Arxiv papers found." ++ nl)
  | _ =>
      for_each arxiv_results
        (fun result context => block <- lift (arxiv_block result) ;;
                               ret (context ++ block))
        arxiv_context
  end.

(** *** Step 3: ClinicalTrials.gov search *)

(** The Beta API first, the scrape as a fallback. *)
Definition registry_fetch (self : t) (topic : string) : M (list SearchResult) :=
  print ("Performing ClinicalTrials.gov search for '" ++ topic ++ "'...") ;;
  clinical_trials_results <-
    SearchTool.clinicaltrials_search_beta_api w topic 2 ;;
  match clinical_trials_results with
  | [] =>
      print "API search failed, falling back to scrape method..." ;;
      SearchTool.clinicaltrials_search_scrape w topic 2
  | _ => ret clinical_trials_results
  end.

(** The line [f"Summary: {result.abstract[:300]}...\n"]. *)
Definition summary_line (result : SearchResult) : outcome string :=
  match Py.slice_to 300 (abstract result) with
  | Raise e => Raise e
  | Ok head => Ok ("Summary: " ++ fmt w head ++ "..." ++ nl)
  end.

(** The line [f"Conditions: {', '.join(conditions_list) if conditions_list
    else 'Not specified'}\n"]. *)
Definition conditions_line (result : SearchResult) : outcome string :=
  let conditions_list :=
    if Py.truthy (conditions result) then conditions result else VList [] in
  if Py.truthy conditions_list then
    match Py.join ", " conditions_list with
    | Raise e => Raise e
    | Ok joined => Ok ("Conditions: " ++ joined ++ nl)
    end
  else Ok ("Conditions: " ++ "Not specified" ++ nl).

Definition trial_block (result : SearchResult) : outcome string :=
  match conditions_line result with
  | Raise e => Raise e
  | Ok conditions_text =>
      match summary_line result with
      | Raise e => Raise e
      | Ok summary_text =>
          Ok (nl ++ "Title: " ++ fmt w (title result) ++ nl
              ++ "NCT ID: " ++ fmt w (nct_id result) ++ nl
              ++ "Status: " ++ fmt w (status result) ++ nl
              ++ "Study Type: " ++ fmt w (study_type result) ++ nl
              ++ "Phase: " ++ fmt w (phase result) ++ nl
              ++ conditions_text
              ++ summary_text
              ++ "URL: " ++ fmt w (link result) ++ nl)
      end
  end.

Definition registry_context (topic : string)
           (clinical_trials_results : list SearchResult) : M string :=
  let clinical_trials_context :=
    nl ++ "Based on ClinicalTrials.gov search for '" ++ topic
       ++ "', here are the clinical trials:" ++ nl in
  match clinical_trials_results with
  | [] => ret (clinical_trials_context ++ nl ++ "No clinical trials found." ++ nl)
  | _ =>
      for_each clinical_trials_results
        (fun result context => block <- lift (trial_block result) ;;
                               ret (context ++ block))
        clinical_trials_context
  end.

(** *** Step 4: the report *)

Definition indent : string := "        ".

Definition report_prompt (topic google_context arxiv_context
                          clinical_trials_context : string) : string :=
  nl ++ indent ++ "Generate a comprehensive literature review on " ++ topic
     ++ " based on the following sources:" ++ nl
  ++ nl ++ indent ++ google_context ++ nl
  ++ nl ++ indent ++ arxiv_context ++ nl
  ++ nl ++ indent ++ clinical_trials_context ++ nl
  ++ nl ++ indent ++ "Please provide a well-structured literature review that:" ++ nl
  ++ indent ++ "1. Synthesizes the main findings and themes" ++ nl
  ++ indent ++ "2. Identifies key research directions" ++ nl
  ++ indent ++ "3. Includes proper citations with clickable links" ++ nl
  ++ indent ++ "4. Concludes with future research directions" ++ nl
  ++ nl ++ indent ++ "Important links to include:" ++ nl
  ++ indent ++ "- ClinicalTrials.gov links with NCT IDs should use format: https://clinicaltrials.gov/ct2/show/NCTXXXXXXXX " ++ nl
  ++ indent ++ "- arXiv links for academic papers" ++ nl
  ++ nl ++ indent ++ "For the References section, use these exact formats:" ++ nl
  ++ indent ++ "For arXiv papers: Author(s), " ++ dq ++ "Title" ++ dq
     ++ ", [arXiv:XXXX.XXXXX](https://arxiv.org/abs/XXXX.XXXXX)" ++ nl
  ++ indent ++ "For clinical trials: " ++ dq ++ "Title" ++ dq
     ++ ", [NCT ID: NCTXXXXXXXX](https://clinicaltrials.gov/ct2/show/NCTXXXXXXXX)" ++ nl
  ++ nl ++ indent ++ "If no results were found in a particular source, please mention that in your review." ++ nl
  ++ indent.

(** [run_literature_review(topic)]: a coroutine in the source; the one thing
    it awaits is [process]. *)
Definition run_literature_review (self : t) (topic : string) : M string :=
  google_context <- google_stage self topic ;;
  arxiv_context <- arxiv_stage self topic ;;
  clinical_trials_results <- registry_fetch self topic ;;
  clinical_trials_context <- registry_context topic clinical_trials_results ;;
  print "Generating comprehensive literature review report..." ;;
  Agent.process w (report_agent self)
    (report_prompt topic google_context arxiv_context clinical_trials_context).

End Methods.

End MultiAgentSystem.

(* ===================================================================== *)
(** ** The display layer: the part of [render_search_results] that reads
       a list field *)

Module App.

(** [if result.authors: st.write("**Authors:** " + ", ".join(result.authors))]:
    the text written, if any. *)
Definition authors_line (result : SearchResult) : outcome (option string) :=
  if Py.truthy (authors result) then
    match Py.join ", " (authors result) with
    | Raise e => Raise e
    | Ok joined => Ok (Some ("**Authors:** " ++ joined))
    end
  else Ok None.

(** [st.session_state.get('search_type') == "Literature Review"] *)
Definition is_literature_review (search_type : value) : bool :=
  match search_type with
  | VStr s => String.eqb s "Literature Review"
  | _ => false
  end.

(** What [run_async_operations] returns: [{"type": "review", "data": ...}]
    or [{"type": "search", "data": ...}]. *)
Inductive operation_result : Type :=
| Review (data : string)
| Search (data : list SearchResult).

(** [run_async_operations(system, search_query, max_results)]; the search
    type is what the session state holds ([None] when it holds nothing).
    The quick search runs [arxiv_search] in an executor and awaits it. *)
Definition run_async_operations (w : World) (search_type : value)
           (system : MultiAgentSystem.t) (search_query : string) (max_results : Z)
  : M operation_result :=
  if is_literature_review search_type then
    review <- MultiAgentSystem.run_literature_review w system search_query ;;
    ret (Review review)
  else
    results <- SearchTool.arxiv_search w search_query max_results ;;
    ret (Search results).

End App.

(* ===================================================================== *)
(** ** Notions used to state the properties *)

(** A computation that never lets an exception out. *)
Definition returns {A} (m : M A) : Prop :=
  forall h, exists a, fst (m h) = Ok a.

(** The number of effects of a kind in a trace. *)
Definition count (p : event -> bool) (ev : trace) : nat :=
  List.length (filter p ev).

(** A computation that performs no effect of a kind. *)
Definition silent {A} (p : event -> bool) (m : M A) : Prop :=
  forall h, count p (snd (m h)) = 0.

Definition is_get (e : event) : bool :=
  match e with
  | EvGet _ => true
  | _ => false
  end.

Fixpoint same_keys (ks : list string) (kvs : list (string * value)) : bool :=
  match ks, kvs with
  | [], [] => true
  | k :: ks', (k', _) :: kvs' => String.eqb k k' && same_keys ks' kvs'
  | _, _ => false
  end.

(** The request for the search results page of the registry.  The scrape
    adapter issues it first thing, once, and nothing else issues it: it
    marks an invocation of the scrape adapter. *)
Definition is_scrape_call (e : event) : bool :=
  match e with
  | EvGet r => same_keys ["term"; "draw"; "rank"] (params r)
  | _ => false
  end.

(** The items a decoded body lists under [key]; none where the request
    failed, the body did not decode or [key] does not hold a collection. *)
Definition listed (key : string) (r : outcome response) : list value :=
  match r with
  | Ok resp =>
      match json resp with
      | Ok data =>
          match Py.get data key (VList []) with
          | Ok results =>
              match Py.iter results with
              | Ok items => items
              | Raise _ => []
              end
          | Raise _ => []
          end
      | Raise _ => []
      end
  | Raise _ => []
  end.

(** The request of an adapter failed: no answer, or a status other than
    200, or (where the adapter decodes it) a body that is not JSON. *)
Definition failed (decodes : bool) (r : outcome response) : bool :=
  match r with
  | Raise _ => true
  | Ok resp =>
      negb (status_code resp =? 200)%Z
      || (decodes && match json resp with Raise _ => true | Ok _ => false end)
  end.

(** "Try each candidate in priority order and accept the first match." *)
Fixpoint first_match {A B} (f : A -> option B) (candidates : list A) : option B :=
  match candidates with
  | [] => None
  | c :: r => match f c with
              | Some b => Some b
              | None => first_match f r
              end
  end.

(** A field of a module of a study of the registry's answer. *)
Definition study_field (study : value) (module key : string) (dflt : value)
  : outcome value :=
  match Py.get study "protocolSection" (VDict []) with
  | Raise e => Raise e
  | Ok protocol_section =>
      match Py.get protocol_section module (VDict []) with
      | Raise e => Raise e
      | Ok m => Py.get m key dflt
      end
  end.

(** The records a Tier-1 fetch can hold for a study: the record built from
    the study, or that record with the answer of an enrichment fetch merged
    in. *)
Inductive tier1_record (w : World) (study : value) (r : SearchResult) : Prop :=
| plain_record (needs_details : bool) :
    SearchTool.api_study_result w study = Ok (Some (r, needs_details)) ->
    tier1_record w study r
| enriched_record (r0 d : SearchResult) (h ev : trace) :
    SearchTool.api_study_result w study = Ok (Some (r0, true)) ->
    SearchTool._get_clinical_trial_details_api w (nct_id r0) h = (Ok (Some d), ev) ->
    r = SearchTool.merge_details d r0 ->
    tier1_record w study r.

(** Two records that agree on every field but [abstract], [conditions] and
    [interventions]. *)
Definition same_but_details (r r0 : SearchResult) : Prop :=
  title r = title r0 /\ link r = link r0 /\ snippet r = snippet r0
  /\ body r = body r0 /\ authors r = authors r0 /\ published r = published r0
  /\ pdf_url r = pdf_url r0 /\ arxiv_url r = arxiv_url r0 /\ nct_id r = nct_id r0
  /\ status r = status r0 /\ study_type r = study_type r0 /\ phase r = phase r0
  /\ enrollment r = enrollment r0 /\ locations r = locations r0.

(** The snippet and the abstract of a record against the brief summary of
    the study it comes from. *)
Definition snippet_follows_summary (study : value) (r : SearchResult) : Prop :=
  forall s,
    study_field study "descriptionModule" "briefSummary" (VStr "") = Ok (VStr s) ->
    (200 < String.length s ->
     snippet r = VStr (PyStr.take 200 s ++ "...")
     /\ String.length (PyStr.take 200 s ++ "...") = 203)
    /\ (String.length s <= 200 -> snippet r = VStr s)
    /\ (0 < String.length s -> abstract r = VStr s)
    /\ (0 < String.length s <= 200 -> snippet r = abstract r).

(** The value element a labelled candidate leads to. *)
Definition labelled_value (soup : document) (candidate : document -> option node)
  : option element :=
  match candidate soup with
  | Some label =>
      match node_parent label with
      | Some parent => SearchTool.value_elem_of parent
      | None => None
      end
  | None => None
  end.

(** Kinds of effects. *)
Definition is_sleep (e : event) : bool :=
  match e with
  | EvSleep _ => true
  | _ => false
  end.

(** A pause of exactly [d] milliseconds. *)
Definition is_pause (d : Z) (e : event) : bool :=
  match e with
  | EvSleep x => (x =? d)%Z
  | _ => false
  end.

Definition is_send (e : event) : bool :=
  match e with
  | EvSend _ => true
  | _ => false
  end.

Definition is_start (e : event) : bool :=
  match e with
  | EvGenaiStart _ _ => true
  | _ => false
  end.

Definition is_arxiv (e : event) : bool :=
  match e with
  | EvArxiv _ _ => true
  | _ => false
  end.

(** The request [_get_page_content] makes for a URL. *)
Definition page_request (u : value) : request := {|
  url := u;
  params := [];
  headers := SearchTool.page_headers;
  timeout := Some 15%Z
|}.

(** A web-search record against the hit it was built from. *)
Definition record_of_hit (max_chars : Z) (item : value) (r : SearchResult) : Prop :=
  Py.getitem item "title" = Ok (title r)
  /\ Py.getitem item "link" = Ok (link r)
  /\ Py.getitem item "snippet" = Ok (snippet r)
  /\ exists b, body r = VStr b
               /\ ((0 <= max_chars)%Z -> String.length b <= Z.to_nat max_chars).

(** An arXiv record against the entry it was built from. *)
Definition record_of_paper (p : paper) (r : SearchResult) : Prop :=
  title r = VStr (paper_title p)
  /\ authors r = VList (map VStr (paper_authors p))
  /\ published r = VStr (published_ymd p)
  /\ abstract r = VStr (summary p)
  /\ pdf_url r = paper_pdf_url p
  /\ arxiv_url r
     = VStr ("https://arxiv.org/abs/" ++ PyStr.last (PyStr.split "/" (entry_id p)))
  /\ conditions r = VNone /\ interventions r = VNone /\ nct_id r = VStr "".

(** The identification of a Tier-1 record against a study: the identifier
    is that of the study and is not empty, the link is built from it, the
    phase is a text, the placeholder when the study lists no phase, and the
    title is the brief title or, failing it, the official one. *)
Definition identified_by (w : World) (study : value) (r : SearchResult) : Prop :=
  study_field study "identificationModule" "nctId" (VStr "") = Ok (nct_id r)
  /\ Py.truthy (nct_id r) = true
  /\ link r = VStr ("https://clinicaltrials.gov/ct2/show/" ++ fmt w (nct_id r))
  /\ (exists phases,
        study_field study "designModule" "phases" (VList []) = Ok phases
        /\ (if Py.truthy phases
            then exists joined, Py.join ", " phases = Ok joined /\ phase r = VStr joined
            else phase r = VStr "Not Specified"))
  /\ (exists brief official,
        study_field study "identificationModule" "briefTitle" (VStr "") = Ok brief
        /\ study_field study "identificationModule" "officialTitle" (VStr "") = Ok official
        /\ title r = (if Py.truthy brief then brief else official)).

(** The address of the page of a study. *)
Definition show_url (id : string) : string :=
  "https://clinicaltrials.gov/ct2/show/" ++ id.

(** A record read off the page of the study whose identifier was found in
    the href of a result link. *)
Definition scraped (r : SearchResult) : Prop :=
  exists href id doc,
    SearchTool.href_nct_id href = Some id
    /\ r = SearchTool.scrape_page (show_url id) doc.

(** A text without white space at either end. *)
Definition clean (s : string) : Prop := PyStr.strip s = s.

(** A contact with the generative service: the start of a session or a
    message sent. *)
Definition is_model_call (e : event) : bool :=
  match e with
  | EvGenaiStart _ _ => true
  | EvSend _ => true
  | _ => false
  end.

(** A record whose block of the registry context can be written: its
    abstract can be sliced, and its conditions are empty or can be
    joined. *)
Definition renders (r : SearchResult) : Prop :=
  (exists head, Py.slice_to 300 (abstract r) = Ok head)
  /\ (Py.truthy (conditions r) = true ->
      exists joined, Py.join ", " (conditions r) = Ok joined).

(* ===================================================================== *)
(** ** Worlds and inputs on which the program is run below *)

Definition blank_document : document := {|
  doc_select := fun _ => [];
  doc_find_all := fun _ => [];
  doc_find_string := fun _ => None;
  doc_find_tag_string := fun _ _ => None;
  doc_find_nct_string := None;
  doc_visible_text := ""
|}.

(** A page on which, of the candidates for the status, only the second
    one matches. *)
Definition status_label (label : string) : element := {|
  el_name := "span";
  el_text := label;
  el_attrs := [];
  el_select := fun _ => [];
  el_find_next := fun _ _ => None;
  el_find_next_sibling := fun _ => None
|}.

Definition second_status_page (label : string) : document := {|
  doc_select := fun css => if String.eqb css ".statusLabel" then [status_label label] else [];
  doc_find_all := fun _ => [];
  doc_find_string := fun _ => None;
  doc_find_tag_string := fun _ _ => None;
  doc_find_nct_string := None;
  doc_visible_text := label
|}.

(** A 200 answer carrying a decoded body (and, as a page, nothing). *)
Definition json_response (data : value) : response := {|
  status_code := 200;
  text := "";
  json := Ok data;
  soup := blank_document
|}.

(** A 200 answer carrying a page (and no JSON). *)
Definition page_response (page : document) : response := {|
  status_code := 200;
  text := "";
  json := Raise JSONDecodeError;
  soup := page
|}.

(** The world in which [requests.get] answers by [answer]; no arXiv entry,
    no generative service. *)
Definition serving (answer : trace -> request -> outcome response) : World := {|
  transport := answer;
  arxiv_feed := fun _ _ _ => ([], None);
  genai_start := fun _ _ _ => Raise (RemoteError "unavailable");
  genai_send := fun _ _ _ => Raise (RemoteError "unavailable");
  str_value := fun _ => "?";
  str_exn := fun _ => "error"
|}.

(** Nothing answers. *)
Definition offline : World :=
  serving (fun _ _ => Raise (RemoteError "connection refused")).

Definition with_credentials : SearchTool.t := {|
  SearchTool.api_key := Some "key";
  SearchTool.search_engine_id := Some "cx"
|}.

Definition without_api_key : SearchTool.t := {|
  SearchTool.api_key := None;
  SearchTool.search_engine_id := Some "cx"
|}.

Definition hit (n : string) : value :=
  VDict [("title", VStr ("title " ++ n));
         ("link", VStr ("https://example.org/" ++ n));
         ("snippet", VStr ("snippet " ++ n))].

Definition study (id : string) (description conditions : list (string * value)) : value :=
  VDict [("protocolSection",
          VDict [("identificationModule", VDict [("nctId", VStr id)]);
                 ("descriptionModule", VDict description);
                 ("conditionsModule", VDict conditions)])].

(** A service that lists three entries whatever count was asked for. *)
Definition generous : World :=
  serving (fun _ _ =>
    Ok (json_response
          (VDict [("items", VList [hit "1"; hit "2"; hit "3"]);
                  ("studies",
                   VList [study "NCT00000001" [("briefSummary", VStr "a")] [];
                          study "NCT00000002" [("briefSummary", VStr "b")] [];
                          study "NCT00000003" [("briefSummary", VStr "c")] []])]))).

(** The search answers with one hit; the linked page cannot be reached. *)
Definition dead_link : World :=
  serving (fun h _ =>
    match h with
    | [] => Ok (json_response (VDict [("items", VList [hit "1"])]))
    | _ => Raise (RemoteError "timed out")
    end).

(** A study with a condition and no summary, and the record the Tier-1
    loop builds from it. *)
Definition diabetes_study : value :=
  study "NCT00000001" [] [("conditions", VList [VStr "Diabetes"])].

Definition diabetes_record : SearchResult := {|
  title := VStr "";
  link := VStr "https://clinicaltrials.gov/ct2/show/NCT00000001";
  snippet := VStr "";
  body := VStr "";
  authors := VNone;
  published := VStr "";
  abstract := VStr "";
  pdf_url := VStr "";
  arxiv_url := VStr "";
  nct_id := VStr "NCT00000001";
  status := VStr "";
  study_type := VStr "";
  conditions := VList [VStr "Diabetes"];
  interventions := VNone;
  phase := VStr "Not Specified";
  enrollment := VInt 0;
  locations := VNone
|}.

(** The listing gives [diabetes_study]; its detail record gives a summary
    and no condition. *)
Definition conflicting_details : World :=
  serving (fun h _ =>
    match h with
    | [] => Ok (json_response (VDict [("studies", VList [diabetes_study])]))
    | _ => Ok (json_response
                 (study "NCT00000001" [("briefSummary", VStr "A trial.")] []))
    end).

(** A study with a detailed description and no brief summary. *)
Definition described_study : value :=
  study "NCT00000001" [("detailedDescription", VStr "Long text.")] [].

Definition described_record : SearchResult := {|
  title := VStr "";
  link := VStr "https://clinicaltrials.gov/ct2/show/NCT00000001";
  snippet := VStr "";
  body := VStr "";
  authors := VNone;
  published := VStr "";
  abstract := VStr "Long text.";
  pdf_url := VStr "";
  arxiv_url := VStr "";
  nct_id := VStr "NCT00000001";
  status := VStr "";
  study_type := VStr "";
  conditions := VList [];
  interventions := VNone;
  phase := VStr "Not Specified";
  enrollment := VInt 0;
  locations := VNone
|}.

(** A study with a brief summary. *)
Definition summarised_study : value :=
  study "NCT00000002" [("briefSummary", VStr "A short summary.")] [].

Definition summarised_record : SearchResult := {|
  title := VStr "";
  link := VStr "https://clinicaltrials.gov/ct2/show/NCT00000002";
  snippet := VStr "A short summary.";
  body := VStr "";
  authors := VNone;
  published := VStr "";
  abstract := VStr "A short summary.";
  pdf_url := VStr "";
  arxiv_url := VStr "";
  nct_id := VStr "NCT00000002";
  status := VStr "";
  study_type := VStr "";
  conditions := VList [];
  interventions := VNone;
  phase := VStr "Not Specified";
  enrollment := VInt 0;
  locations := VNone
|}.

(** The listing gives [described_study]. *)
Definition detailed_only : World :=
  serving (fun _ _ =>
    Ok (json_response (VDict [("studies", VList [described_study])]))).

(** Every page is empty. *)
Definition blank_pages : World :=
  serving (fun _ _ => Ok (page_response blank_document)).

(** A search results page with three result links, every study page being
    empty. *)
Definition result_link (href : string) : element := {|
  el_name := "a";
  el_text := "";
  el_attrs := [("href", href)];
  el_select := fun _ => [];
  el_find_next := fun _ _ => None;
  el_find_next_sibling := fun _ => None
|}.

Definition three_links_page : document := {|
  doc_select := fun css =>
    if String.eqb css ".ct-search-result a.ct-search-result__title-link"
    then [result_link "/study/NCT00000001";
          result_link "/ct2/show/NCT00000002";
          result_link "/search?id=NCT00000003"]
    else [];
  doc_find_all := fun _ => [];
  doc_find_string := fun _ => None;
  doc_find_tag_string := fun _ _ => None;
  doc_find_nct_string := None;
  doc_visible_text := ""
|}.

Definition three_links : World :=
  serving (fun h _ =>
    match h with
    | [] => Ok (page_response three_links_page)
    | _ => Ok (page_response blank_document)
    end).

(** The listing gives [summarised_study]. *)
Definition summarised_listing : World :=
  serving (fun _ _ =>
    Ok (json_response (VDict [("studies", VList [summarised_study])]))).

(** A system whose agents have no session. *)
Definition idle_agent (name : string) : Agent.t := {|
  Agent.name := name;
  Agent.api_key := "key";
  Agent.chat := None
|}.

Definition system : MultiAgentSystem.t := {|
  MultiAgentSystem.google_agent := idle_agent "Google_Search_Agent";
  MultiAgentSystem.arxiv_agent := idle_agent "Arxiv_Search_Agent";
  MultiAgentSystem.clinical_trials_agent := idle_agent "ClinicalTrials_Search_Agent";
  MultiAgentSystem.report_agent := idle_agent "Report_Agent";
  MultiAgentSystem.search_tool := with_credentials
|}.

Definition no_environment : environ := fun _ => None.

Definition short_abstract : SearchResult :=
  set_abstract (VStr "abc") (SearchResult_defaults (VStr "t")).

(** The record the web search builds from [hit n] when the page of the hit
    has no text. *)
Definition hit_record (n : string) : SearchResult := {|
  title := VStr ("title " ++ n);
  link := VStr ("https://example.org/" ++ n);
  snippet := VStr ("snippet " ++ n);
  body := VStr "";
  authors := VNone;
  published := VStr "";
  abstract := VStr "";
  pdf_url := VStr "";
  arxiv_url := VStr "";
  nct_id := VStr "";
  status := VStr "";
  study_type := VStr "";
  conditions := VNone;
  interventions := VNone;
  phase := VStr "";
  enrollment := VInt 0;
  locations := VNone
|}.

(** An arXiv feed of two entries that ends well, and one that ends on an
    error after its first entry. *)
Definition entry (id : string) : paper := {|
  entry_id := "http://arxiv.org/abs/" ++ id;
  paper_title := "paper " ++ id;
  paper_authors := ["A. Author"; "B. Author"];
  published_ymd := "2024-01-31";
  summary := "We study " ++ id ++ ".";
  paper_pdf_url := VStr ("http://arxiv.org/pdf/" ++ id)
|}.

Definition with_feed (feed : list paper * option exn) : World := {|
  transport := fun _ _ => Raise (RemoteError "connection refused");
  arxiv_feed := fun _ _ _ => feed;
  genai_start := fun _ _ _ => Raise (RemoteError "unavailable");
  genai_send := fun _ _ _ => Raise (RemoteError "unavailable");
  str_value := fun _ => "?";
  str_exn := fun _ => "error"
|}.

Definition two_papers : World :=
  with_feed ([entry "2401.00001v1"; entry "2401.00002v2"], None).

(** A study whose identifier is a number, and which has no description:
    it needs enrichment. *)
Definition numbered_study : value :=
  VDict [("protocolSection",
          VDict [("identificationModule", VDict [("nctId", VInt 12345)])])].

(** The registry lists a study with a summary, then the numbered one. *)
Definition numbered_listing : World :=
  serving (fun _ _ =>
    Ok (json_response
          (VDict [("studies",
                   VList [study "NCT00000001" [("briefSummary", VStr "a")] [];
                          numbered_study])]))).

(* ===================================================================== *)
(** ** The string operations at work *)

Example split_slash :
  PyStr.split "/" "https://clinicaltrials.gov/study/NCT01234567"
  = ["https:"; ""; "clinicaltrials.gov"; "study"; "NCT01234567"].
Proof. reflexivity. Qed.

Example split_trailing : PyStr.split "ab" "xab" = ["x"; ""].
Proof. reflexivity. Qed.

Example split_status :
  PyStr.second (PyStr.split "Status:" "Recruitment Status: Open Status: x") = " Open ".
Proof. reflexivity. Qed.

Example split1_colon : PyStr.split1 ":" "Conditions: a: b" = ["Conditions"; " a: b"].
Proof. reflexivity. Qed.

Example strip_both : PyStr.strip "  a b  " = "a b".
Proof. reflexivity. Qed.

Example search_nct_ex : PyStr.search_nct "/x/NCT0123NCT01234567z" = Some "NCT01234567".
Proof. reflexivity. Qed.

(* ===================================================================== *)
(** ** Facts about the monad *)

Section MonadFacts.

Context {A B : Type}.

Lemma bind_lift_ok (a : A) (k : A -> M B) h : bind (lift (Ok a)) k h = k a h.
Proof.
  unfold bind, lift. simpl. destruct (k a h) as [r ev].
  now rewrite app_nil_r.
Qed.

Lemma bind_lift_raise (e : exn) (k : A -> M B) h :
  bind (lift (Raise e)) k h = (Raise e, []).
Proof. reflexivity. Qed.

Lemma bind_run (m : M A) (k : A -> M B) h :
  bind m k h =
  match fst (m h) with
  | Ok a => (fst (k a (snd (m h) ++ h)%list),
             (snd (k a (snd (m h) ++ h)%list) ++ snd (m h))%list)
  | Raise e => (Raise e, snd (m h))
  end.
Proof.
  unfold bind. destruct (m h) as [[a | e] ev]; simpl; [| reflexivity].
  now destruct (k a (ev ++ h)%list).
Qed.

Lemma try_except_run (body : M A) (handler : exn -> M A) h :
  try_except body handler h =
  match fst (body h) with
  | Ok a => (Ok a, snd (body h))
  | Raise e => (fst (handler e (snd (body h) ++ h)%list),
                (snd (handler e (snd (body h) ++ h)%list) ++ snd (body h))%list)
  end.
Proof.
  unfold try_except. destruct (body h) as [[a | e] ev]; simpl; [reflexivity |].
  now destruct (handler e (ev ++ h)%list).
Qed.

End MonadFacts.

Lemma Ok_inj {A} (a b : A) : Ok a = Ok b -> a = b.
Proof. intros H. now injection H. Qed.

Lemma count_app p (ev1 ev2 : trace) :
  count p (ev1 ++ ev2)%list = count p ev1 + count p ev2.
Proof. unfold count. now rewrite filter_app, length_app. Qed.

Lemma fst_bind {A B} (m : M A) (k : A -> M B) h :
  fst (bind m k h) = match fst (m h) with
                     | Ok a => fst (k a (snd (m h) ++ h)%list)
                     | Raise e => Raise e
                     end.
Proof. rewrite bind_run. now destruct (fst (m h)). Qed.

Lemma count_bind {A B} p (m : M A) (k : A -> M B) h :
  count p (snd (bind m k h))
  = count p (snd (m h))
    + match fst (m h) with
      | Ok a => count p (snd (k a (snd (m h) ++ h)%list))
      | Raise _ => 0
      end.
Proof.
  rewrite bind_run. destruct (fst (m h)); simpl; [| lia].
  rewrite count_app. lia.
Qed.

Lemma print_run (msg : string) h : print msg h = (Ok tt, [EvPrint msg]).
Proof. reflexivity. Qed.

(** *** Computations that always return *)

Lemma returns_ret {A} (a : A) : returns (ret a).
Proof. intros h. now exists a. Qed.

Lemma returns_emit_then {A} (e : event) (m : M A) :
  returns m -> returns (emit e ;; m).
Proof.
  intros Hm h. rewrite bind_run. simpl. destruct (Hm (e :: h)) as [a Ha].
  exists a. exact Ha.
Qed.

Lemma returns_try_except {A} (body : M A) (handler : exn -> M A) :
  (forall e, returns (handler e)) -> returns (try_except body handler).
Proof.
  intros Hh h. rewrite try_except_run.
  destruct (fst (body h)) as [a | e]; simpl.
  - now exists a.
  - apply Hh.
Qed.

(** *** Computations that perform no effect of a kind *)

Section Silent.

Variable p : event -> bool.

Lemma silent_ret {A} (a : A) : silent p (ret a).
Proof. intros h. reflexivity. Qed.

Lemma silent_lift {A} (r : outcome A) : silent p (lift r).
Proof. intros h. reflexivity. Qed.

Lemma silent_raise {A} (e : exn) : silent p (@raise A e).
Proof. intros h. reflexivity. Qed.

Lemma silent_emit (e : event) : p e = false -> silent p (emit e).
Proof. intros H h. unfold count. simpl. now rewrite H. Qed.

Lemma silent_bind {A B} (m : M A) (k : A -> M B) :
  silent p m -> (forall a, silent p (k a)) -> silent p (bind m k).
Proof.
  intros Hm Hk h. rewrite bind_run. specialize (Hm h).
  destruct (fst (m h)) as [a | e]; simpl; [| exact Hm].
  rewrite count_app, Hm, (Hk a). reflexivity.
Qed.

Lemma silent_try_except {A} (body : M A) (handler : exn -> M A) :
  silent p body -> (forall e, silent p (handler e)) ->
  silent p (try_except body handler).
Proof.
  intros Hb Hh h. rewrite try_except_run. specialize (Hb h).
  destruct (fst (body h)) as [a | e]; simpl; [exact Hb |].
  rewrite count_app, Hb, (Hh e). reflexivity.
Qed.

Lemma silent_for_each {A S} (l : list A) (body : A -> S -> M S) :
  (forall a s, silent p (body a s)) -> forall s, silent p (for_each l body s).
Proof.
  intros Hb. induction l as [| a r IH]; intros s; simpl.
  - apply silent_ret.
  - apply silent_bind; [apply Hb | exact IH].
Qed.

Lemma silent_http_get (w : World) (r : request) :
  p (EvGet r) = false -> silent p (http_get w r).
Proof. intros H h. unfold count. simpl. now rewrite H. Qed.

End Silent.

(** Breaks a goal [silent p m] down along the structure of [m]. *)
Ltac silence :=
  repeat first
    [ apply silent_ret
    | apply silent_lift
    | apply silent_raise
    | apply silent_emit; reflexivity
    | apply silent_http_get; reflexivity
    | apply silent_for_each; intros ? ?
    | apply silent_try_except; [| intros ?]
    | apply silent_bind; [| intros ?]
    | match goal with
      | |- silent _ (if ?b then _ else _) => destruct b
      | |- silent _ (match ?x with _ => _ end) => destruct x
      end ].

(** *** Loops *)

(** A loop whose rounds add at most one item adds at most as many items as
    it has rounds. *)
Lemma for_each_length {A T} (l : list A) (body : A -> list T -> M (list T)) :
  (forall a s h s', fst (body a s h) = Ok s' -> List.length s' <= S (List.length s)) ->
  forall s h s', fst (for_each l body s h) = Ok s' ->
                 List.length s' <= List.length s + List.length l.
Proof.
  intros Hb. induction l as [| a r IH]; intros s h s' H; simpl in *.
  - injection H as <-. lia.
  - rewrite bind_run in H.
    destruct (fst (body a s h)) as [s1 | e] eqn:E; simpl in H; [| discriminate].
    apply IH in H. apply Hb in E. lia.
Qed.

(** A loop with an invariant on its state. *)
Lemma for_each_invariant {A S} (I : S -> Prop) (l : list A) (body : A -> S -> M S) :
  (forall a s h s', In a l -> I s -> fst (body a s h) = Ok s' -> I s') ->
  forall s h s', I s -> fst (for_each l body s h) = Ok s' -> I s'.
Proof.
  induction l as [| a r IH]; intros Hb s h s' Hs H; simpl in H.
  - apply Ok_inj in H. now subst s'.
  - rewrite bind_run in H.
    destruct (fst (body a s h)) as [s1 | e] eqn:E; simpl in H; [| discriminate].
    eapply IH; [| | exact H].
    + intros a' s0 h0 s0' Hin. apply Hb. now right.
    + eapply Hb; eauto. now left.
Qed.

(** A round that raises whatever the state and the history makes the loop
    raise. *)
Lemma for_each_raises {A S} (l : list A) (body : A -> S -> M S) (a : A) :
  In a l ->
  (forall s h, exists e, fst (body a s h) = Raise e) ->
  forall s h, exists e, fst (for_each l body s h) = Raise e.
Proof.
  intros Hin Ha. induction l as [| x r IH]; [contradiction |].
  intros s h. simpl. rewrite bind_run.
  destruct (fst (body x s h)) as [s1 | e] eqn:E; simpl.
  - destruct Hin as [-> | Hin].
    + destruct (Ha s h) as [e He]. congruence.
    + apply IH. exact Hin.
  - now exists e.
Qed.

(** The loop with [break] finds the first candidate that matches. *)
Lemma for_break_first_match {A B S} (f : A -> option B) (g : B -> S)
      (l : list A) (body : A -> S -> S * bool) (dflt : S) :
  (forall a s, body a s = match f a with
                          | Some b => (g b, true)
                          | None => (s, false)
                          end) ->
  for_break l body dflt = match first_match f l with
                          | Some b => g b
                          | None => dflt
                          end.
Proof.
  intros Hb. induction l as [| a r IH]; simpl; [reflexivity |].
  rewrite Hb. destruct (f a); [reflexivity | exact IH].
Qed.

(* ===================================================================== *)
(** ** The web search without credentials *)

(** C8.  When the API key or the search-engine id is absent,
    [google_search] returns the empty list at once: all it does is print
    its complaint, and no request leaves. *)
Theorem google_search_without_credentials
        (w : World) (self : SearchTool.t) (query : string)
        (num_results max_chars : Z) (h : trace) :
  SearchTool.api_key self = None \/ SearchTool.search_engine_id self = None ->
  SearchTool.google_search w self query num_results max_chars h
  = (Ok [], [EvPrint "Missing API credentials"])
  /\ count is_get (snd (SearchTool.google_search w self query num_results max_chars h)) = 0.
Proof.
  intros H.
  assert (E : SearchTool.google_search w self query num_results max_chars h
              = (Ok [], [EvPrint "Missing API credentials"])).
  { unfold SearchTool.google_search.
    destruct H as [-> | ->]; simpl.
    - reflexivity.
    - rewrite orb_true_r. reflexivity. }
  split; [exact E | now rewrite E].
Qed.

Lemma google_search_without_credentials_witness :
  SearchTool.google_search generous without_api_key "diabetes" 2 500 []
  = (Ok [], [EvPrint "Missing API credentials"])
  /\ count is_get
       (snd (SearchTool.google_search generous without_api_key "diabetes" 2 500 [])) = 0.
Proof.
  apply (google_search_without_credentials generous without_api_key "diabetes" 2 500 []).
  left. reflexivity.
Defined.

(* ===================================================================== *)
(** ** The generative session *)

Lemma process_returns (w : World) (self : Agent.t) (message : string) :
  returns (Agent.process w self message).
Proof.
  unfold Agent.process. destruct (Agent.chat self) as [session |].
  - apply returns_try_except. intros e. apply returns_emit_then, returns_ret.
  - apply returns_ret.
Qed.

Lemma process_service_failure (w : World) (self : Agent.t) (session : chat_session)
      (message : string) (h : trace) (e : exn) :
  Agent.chat self = Some session ->
  genai_send w h session message = Raise e
  \/ (exists reply, genai_send w h session message = Ok reply
                    /\ response_text reply = Raise e) ->
  fst (Agent.process w self message h) = Ok ("Error processing message: " ++ str_exn w e).
Proof.
  intros Hc H. unfold Agent.process. rewrite Hc.
  rewrite try_except_run, bind_run. unfold send_message. simpl.
  destruct H as [-> | [reply [-> Hr]]]; simpl.
  - reflexivity.
  - unfold lift. simpl. rewrite Hr. reflexivity.
Qed.

Lemma process_uninitialized (w : World) (self : Agent.t) (message : string) (h : trace) :
  Agent.chat self = None ->
  Agent.process w self message h = (Ok "Error: Agent not properly initialized", []).
Proof. intros Hc. unfold Agent.process. now rewrite Hc. Qed.

Lemma init_missing_credential (w : World) (env : environ) (name model : string) (h : trace) :
  env_missing (env "GOOGLE_API_KEY") = true ->
  Agent.__init__ w env name model h
  = (Raise (ValueError "GOOGLE_API_KEY environment variable not set"), []).
Proof.
  intros H. unfold Agent.__init__.
  destruct (env "GOOGLE_API_KEY") as [key |]; simpl in H; [| reflexivity].
  now rewrite H.
Qed.

Lemma init_failed_start (w : World) (env : environ) (name model key : string)
      (h : trace) (e : exn) :
  env "GOOGLE_API_KEY" = Some key ->
  PyStr.is_empty key = false ->
  genai_start w h key model = Raise e ->
  fst (Agent.__init__ w env name model h)
  = Ok {| Agent.name := name; Agent.api_key := key; Agent.chat := None |}.
Proof.
  intros Hk Hne Hs. unfold Agent.__init__. rewrite Hk, Hne.
  rewrite try_except_run, bind_run. unfold start_chat. simpl. rewrite Hs.
  reflexivity.
Qed.

(** C9, as the program has it.  [process] always returns a text and lets no
    exception out; when the service fails (on sending, or on reading the
    reply's text) it returns a diagnostic text; when the session could not
    be started although the credential was there, the agent is built
    without a session and every [process] call returns the one fixed
    message, without calling the service.  A missing credential, however,
    makes the constructor itself raise [ValueError]. *)
Theorem agent_fail_soft (w : World) :
  (forall self message, returns (Agent.process w self message))
  /\ (forall self session message h e,
        Agent.chat self = Some session ->
        genai_send w h session message = Raise e
        \/ (exists reply, genai_send w h session message = Ok reply
                          /\ response_text reply = Raise e) ->
        fst (Agent.process w self message h)
        = Ok ("Error processing message: " ++ str_exn w e))
  /\ (forall env name model key h e,
        env "GOOGLE_API_KEY" = Some key ->
        PyStr.is_empty key = false ->
        genai_start w h key model = Raise e ->
        exists self,
          fst (Agent.__init__ w env name model h) = Ok self
          /\ forall message h',
               Agent.process w self message h'
               = (Ok "Error: Agent not properly initialized", []))
  /\ (forall env name model h,
        env_missing (env "GOOGLE_API_KEY") = true ->
        Agent.__init__ w env name model h
        = (Raise (ValueError "GOOGLE_API_KEY environment variable not set"), [])).
Proof.
  split; [| split; [| split]].
  - apply process_returns.
  - intros. eapply process_service_failure; eauto.
  - intros env name model key h e Hk Hne Hs.
    eexists. split.
    + eapply init_failed_start; eauto.
    + intros message h'. now apply process_uninitialized.
  - intros. now apply init_missing_credential.
Qed.

Lemma agent_fail_soft_witness :
  exists self,
    fst (Agent.__init__ offline (fun _ => Some "key") "Report_Agent" "gemini-pro" [])
    = Ok self
    /\ forall message h',
         Agent.process offline self message h'
         = (Ok "Error: Agent not properly initialized", []).
Proof.
  apply (proj1 (proj2 (proj2 (agent_fail_soft offline)))
           (fun _ => Some "key") "Report_Agent" "gemini-pro" "key" []
           (RemoteError "unavailable")); reflexivity.
Defined.

(** C9 as stated fails: with the credential missing no agent comes out of
    the constructor, so there is no session to answer "not initialized". *)
Lemma agent_without_credential_is_not_built :
  ~ exists self,
      fst (Agent.__init__ offline no_environment "Report_Agent" "gemini-pro" [])
      = Ok self.
Proof. intros [self H]. discriminate H. Qed.

(* ===================================================================== *)
(** ** The summary line of the registry block *)

Lemma append_assoc (a b c : string) : (a ++ b) ++ c = a ++ (b ++ c).
Proof. induction a as [| x a IH]; simpl; [reflexivity | now rewrite IH]. Qed.

Lemma append_nil_r (a : string) : a ++ "" = a.
Proof. induction a as [| x a IH]; simpl; [reflexivity | now rewrite IH]. Qed.

Lemma length_append (a b : string) :
  String.length (a ++ b) = String.length a + String.length b.
Proof. induction a as [| x a IH]; simpl; [reflexivity | now rewrite IH]. Qed.

Lemma length_take (n : nat) (s : string) :
  String.length (PyStr.take n s) = Nat.min n (String.length s).
Proof.
  revert s. induction n as [| n IH]; intros [| c s]; simpl; try reflexivity.
  now rewrite IH.
Qed.

Lemma take_all (n : nat) (s : string) : String.length s <= n -> PyStr.take n s = s.
Proof.
  revert s. induction n as [| n IH]; intros [| c s] H; simpl in *; try reflexivity.
  - lia.
  - rewrite IH; [reflexivity | lia].
Qed.

Section Blocks.

Context (w : World).

Let step (result : SearchResult) (context : string) : M string :=
  block <- lift (MultiAgentSystem.trial_block w result) ;; ret (context ++ block).

Lemma step_run result context h :
  step result context h =
  match MultiAgentSystem.trial_block w result with
  | Ok block => (Ok (context ++ block), [])
  | Raise e => (Raise e, [])
  end.
Proof.
  unfold step. destruct (MultiAgentSystem.trial_block w result) as [block | e].
  - now rewrite bind_lift_ok.
  - reflexivity.
Qed.

(** The loop only ever appends to the context. *)
Lemma context_grows (l : list SearchResult) :
  forall context h context',
    fst (for_each l step context h) = Ok context' ->
    exists rest, context' = context ++ rest.
Proof.
  induction l as [| r l IH]; intros context h context' H; simpl in H.
  - injection H as <-. exists "". now rewrite append_nil_r.
  - rewrite bind_run, step_run in H.
    destruct (MultiAgentSystem.trial_block w r) as [block | e]; simpl in H;
      [| discriminate].
    apply IH in H. destruct H as [rest ->].
    exists (block ++ rest). apply append_assoc.
Qed.

(** The block of every record is part of the context built. *)
Lemma context_has_blocks (l : list SearchResult) :
  forall context h context' r,
    In r l ->
    fst (for_each l step context h) = Ok context' ->
    exists block before after,
      MultiAgentSystem.trial_block w r = Ok block
      /\ context' = before ++ block ++ after.
Proof.
  induction l as [| x l IH]; intros context h context' r Hin H; [contradiction |].
  simpl in H. rewrite bind_run, step_run in H.
  destruct (MultiAgentSystem.trial_block w x) as [block | e] eqn:E; simpl in H;
    [| discriminate].
  destruct Hin as [-> | Hin].
  - apply context_grows in H. destruct H as [rest ->].
    exists block, context, rest. split; [exact E | apply append_assoc].
  - eapply IH; eauto.
Qed.

Lemma registry_context_has_blocks topic results h context r :
  In r results ->
  fst (MultiAgentSystem.registry_context w topic results h) = Ok context ->
  exists block before after,
    MultiAgentSystem.trial_block w r = Ok block
    /\ context = before ++ block ++ after.
Proof.
  intros Hin H. unfold MultiAgentSystem.registry_context in H.
  destruct results as [| x l]; [contradiction |].
  eapply context_has_blocks; eauto.
Qed.

(** The summary line is part of the block of its record. *)
Lemma trial_block_has_summary_line result block :
  MultiAgentSystem.trial_block w result = Ok block ->
  exists line before after,
    MultiAgentSystem.summary_line w result = Ok line
    /\ block = before ++ line ++ after.
Proof.
  unfold MultiAgentSystem.trial_block. intros H.
  destruct (MultiAgentSystem.conditions_line result) as [ctext | e]; [| discriminate].
  destruct (MultiAgentSystem.summary_line w result) as [line | e]; [| discriminate].
  injection H as <-.
  exists line.
  exists (PyStr.nl ++ "Title: " ++ fmt w (title result) ++ PyStr.nl
          ++ "NCT ID: " ++ fmt w (nct_id result) ++ PyStr.nl
          ++ "Status: " ++ fmt w (status result) ++ PyStr.nl
          ++ "Study Type: " ++ fmt w (study_type result) ++ PyStr.nl
          ++ "Phase: " ++ fmt w (phase result) ++ PyStr.nl
          ++ ctext).
  exists ("URL: " ++ fmt w (link result) ++ PyStr.nl).
  split; [reflexivity |].
  repeat rewrite append_assoc. reflexivity.
Qed.

End Blocks.

(** C7, as the program has it.  The summary line of a record carries the
    first 300 characters of its abstract followed by the ellipsis marker,
    whatever the length of the abstract: an abstract of at most 300
    characters appears whole, and is followed by the marker too.  The line
    is part of the context block the orchestrator builds. *)
Theorem summary_line_truncates
        (w : World) (result : SearchResult) (a : string) :
  abstract result = VStr a ->
  MultiAgentSystem.summary_line w result
  = Ok ("Summary: " ++ PyStr.take 300 a ++ "..." ++ PyStr.nl)
  /\ (String.length a <= 300 -> PyStr.take 300 a = a)
  /\ (300 < String.length a -> String.length (PyStr.take 300 a) = 300)
  /\ (forall topic results h context,
        In result results ->
        fst (MultiAgentSystem.registry_context w topic results h) = Ok context ->
        exists before after,
          context = before ++ ("Summary: " ++ PyStr.take 300 a ++ "..." ++ PyStr.nl)
                           ++ after).
Proof.
  intros Ha.
  assert (E : MultiAgentSystem.summary_line w result
              = Ok ("Summary: " ++ PyStr.take 300 a ++ "..." ++ PyStr.nl)).
  { unfold MultiAgentSystem.summary_line. rewrite Ha. reflexivity. }
  split; [exact E |].
  split; [apply take_all |].
  split; [intros H; rewrite length_take; lia |].
  intros topic results h context Hin H.
  destruct (registry_context_has_blocks w topic results h result Hin H)
    as [block [before [after [Hb ->]]]].
  destruct (trial_block_has_summary_line w result Hb)
    as [line [before' [after' [Hl ->]]]].
  rewrite E in Hl. apply Ok_inj in Hl. subst line.
  exists (before ++ before'), (after' ++ after).
  repeat rewrite append_assoc. reflexivity.
Qed.

Lemma summary_line_truncates_witness :
  MultiAgentSystem.summary_line offline short_abstract
  = Ok ("Summary: " ++ PyStr.take 300 "abc" ++ "..." ++ PyStr.nl).
Proof.
  apply (proj1 (summary_line_truncates offline short_abstract (a := "abc") eq_refl)).
Defined.

(** C7 as stated fails: an abstract of three characters is followed by the
    ellipsis marker all the same. *)
Lemma short_abstract_gets_ellipsis :
  String.length "abc" <= 300
  /\ MultiAgentSystem.summary_line offline short_abstract
     = Ok ("Summary: abc..." ++ PyStr.nl)
  /\ MultiAgentSystem.summary_line offline short_abstract
     <> Ok ("Summary: abc" ++ PyStr.nl).
Proof.
  split; [simpl; lia |]. split; [reflexivity | discriminate].
Qed.

(* ===================================================================== *)
(** ** The fields read off a study page *)

Lemma title_step_spec soup selector title :
  SearchTool.title_step soup selector title =
  match Soup.select_one soup selector with
  | Some e => (PyStr.strip (el_text e), true)
  | None => (title, false)
  end.
Proof. reflexivity. Qed.

Lemma status_step_spec soup selector status :
  SearchTool.status_step soup selector status =
  match SearchTool.resolve soup "p" selector with
  | Some e => (SearchTool.status_of_text (PyStr.strip (el_text e)), true)
  | None => (status, false)
  end.
Proof. reflexivity. Qed.

Lemma labelled_step_spec soup candidate current :
  SearchTool.labelled_step soup candidate current =
  match labelled_value soup candidate with
  | Some v => (PyStr.strip (el_text v), true)
  | None => (current, false)
  end.
Proof.
  unfold SearchTool.labelled_step, labelled_value.
  destruct (candidate soup) as [label |]; [| reflexivity].
  destruct (node_parent label) as [parent |]; reflexivity.
Qed.

Lemma conditions_step_spec soup selector conditions :
  SearchTool.conditions_step soup selector conditions =
  match SearchTool.resolve soup "section" selector with
  | Some section => (SearchTool.conditions_of_section section, true)
  | None => (conditions, false)
  end.
Proof. reflexivity. Qed.

(** The first two candidates for the status are plain selectors; the third
    one looks for the words [Recruitment Status:] in a paragraph. *)
Lemma resolve_status_selectors soup :
  map (SearchTool.resolve soup "p") SearchTool.status_selectors
  = [Soup.select_one soup ".ct-recruitment-status div.ct-recruitment-status__label";
     Soup.select_one soup ".statusLabel";
     find (fun p => PyStr.contains "Recruitment Status:" (el_text p))
          (doc_find_all soup "p")].
Proof. reflexivity. Qed.

Lemma status_by_second_selector url doc e :
  Soup.select_one doc ".ct-recruitment-status div.ct-recruitment-status__label" = None ->
  Soup.select_one doc ".statusLabel" = Some e ->
  status (SearchTool.scrape_page url doc)
  = VStr (SearchTool.status_of_text (PyStr.strip (el_text e))).
Proof.
  intros H1 H2.
  pose proof (resolve_status_selectors doc) as R.
  unfold SearchTool.scrape_page. cbv beta zeta. unfold status.
  unfold SearchTool.status_selectors in *. simpl map in R.
  assert (R1 : SearchTool.resolve doc "p"
                 ".ct-recruitment-status div.ct-recruitment-status__label" = None)
    by (rewrite <- H1; exact (f_equal (fun l => nth 0 l None) R)).
  assert (R2 : SearchTool.resolve doc "p" ".statusLabel" = Some e)
    by (rewrite <- H2; exact (f_equal (fun l => nth 1 l None) R)).
  cbn [for_break]. rewrite status_step_spec, R1.
  cbn [for_break]. rewrite status_step_spec, R2. reflexivity.
Qed.

Lemma details_scrape_emits (w : World) (url : string) (h : trace) (page : response) :
  transport w h {| url := VStr url; params := [];
                   headers := SearchTool.page_headers; timeout := Some 15%Z |}
  = Ok page ->
  status_code page = 200%Z ->
  fst (SearchTool._get_clinical_trial_details_scrape w url h)
  = Ok (Some (SearchTool.scrape_page url (soup page))).
Proof.
  intros Ht Hs. unfold SearchTool._get_clinical_trial_details_scrape.
  rewrite try_except_run, bind_run. unfold http_get. simpl.
  rewrite Ht. simpl. rewrite Hs. reflexivity.
Qed.

(** C5, as the program has it.  Each field of the record read off a study
    page comes from the first candidate of its list that matches, in the
    order of the list; a candidate matches when it designates an element
    (for study type and phase: when its label has a parent with a value
    element next to it), whatever the text of that element.  The title and
    the summary are the stripped text of the element; the status is that
    text, or what follows [Status:] in it; the conditions are the list
    items of the section, or its text split at commas.  When only the
    second candidate for the status matches, the status comes from that
    one.  When no candidate matches the field keeps its default, which is
    [Unknown Title] for the title, [Unknown] for the status, the empty
    text or the empty list for the others; and the record is returned
    whenever the page was served with status 200. *)
Theorem scrape_page_first_match (url : string) (doc : document) :
  title (SearchTool.scrape_page url doc)
  = VStr (match first_match (Soup.select_one doc) SearchTool.title_selectors with
          | Some e => PyStr.strip (el_text e)
          | None => "Unknown Title"
          end)
  /\ status (SearchTool.scrape_page url doc)
     = VStr (match first_match (SearchTool.resolve doc "p") SearchTool.status_selectors with
             | Some e => SearchTool.status_of_text (PyStr.strip (el_text e))
             | None => "Unknown"
             end)
  /\ abstract (SearchTool.scrape_page url doc)
     = VStr (match first_match (Soup.select_one doc) SearchTool.summary_selectors with
             | Some e => PyStr.strip (el_text e)
             | None => ""
             end)
  /\ study_type (SearchTool.scrape_page url doc)
     = VStr (match first_match (labelled_value doc) SearchTool.study_type_selectors with
             | Some v => PyStr.strip (el_text v)
             | None => ""
             end)
  /\ phase (SearchTool.scrape_page url doc)
     = VStr (match first_match (labelled_value doc) SearchTool.phase_selectors with
             | Some v => PyStr.strip (el_text v)
             | None => ""
             end)
  /\ conditions (SearchTool.scrape_page url doc)
     = VList (map VStr
                (match first_match (SearchTool.resolve doc "section")
                                   SearchTool.conditions_selectors with
                 | Some section => SearchTool.conditions_of_section section
                 | None => []
                 end))
  /\ (forall e,
        Soup.select_one doc ".ct-recruitment-status div.ct-recruitment-status__label"
        = None ->
        Soup.select_one doc ".statusLabel" = Some e ->
        status (SearchTool.scrape_page url doc)
        = VStr (SearchTool.status_of_text (PyStr.strip (el_text e))))
  /\ (forall w h page,
        transport w h {| url := VStr url; params := [];
                         headers := SearchTool.page_headers; timeout := Some 15%Z |}
        = Ok page ->
        status_code page = 200%Z ->
        fst (SearchTool._get_clinical_trial_details_scrape w url h)
        = Ok (Some (SearchTool.scrape_page url (soup page)))).
Proof.
  unfold SearchTool.scrape_page. cbv beta zeta.
  cbn [title status abstract study_type phase conditions].
  repeat split.
  - f_equal. apply for_break_first_match. intros. apply title_step_spec.
  - f_equal.
    apply (for_break_first_match (SearchTool.resolve doc "p")
             (fun e => SearchTool.status_of_text (PyStr.strip (el_text e)))).
    intros. apply status_step_spec.
  - f_equal. apply for_break_first_match. intros. reflexivity.
  - f_equal. apply for_break_first_match. intros. apply labelled_step_spec.
  - f_equal. apply for_break_first_match. intros. apply labelled_step_spec.
  - do 2 f_equal. apply for_break_first_match. intros. apply conditions_step_spec.
  - intros e H1 H2. exact (status_by_second_selector url doc H1 H2).
  - intros w h page Ht Hs. exact (details_scrape_emits w url h Ht Hs).
Qed.

Lemma scrape_page_first_match_witness :
  status (SearchTool.scrape_page "https://clinicaltrials.gov/ct2/show/NCT00000001"
            (second_status_page "Recruiting"))
  = VStr (SearchTool.status_of_text (PyStr.strip (el_text (status_label "Recruiting")))).
Proof.
  apply (proj1 (proj2 (proj2 (proj2 (proj2 (proj2 (proj2
           (scrape_page_first_match "https://clinicaltrials.gov/ct2/show/NCT00000001"
              (second_status_page "Recruiting"))))))))
           (status_label "Recruiting")); reflexivity.
Defined.

(** C5 as stated fails: where no candidate for the title matches, the title
    is [Unknown Title], not [Unknown]; and a status text holding [Status:]
    is cut down to what follows it. *)
Lemma unmatched_title_is_unknown_title :
  (exists r,
     fst (SearchTool._get_clinical_trial_details_scrape blank_pages
            "https://clinicaltrials.gov/ct2/show/NCT00000001" []) = Ok (Some r)
     /\ title r = VStr "Unknown Title"
     /\ title r <> VStr "Unknown"
     /\ status r = VStr "Unknown")
  /\ status (SearchTool.scrape_page "https://clinicaltrials.gov/ct2/show/NCT00000001"
               (second_status_page "Recruitment Status: Recruiting"))
     = VStr "Recruiting".
Proof.
  split.
  - eexists. split; [reflexivity |].
    split; [reflexivity |]. split; [discriminate | reflexivity].
  - reflexivity.
Qed.

(* ===================================================================== *)
(** ** No adapter lets an exception out *)

Lemma handler_returns {A} (msg : string) (a : A) : returns (print msg ;; ret a).
Proof. apply returns_emit_then, returns_ret. Qed.

Lemma google_search_returns w self query num_results max_chars :
  returns (SearchTool.google_search w self query num_results max_chars).
Proof.
  unfold SearchTool.google_search.
  destruct (env_missing _ || env_missing _).
  - apply handler_returns.
  - apply returns_try_except. intros e. apply handler_returns.
Qed.

Lemma arxiv_search_returns w query max_results :
  returns (SearchTool.arxiv_search w query max_results).
Proof. apply returns_try_except. intros e. apply handler_returns. Qed.

Lemma beta_api_returns w query max_results :
  returns (SearchTool.clinicaltrials_search_beta_api w query max_results).
Proof. apply returns_try_except. intros e. apply handler_returns. Qed.

Lemma scrape_returns w query max_results :
  returns (SearchTool.clinicaltrials_search_scrape w query max_results).
Proof. apply returns_try_except. intros e. apply handler_returns. Qed.

Lemma page_content_returns w url max_chars :
  returns (SearchTool._get_page_content w url max_chars).
Proof. apply returns_try_except. intros e. apply handler_returns. Qed.

Lemma details_scrape_returns w url :
  returns (SearchTool._get_clinical_trial_details_scrape w url).
Proof. apply returns_try_except. intros e. apply handler_returns. Qed.

(** *** A failed request gives the empty list *)

(** The shape all four adapters share: a request, then the rest, inside a
    [try] whose handler prints and gives the empty list. *)
Lemma fetch_run {A} (w : World) (req : request) (k : response -> M (list A))
      (msg : exn -> string) (h : trace) :
  fst (try_except (response <- http_get w req ;; k response)
                  (fun e => print (msg e) ;; ret []) h)
  = match transport w h req with
    | Raise _ => Ok []
    | Ok response =>
        match fst (k response (EvGet req :: h)) with
        | Ok l => Ok l
        | Raise _ => Ok []
        end
    end.
Proof.
  rewrite try_except_run, bind_run. unfold http_get. simpl.
  destruct (transport w h req) as [response | e]; simpl; [| reflexivity].
  destruct (fst (k response (EvGet req :: h))); reflexivity.
Qed.

Lemma google_search_failed w self query num_results max_chars h :
  failed true (transport w h (SearchTool.google_request self query num_results)) = true ->
  fst (SearchTool.google_search w self query num_results max_chars h) = Ok [].
Proof.
  intros H. unfold SearchTool.google_search.
  destruct (env_missing _ || env_missing _); [reflexivity |].
  rewrite fetch_run.
  destruct (transport w h _) as [response | e]; [| reflexivity].
  simpl in H.
  destruct (status_code response =? 200)%Z; simpl in *; [| reflexivity].
  destruct (json response) as [data | e]; [discriminate | reflexivity].
Qed.

Lemma beta_api_failed w query max_results h :
  failed true (transport w h (SearchTool.api_request query max_results)) = true ->
  fst (SearchTool.clinicaltrials_search_beta_api w query max_results h) = Ok [].
Proof.
  intros H. unfold SearchTool.clinicaltrials_search_beta_api.
  rewrite fetch_run.
  destruct (transport w h _) as [response | e]; [| reflexivity].
  simpl in H.
  destruct (status_code response =? 200)%Z; simpl in *; [| reflexivity].
  destruct (json response) as [data | e]; [discriminate | reflexivity].
Qed.

Lemma scrape_failed w query max_results h :
  failed false (transport w h (SearchTool.scrape_request query)) = true ->
  fst (SearchTool.clinicaltrials_search_scrape w query max_results h) = Ok [].
Proof.
  intros H. unfold SearchTool.clinicaltrials_search_scrape.
  rewrite fetch_run.
  destruct (transport w h _) as [response | e]; [| reflexivity].
  simpl in H. rewrite orb_false_r in H.
  destruct (status_code response =? 200)%Z; simpl in *; [discriminate | reflexivity].
Qed.

Lemma arxiv_search_failed w query max_results h e :
  snd (arxiv_feed w h query max_results) = Some e ->
  fst (SearchTool.arxiv_search w query max_results h) = Ok [].
Proof.
  intros H. unfold SearchTool.arxiv_search.
  rewrite try_except_run, bind_run. unfold arxiv_results at 1 2. simpl.
  rewrite bind_run.
  destruct (fst (for_each _ _ _ _)) as [results | e']; simpl; [| reflexivity].
  unfold arxiv_results. simpl. rewrite H. reflexivity.
Qed.

(** *** A hit without one of its three fields costs the whole list *)

Lemma google_item_raises w max_chars item :
  (exists key e, In key ["link"; "title"; "snippet"] /\ Py.getitem item key = Raise e) ->
  forall s h, exists e, fst (SearchTool.google_item w max_chars item s h) = Raise e.
Proof.
  intros [key [e [Hk He]]] s h. unfold SearchTool.google_item.
  destruct (Py.getitem item "link") as [item_link | e1] eqn:L.
  2:{ exists e1. reflexivity. }
  rewrite bind_lift_ok, bind_run.
  destruct (page_content_returns w item_link max_chars h) as [body ->].
  destruct (Py.getitem item "title") as [item_title | e2] eqn:T.
  2:{ exists e2. reflexivity. }
  rewrite bind_lift_ok, bind_lift_ok.
  destruct (Py.getitem item "snippet") as [item_snippet | e3] eqn:S.
  2:{ exists e3. reflexivity. }
  simpl in Hk. destruct Hk as [<- | [<- | [<- | []]]]; congruence.
Qed.

Lemma google_search_hit_incomplete w self query num_results max_chars h item :
  In item (listed "items" (transport w h (SearchTool.google_request self query num_results))) ->
  (exists key e, In key ["link"; "title"; "snippet"] /\ Py.getitem item key = Raise e) ->
  fst (SearchTool.google_search w self query num_results max_chars h) = Ok [].
Proof.
  intros Hin Hmiss. unfold SearchTool.google_search.
  destruct (env_missing _ || env_missing _); [reflexivity |].
  rewrite fetch_run.
  destruct (transport w h _) as [response | e]; [| reflexivity].
  simpl in Hin.
  destruct (negb (status_code response =? 200)%Z); [reflexivity |].
  destruct (json response) as [data | e]; [| reflexivity].
  rewrite bind_lift_ok.
  destruct (Py.get data "items" (VList [])) as [results | e]; [| reflexivity].
  rewrite bind_lift_ok.
  destruct (Py.iter results) as [items | e]; [| reflexivity].
  rewrite bind_lift_ok.
  destruct (for_each_raises items (SearchTool.google_item w max_chars) item Hin
              (@google_item_raises w max_chars item Hmiss) [] (EvGet (SearchTool.google_request self query num_results) :: h))
    as [e ->].
  reflexivity.
Qed.

(* ===================================================================== *)
(** ** What one round of each loop does *)

Lemma update_last_snoc {A} (f : A -> A) (l : list A) (a : A) :
  update_last f (l ++ [a])%list = (l ++ [f a])%list.
Proof.
  induction l as [| x l IH]; [reflexivity |].
  change ((x :: l) ++ [a])%list with (x :: (l ++ [a]))%list.
  change ((x :: l) ++ [f a])%list with (x :: (l ++ [f a]))%list.
  rewrite <- IH. simpl. destruct (l ++ [a])%list eqn:E; [| reflexivity].
  destruct l; discriminate E.
Qed.

(** A round of the web-search loop appends one record, whose list fields
    are all [None]. *)
Lemma google_item_appends w max_chars item s h s' :
  fst (SearchTool.google_item w max_chars item s h) = Ok s' ->
  exists r, s' = (s ++ [r])%list
            /\ authors r = VNone /\ conditions r = VNone
            /\ interventions r = VNone /\ locations r = VNone.
Proof.
  unfold SearchTool.google_item.
  destruct (Py.getitem item "link") as [item_link | e1]; [| discriminate].
  rewrite bind_lift_ok, bind_run.
  destruct (page_content_returns w item_link max_chars h) as [body ->].
  destruct (Py.getitem item "title") as [item_title | e2]; [| discriminate].
  rewrite bind_lift_ok, bind_lift_ok.
  destruct (Py.getitem item "snippet") as [item_snippet | e3]; [| discriminate].
  rewrite bind_lift_ok. simpl. intros H. apply Ok_inj in H. subst s'.
  eexists. split; [reflexivity |]. repeat split.
Qed.

Lemma arxiv_entry_appends p s h :
  exists r, fst (SearchTool.arxiv_entry p s h) = Ok (s ++ [r])%list.
Proof. eexists. reflexivity. Qed.

(** A round of the Tier-1 loop, case by case. *)
Lemma api_study_run w study results h :
  SearchTool.api_study w study results h =
  match SearchTool.api_study_result w study with
  | Raise e => (Raise e, [])
  | Ok None => (Ok results, [])
  | Ok (Some (r0, false)) => (Ok (results ++ [r0])%list, [EvSleep 2000])
  | Ok (Some (r0, true)) =>
      match SearchTool._get_clinical_trial_details_api w (nct_id r0) h with
      | (Ok (Some d), ev) =>
          (Ok (results ++ [SearchTool.merge_details d r0])%list, EvSleep 2000 :: ev)
      | (Ok None, ev) => (Ok (results ++ [r0])%list, EvSleep 2000 :: ev)
      | (Raise e, ev) => (Raise e, ev)
      end
  end.
Proof.
  unfold SearchTool.api_study.
  destruct (SearchTool.api_study_result w study) as [[[r0 [|]] |] | e];
    try reflexivity.
  rewrite bind_lift_ok. cbv zeta.
  rewrite bind_run, bind_run.
  destruct (SearchTool._get_clinical_trial_details_api w (nct_id r0) h)
    as [[[d |] | e] ev]; simpl; try reflexivity.
  rewrite update_last_snoc. reflexivity.
Qed.

Lemma api_study_length w study s h s' :
  fst (SearchTool.api_study w study s h) = Ok s' ->
  List.length s' <= S (List.length s).
Proof.
  rewrite api_study_run.
  destruct (SearchTool.api_study_result w study) as [[[r0 [|]] |] | e]; simpl.
  - destruct (SearchTool._get_clinical_trial_details_api w (nct_id r0) h)
      as [[[d |] | e] ev]; simpl; intros H; try discriminate;
      apply Ok_inj in H; subst s'; rewrite length_app; simpl; lia.
  - intros H. apply Ok_inj in H. subst s'. rewrite length_app. simpl. lia.
  - intros H. apply Ok_inj in H. subst s'. lia.
  - discriminate.
Qed.

Lemma scrape_link_length w link s h s' :
  fst (SearchTool.scrape_link w link s h) = Ok s' ->
  List.length s' <= S (List.length s).
Proof.
  unfold SearchTool.scrape_link.
  destruct (PyStr.is_empty _).
  { simpl. intros H. apply Ok_inj in H. subst. lia. }
  destruct (SearchTool.href_nct_id _) as [nct_id |].
  2:{ simpl. intros H. apply Ok_inj in H. subst. lia. }
  rewrite bind_run.
  destruct (details_scrape_returns w ("https://clinicaltrials.gov/ct2/show/" ++ nct_id) h)
    as [[info |] ->]; simpl; intros H; apply Ok_inj in H; subst s'.
  - rewrite length_app. simpl. lia.
  - lia.
Qed.

(* ===================================================================== *)
(** ** How many records a fetch returns *)

Lemma google_search_length w self query num_results max_chars h l :
  fst (SearchTool.google_search w self query num_results max_chars h) = Ok l ->
  List.length l
  <= List.length (listed "items"
                    (transport w h (SearchTool.google_request self query num_results))).
Proof.
  unfold SearchTool.google_search.
  destruct (env_missing _ || env_missing _).
  { simpl. intros H. apply Ok_inj in H. subst l. simpl. lia. }
  rewrite fetch_run.
  assert (Hnil : Ok (@nil SearchResult) = Ok l -> List.length l <= List.length
            (listed "items" (transport w h (SearchTool.google_request self query num_results)))).
  { intros H. apply Ok_inj in H. subst l. simpl. lia. }
  destruct (transport w h _) as [response | e]; [| exact Hnil].
  simpl listed in *.
  destruct (negb (status_code response =? 200)%Z); [exact Hnil |].
  destruct (json response) as [data | e]; [| exact Hnil].
  rewrite bind_lift_ok.
  destruct (Py.get data "items" (VList [])) as [results | e]; [| exact Hnil].
  rewrite bind_lift_ok.
  destruct (Py.iter results) as [items | e]; [| exact Hnil].
  rewrite bind_lift_ok.
  destruct (fst (for_each items _ _ _)) as [l' | e] eqn:E.
  - intros H. apply Ok_inj in H. subst l'.
    apply for_each_length in E; [exact E |].
    intros a s h0 s' Hs. apply google_item_appends in Hs.
    destruct Hs as [r [-> _]]. rewrite length_app. simpl. lia.
  - intros H. apply Ok_inj in H. subst l. simpl. lia.
Qed.

Lemma beta_api_length w query max_results h l :
  fst (SearchTool.clinicaltrials_search_beta_api w query max_results h) = Ok l ->
  List.length l
  <= List.length (listed "studies"
                    (transport w h (SearchTool.api_request query max_results))).
Proof.
  unfold SearchTool.clinicaltrials_search_beta_api.
  rewrite fetch_run.
  assert (Hnil : Ok (@nil SearchResult) = Ok l -> List.length l <= List.length
            (listed "studies" (transport w h (SearchTool.api_request query max_results)))).
  { intros H. apply Ok_inj in H. subst l. simpl. lia. }
  destruct (transport w h _) as [response | e]; [| exact Hnil].
  simpl listed in *.
  destruct (negb (status_code response =? 200)%Z); [exact Hnil |].
  destruct (json response) as [data | e]; [| exact Hnil].
  rewrite bind_lift_ok.
  destruct (Py.get data "studies" (VList [])) as [studies | e]; [| exact Hnil].
  rewrite bind_lift_ok.
  destruct (negb (Py.truthy studies)); [exact Hnil |].
  destruct (Py.iter studies) as [each | e]; [| exact Hnil].
  rewrite bind_lift_ok.
  destruct (fst (for_each each _ _ _)) as [l' | e] eqn:E.
  - intros H. apply Ok_inj in H. subst l'.
    apply for_each_length in E; [exact E |].
    intros a s h0 s'. apply api_study_length.
  - intros H. apply Ok_inj in H. subst l. simpl. lia.
Qed.

Lemma arxiv_search_length w query max_results h l :
  fst (SearchTool.arxiv_search w query max_results h) = Ok l ->
  List.length l <= List.length (fst (arxiv_feed w h query max_results)).
Proof.
  unfold SearchTool.arxiv_search.
  rewrite try_except_run, bind_run. unfold arxiv_results at 1 2. simpl.
  rewrite bind_run.
  destruct (fst (for_each _ _ _ _)) as [results | e] eqn:E; simpl.
  - apply for_each_length in E.
    2:{ intros a s h0 s' Hs. destruct (arxiv_entry_appends a s h0) as [r Hr].
        rewrite Hr in Hs. apply Ok_inj in Hs. subst s'.
        rewrite length_app. simpl. lia. }
    unfold arxiv_results. simpl.
    destruct (snd (arxiv_feed w h query max_results)); simpl;
      intros H; apply Ok_inj in H; subst l; simpl in *; lia.
  - intros H. apply Ok_inj in H. subst l. simpl. lia.
Qed.

Lemma list_slice_to_length {A} (n : Z) (l : list A) :
  (0 <= n)%Z -> List.length (Py.list_slice_to n l) <= Z.to_nat n.
Proof.
  intros H. unfold Py.list_slice_to.
  destruct (0 <=? n)%Z eqn:E; [| lia].
  rewrite length_firstn. lia.
Qed.

Lemma scrape_length w query max_results h l :
  (0 <= max_results)%Z ->
  fst (SearchTool.clinicaltrials_search_scrape w query max_results h) = Ok l ->
  List.length l <= Z.to_nat max_results.
Proof.
  intros Hn. unfold SearchTool.clinicaltrials_search_scrape.
  rewrite fetch_run.
  assert (Hnil : Ok (@nil SearchResult) = Ok l -> List.length l <= Z.to_nat max_results).
  { intros H. apply Ok_inj in H. subst l. simpl. lia. }
  destruct (transport w h _) as [response | e]; [| exact Hnil].
  destruct (negb (status_code response =? 200)%Z); [exact Hnil |].
  pose proof (list_slice_to_length
                (doc_select (soup response)
                   ".ct-search-result a.ct-search-result__title-link") Hn) as Hl.
  destruct (Py.list_slice_to max_results _) as [| link links]; [exact Hnil |].
  destruct (fst (for_each (link :: links) _ _ _)) as [l' | e] eqn:E.
  - intros H. apply Ok_inj in H. subst l'.
    apply for_each_length in E.
    + simpl in E. simpl in Hl. lia.
    + intros a s h0 s'. apply scrape_link_length.
  - exact Hnil.
Qed.

(** C1, as the program has it.  The scrape adapter cuts the list of result
    links down to [n] itself, so it returns at most [n] records.  The three
    API adapters hand [n] to the remote service and keep every entry the
    answer lists: each returns at most as many records as the answer has
    entries, hence at most [n] whenever the service lists at most [n]. *)
Theorem fetch_length_bounds
        (w : World) (self : SearchTool.t) (query : string) (n max_chars : Z)
        (h : trace) :
  (1 <= n)%Z ->
  (exists l, fst (SearchTool.clinicaltrials_search_scrape w query n h) = Ok l
             /\ (Z.of_nat (List.length l) <= n)%Z)
  /\ (exists l, fst (SearchTool.google_search w self query n max_chars h) = Ok l
                /\ List.length l
                   <= List.length
                        (listed "items"
                           (transport w h (SearchTool.google_request self query n))))
  /\ (exists l, fst (SearchTool.clinicaltrials_search_beta_api w query n h) = Ok l
                /\ List.length l
                   <= List.length
                        (listed "studies"
                           (transport w h (SearchTool.api_request query n))))
  /\ (exists l, fst (SearchTool.arxiv_search w query n h) = Ok l
                /\ List.length l <= List.length (fst (arxiv_feed w h query n))).
Proof.
  intros Hn. split; [| split; [| split]].
  - destruct (scrape_returns w query n h) as [l Hl]. exists l. split; [exact Hl |].
    apply scrape_length in Hl; lia.
  - destruct (google_search_returns w self query n max_chars h) as [l Hl].
    exists l. split; [exact Hl | now apply google_search_length with (max_chars := max_chars)].
  - destruct (beta_api_returns w query n h) as [l Hl].
    exists l. split; [exact Hl | now apply beta_api_length].
  - destruct (arxiv_search_returns w query n h) as [l Hl].
    exists l. split; [exact Hl | now apply arxiv_search_length].
Qed.

Lemma fetch_length_bounds_witness :
  exists l, fst (SearchTool.clinicaltrials_search_scrape three_links "diabetes" 2 []) = Ok l
            /\ (Z.of_nat (List.length l) <= 2)%Z.
Proof.
  apply (fetch_length_bounds three_links with_credentials "diabetes" 500 []
           (n := 2)).
  lia.
Defined.

(** Of the three links of the page, the scrape adapter follows two. *)
Example three_links_two_records :
  option_map (map nct_id)
    (match fst (SearchTool.clinicaltrials_search_scrape three_links "diabetes" 2 []) with
     | Ok l => Some l
     | Raise _ => None
     end)
  = Some [VStr "NCT00000001"; VStr "NCT00000002"].
Proof. reflexivity. Qed.

Example three_links_all_records :
  option_map (map nct_id)
    (match fst (SearchTool.clinicaltrials_search_scrape three_links "diabetes" 5 []) with
     | Ok l => Some l
     | Raise _ => None
     end)
  = Some [VStr "NCT00000001"; VStr "NCT00000002"; VStr "NCT00000003"].
Proof. reflexivity. Qed.

(** C1 as stated fails: asked for one result, the web-search adapter and
    the Tier-1 registry adapter return the three entries the answer
    lists. *)
Lemma generous_answer_exceeds_count :
  (exists l, fst (SearchTool.google_search generous with_credentials "diabetes" 1 500 [])
             = Ok l
             /\ List.length l = 3 /\ ~ (Z.of_nat (List.length l) <= 1)%Z)
  /\ (exists l, fst (SearchTool.clinicaltrials_search_beta_api generous "diabetes" 1 [])
                = Ok l
                /\ List.length l = 3 /\ ~ (Z.of_nat (List.length l) <= 1)%Z).
Proof.
  split; eexists; (split; [reflexivity |]); split; try reflexivity; simpl; lia.
Qed.

(* ===================================================================== *)
(** ** The fallback from the structured API to the scrape *)

Lemma details_api_no_scrape_call w nct_id :
  silent is_scrape_call (SearchTool._get_clinical_trial_details_api w nct_id).
Proof. unfold SearchTool._get_clinical_trial_details_api. silence. Qed.

Lemma api_study_no_scrape_call w study results :
  silent is_scrape_call (SearchTool.api_study w study results).
Proof.
  unfold SearchTool.api_study. silence.
Qed.

Lemma beta_api_no_scrape_call w query max_results :
  silent is_scrape_call (SearchTool.clinicaltrials_search_beta_api w query max_results).
Proof.
  unfold SearchTool.clinicaltrials_search_beta_api. silence.
Qed.

Lemma details_scrape_no_scrape_call w url :
  silent is_scrape_call (SearchTool._get_clinical_trial_details_scrape w url).
Proof. unfold SearchTool._get_clinical_trial_details_scrape. silence. Qed.

Lemma scrape_link_no_scrape_call w link results :
  silent is_scrape_call (SearchTool.scrape_link w link results).
Proof.
  unfold SearchTool.scrape_link. silence.
Qed.

(** A fetch that starts with a request of the kind counted, and performs no
    other, performs exactly one. *)
Lemma one_call {A} p (w : World) (req : request) (k : response -> M A)
      (handler : exn -> M A) (h : trace) :
  p (EvGet req) = true ->
  (forall response, silent p (k response)) ->
  (forall e, silent p (handler e)) ->
  count p (snd (try_except (response <- http_get w req ;; k response) handler h)) = 1.
Proof.
  intros Hp Hk Hh. rewrite try_except_run, bind_run. unfold http_get. simpl.
  destruct (transport w h req) as [response | e]; simpl.
  - destruct (fst (k response (EvGet req :: h))) as [a | e] eqn:E; simpl.
    + rewrite count_app. rewrite (Hk response (EvGet req :: h)).
      unfold count. simpl. now rewrite Hp.
    + rewrite !count_app. rewrite (Hh e), (Hk response (EvGet req :: h)).
      unfold count. simpl. now rewrite Hp.
  - rewrite count_app, (Hh e). unfold count. simpl. now rewrite Hp.
Qed.

Lemma scrape_one_scrape_call w query max_results h :
  count is_scrape_call
        (snd (SearchTool.clinicaltrials_search_scrape w query max_results h)) = 1.
Proof.
  unfold SearchTool.clinicaltrials_search_scrape. apply one_call.
  - reflexivity.
  - intros response. silence. all: apply scrape_link_no_scrape_call.
  - intros e. silence.
Qed.

(** The stage, run by run: what it returns and what it does, by the answer
    of the structured API. *)
Lemma registry_fetch_run w self topic h :
  let announced :=
    EvPrint ("Performing ClinicalTrials.gov search for '" ++ topic ++ "'...") :: h in
  let tier1 := SearchTool.clinicaltrials_search_beta_api w topic 2 announced in
  let at_fallback :=
    EvPrint "API search failed, falling back to scrape method..."
      :: (snd tier1 ++ announced)%list in
  let tier2 := SearchTool.clinicaltrials_search_scrape w topic 2 at_fallback in
  MultiAgentSystem.registry_fetch w self topic h
  = match fst tier1 with
    | Ok [] =>
        (fst tier2,
         (snd tier2
            ++ EvPrint "API search failed, falling back to scrape method..."
            :: snd tier1
            ++ [EvPrint ("Performing ClinicalTrials.gov search for '" ++ topic ++ "'...")])%list)
    | Ok (r :: l) =>
        (Ok (r :: l),
         (snd tier1
            ++ [EvPrint ("Performing ClinicalTrials.gov search for '" ++ topic ++ "'...")])%list)
    | Raise e =>
        (Raise e,
         (snd tier1
            ++ [EvPrint ("Performing ClinicalTrials.gov search for '" ++ topic ++ "'...")])%list)
    end.
Proof.
  cbv zeta. unfold MultiAgentSystem.registry_fetch.
  set (msg := "Performing ClinicalTrials.gov search for '" ++ topic ++ "'...").
  set (fallback := "API search failed, falling back to scrape method...").
  rewrite bind_run, print_run. cbn [fst snd].
  change ([EvPrint msg] ++ h)%list with (EvPrint msg :: h).
  rewrite bind_run.
  destruct (fst (SearchTool.clinicaltrials_search_beta_api w topic 2 (EvPrint msg :: h)))
    as [[| r l] | e]; cbn [fst snd].
  - rewrite bind_run, print_run. cbn [fst snd].
    change ([EvPrint fallback] ++ ?t)%list with (EvPrint fallback :: t).
    f_equal. rewrite <- !app_assoc. reflexivity.
  - reflexivity.
  - reflexivity.
Qed.

(** The requests for the search results page, counted over the stage. *)
Lemma registry_fetch_scrape_calls w self topic h :
  let announced :=
    EvPrint ("Performing ClinicalTrials.gov search for '" ++ topic ++ "'...") :: h in
  let tier1 := fst (SearchTool.clinicaltrials_search_beta_api w topic 2 announced) in
  let scrape_calls :=
    count is_scrape_call (snd (MultiAgentSystem.registry_fetch w self topic h)) in
  (exists l, tier1 = Ok l)
  /\ (tier1 = Ok [] <-> scrape_calls = 1)
  /\ ((exists r l, tier1 = Ok (r :: l)) <-> scrape_calls = 0)
  /\ (forall r l, tier1 = Ok (r :: l) ->
                  fst (MultiAgentSystem.registry_fetch w self topic h) = Ok (r :: l)).
Proof.
  cbv zeta. unfold MultiAgentSystem.registry_fetch.
  set (msg := "Performing ClinicalTrials.gov search for '" ++ topic ++ "'...").
  set (tier1 := SearchTool.clinicaltrials_search_beta_api w topic 2).
  set (tier2 := SearchTool.clinicaltrials_search_scrape w topic 2).
  set (fallback := "API search failed, falling back to scrape method...").
  rewrite count_bind, fst_bind, print_run. cbn [fst snd].
  change ([EvPrint msg] ++ h)%list with (EvPrint msg :: h).
  rewrite count_bind, fst_bind.
  rewrite (beta_api_no_scrape_call w topic 2 (EvPrint msg :: h) : count _ (snd (tier1 _)) = 0).
  destruct (beta_api_returns w topic 2 (EvPrint msg :: h)) as [l1 Hl1].
  fold tier1 in Hl1. rewrite Hl1.
  split; [now exists l1 |].
  destruct l1 as [| r l].
  - rewrite count_bind, print_run. cbn [fst snd].
    unfold tier2. rewrite scrape_one_scrape_call.
    split; [split; reflexivity |]. split.
    + split; [intros [r [l H]]; discriminate | discriminate].
    + intros r l H. discriminate.
  - split; [split; discriminate |]. split.
    + split; [reflexivity | intros _; now exists r, l].
    + intros r' l' H. apply Ok_inj in H. now rewrite H.
Qed.

(** C2.  In the registry stage of the orchestrator the scrape adapter is
    invoked exactly once when the structured-API adapter returned the empty
    list, and not at all when it returned a record.  In the first case the
    stage is the call of the scrape adapter, at the point the stage has
    reached: it returns what that call returns, and after the two
    announcements and the effects of the structured API it performs the
    effects of that call and no other.  In the second case the stage
    returns the records of the structured API and performs nothing after
    its effects. *)
Theorem scrape_is_the_fallback
        (w : World) (self : MultiAgentSystem.t) (topic : string) (h : trace) :
  let announced :=
    EvPrint ("Performing ClinicalTrials.gov search for '" ++ topic ++ "'...") :: h in
  let tier1 := fst (SearchTool.clinicaltrials_search_beta_api w topic 2 announced) in
  let tier1_effects :=
    snd (SearchTool.clinicaltrials_search_beta_api w topic 2 announced) in
  let at_fallback :=
    EvPrint "API search failed, falling back to scrape method..."
      :: (tier1_effects ++ announced)%list in
  let scrape_calls :=
    count is_scrape_call (snd (MultiAgentSystem.registry_fetch w self topic h)) in
  (exists l, tier1 = Ok l)
  /\ (tier1 = Ok [] <-> scrape_calls = 1)
  /\ ((exists r l, tier1 = Ok (r :: l)) <-> scrape_calls = 0)
  /\ (forall r l, tier1 = Ok (r :: l) ->
                  fst (MultiAgentSystem.registry_fetch w self topic h) = Ok (r :: l))
  /\ (tier1 = Ok [] ->
      fst (MultiAgentSystem.registry_fetch w self topic h)
      = fst (SearchTool.clinicaltrials_search_scrape w topic 2 at_fallback)
      /\ snd (MultiAgentSystem.registry_fetch w self topic h)
         = (snd (SearchTool.clinicaltrials_search_scrape w topic 2 at_fallback)
              ++ EvPrint "API search failed, falling back to scrape method..."
              :: tier1_effects
              ++ [EvPrint ("Performing ClinicalTrials.gov search for '"
                           ++ topic ++ "'...")])%list)
  /\ (forall r l, tier1 = Ok (r :: l) ->
                  snd (MultiAgentSystem.registry_fetch w self topic h)
                  = (tier1_effects
                       ++ [EvPrint ("Performing ClinicalTrials.gov search for '"
                                    ++ topic ++ "'...")])%list).
Proof.
  cbv zeta.
  destruct (registry_fetch_scrape_calls w self topic h) as [H1 [H2 [H3 H4]]].
  split; [exact H1 |]. split; [exact H2 |]. split; [exact H3 |]. split; [exact H4 |].
  pose proof (registry_fetch_run w self topic h) as Hrun. cbv zeta in Hrun.
  split.
  - intros H. rewrite H in Hrun. rewrite Hrun. split; reflexivity.
  - intros r l H. rewrite H in Hrun. rewrite Hrun. reflexivity.
Qed.

(** With nothing answering, the stage falls back to the scrape; with a
    study listed, it does not. *)
Example offline_falls_back :
  count is_scrape_call
        (snd (MultiAgentSystem.registry_fetch offline system "diabetes" [])) = 1.
Proof. reflexivity. Qed.

Example listed_study_no_fallback :
  count is_scrape_call
        (snd (MultiAgentSystem.registry_fetch detailed_only system "diabetes" [])) = 0
  /\ fst (MultiAgentSystem.registry_fetch detailed_only system "diabetes" [])
     = Ok [described_record].
Proof. split; reflexivity. Qed.

(** The whole review with nothing answering and no session: the report is
    the fixed message of the agent. *)
Example offline_review :
  fst (MultiAgentSystem.run_literature_review offline system "diabetes" [])
  = Ok "Error: Agent not properly initialized".
Proof. reflexivity. Qed.

(* ===================================================================== *)
(** ** The records of the Tier-1 fetch *)

(** The record built from a study, in terms of the fields of the study. *)
Lemma api_study_result_built w study r0 need :
  SearchTool.api_study_result w study = Ok (Some (r0, need)) ->
  exists summary detailed_desc,
    study_field study "descriptionModule" "briefSummary" (VStr "") = Ok summary
    /\ study_field study "descriptionModule" "detailedDescription" (VStr "")
       = Ok detailed_desc
    /\ study_field study "conditionsModule" "conditions" (VList [])
       = Ok (conditions r0)
    /\ SearchTool.api_snippet summary = Ok (snippet r0)
    /\ abstract r0 = (if Py.truthy summary then summary else detailed_desc)
    /\ interventions r0 = VNone
    /\ need = negb (Py.truthy summary) && negb (Py.truthy detailed_desc).
Proof.
  unfold SearchTool.api_study_result, study_field.
  repeat match goal with
         | |- (and_then (Py.get ?a ?b ?c) _ = _) -> _ =>
             destruct (Py.get a b c) eqn:?; cbn [and_then];
             [| intros H; discriminate H]
         end.
  destruct (negb (Py.truthy _)); [intros H; discriminate H |].
  repeat match goal with
         | |- (and_then (Py.get ?a ?b ?c) _ = _) -> _ =>
             destruct (Py.get a b c) eqn:?; cbn [and_then];
             [| intros H; discriminate H]
         end.
  match goal with
  | |- (and_then ?phase _ = _) -> _ =>
      destruct phase; cbn [and_then]; [| intros H; discriminate H]
  end.
  repeat match goal with
         | |- (and_then (Py.get ?a ?b ?c) _ = _) -> _ =>
             destruct (Py.get a b c) eqn:?; cbn [and_then];
             [| intros H; discriminate H]
         end.
  destruct (SearchTool.api_snippet _) eqn:Es; cbn [and_then];
    [| intros H; discriminate H].
  intros H. apply Ok_inj in H. injection H as <- <-.
  do 2 eexists. repeat split; eauto.
Qed.

(** What the Tier-1 fetch returns is the empty list, or what its loop
    leaves. *)
Lemma beta_api_cases w query max_results h l :
  fst (SearchTool.clinicaltrials_search_beta_api w query max_results h) = Ok l ->
  l = []
  \/ exists h',
       fst (for_each (listed "studies"
                        (transport w h (SearchTool.api_request query max_results)))
                     (SearchTool.api_study w) [] h') = Ok l.
Proof.
  unfold SearchTool.clinicaltrials_search_beta_api.
  rewrite fetch_run.
  assert (Hnil : forall P : Prop, Ok (@nil SearchResult) = Ok l -> l = [] \/ P).
  { intros P H. apply Ok_inj in H. now left. }
  destruct (transport w h _) as [response | e]; [| apply Hnil].
  simpl listed.
  destruct (negb (status_code response =? 200)%Z); [apply Hnil |].
  destruct (json response) as [data | e]; [| apply Hnil].
  rewrite bind_lift_ok.
  destruct (Py.get data "studies" (VList [])) as [studies | e]; [| apply Hnil].
  rewrite bind_lift_ok.
  destruct (negb (Py.truthy studies)); [apply Hnil |].
  destruct (Py.iter studies) as [each | e]; [| apply Hnil].
  rewrite bind_lift_ok.
  destruct (fst (for_each each _ _ _)) as [l' | e] eqn:E; [| apply Hnil].
  intros H. apply Ok_inj in H. subst l'. right. eexists. exact E.
Qed.

Lemma google_search_cases w self query num_results max_chars h l :
  fst (SearchTool.google_search w self query num_results max_chars h) = Ok l ->
  l = []
  \/ exists h',
       fst (for_each (listed "items"
                        (transport w h (SearchTool.google_request self query num_results)))
                     (SearchTool.google_item w max_chars) [] h') = Ok l.
Proof.
  unfold SearchTool.google_search.
  assert (Hnil : forall P : Prop, Ok (@nil SearchResult) = Ok l -> l = [] \/ P).
  { intros P H. apply Ok_inj in H. now left. }
  destruct (env_missing _ || env_missing _); [apply Hnil |].
  rewrite fetch_run.
  destruct (transport w h _) as [response | e]; [| apply Hnil].
  simpl listed.
  destruct (negb (status_code response =? 200)%Z); [apply Hnil |].
  destruct (json response) as [data | e]; [| apply Hnil].
  rewrite bind_lift_ok.
  destruct (Py.get data "items" (VList [])) as [results | e]; [| apply Hnil].
  rewrite bind_lift_ok.
  destruct (Py.iter results) as [items | e]; [| apply Hnil].
  rewrite bind_lift_ok.
  destruct (fst (for_each items _ _ _)) as [l' | e] eqn:E; [| apply Hnil].
  intros H. apply Ok_inj in H. subst l'. right. eexists. exact E.
Qed.

(** Every record of a Tier-1 fetch comes from a study of the answer. *)
Lemma beta_api_provenance w query max_results h l r :
  fst (SearchTool.clinicaltrials_search_beta_api w query max_results h) = Ok l ->
  In r l ->
  exists study,
    In study (listed "studies" (transport w h (SearchTool.api_request query max_results)))
    /\ tier1_record w study r.
Proof.
  intros H Hin. apply beta_api_cases in H. destruct H as [-> | [h' H]]; [contradiction |].
  revert r Hin. apply Forall_forall.
  eapply for_each_invariant; [| | exact H]; [| constructor].
  clear. intros study s h0 s' Hin Hs. rewrite api_study_run.
  destruct (SearchTool.api_study_result w study) as [[[r0 [|]] |] | e] eqn:E; simpl.
  - destruct (SearchTool._get_clinical_trial_details_api w (nct_id r0) h0)
      as [[[d |] | e] ev] eqn:D; simpl; intros H; try discriminate;
      apply Ok_inj in H; subst s'; apply Forall_app; (split; [exact Hs |]);
      constructor; [| constructor | | constructor]; exists study; (split; [exact Hin |]).
    + eapply enriched_record; eauto.
    + eapply plain_record; eauto.
  - intros H. apply Ok_inj in H. subst s'. apply Forall_app. split; [exact Hs |].
    constructor; [| constructor]. exists study. split; [exact Hin |].
    eapply plain_record; eauto.
  - intros H. apply Ok_inj in H. now subst s'.
  - discriminate.
Qed.

(* ===================================================================== *)
(** ** Enrichment *)

Lemma merge_details_fields d r0 :
  abstract (SearchTool.merge_details d r0) = abstract d
  /\ conditions (SearchTool.merge_details d r0) = conditions d
  /\ interventions (SearchTool.merge_details d r0) = interventions d
  /\ same_but_details (SearchTool.merge_details d r0) r0.
Proof. unfold same_but_details. repeat split. Qed.

(** C3, as the program has it.  When the enrichment fetch runs for the
    record built from a study, that record had an empty abstract and no
    interventions ([None]).  If the fetch gives no detail record the record
    stays as it was; if it gives one, the abstract, the conditions and the
    interventions of the record are set to those of the detail record,
    whatever the record held, and every other field is unchanged. *)
Theorem enrichment_replaces
        (w : World) (study : value) (r0 : SearchResult)
        (results results' : list SearchResult) (h ev : trace) :
  SearchTool.api_study_result w study = Ok (Some (r0, true)) ->
  SearchTool.api_study w study results h = (Ok results', ev) ->
  Py.truthy (abstract r0) = false
  /\ interventions r0 = VNone
  /\ ((exists ev', SearchTool._get_clinical_trial_details_api w (nct_id r0) h
                   = (Ok None, ev')
                   /\ results' = (results ++ [r0])%list)
      \/ (exists d ev',
            SearchTool._get_clinical_trial_details_api w (nct_id r0) h
            = (Ok (Some d), ev')
            /\ results' = (results ++ [SearchTool.merge_details d r0])%list
            /\ abstract (SearchTool.merge_details d r0) = abstract d
            /\ conditions (SearchTool.merge_details d r0) = conditions d
            /\ interventions (SearchTool.merge_details d r0) = interventions d
            /\ same_but_details (SearchTool.merge_details d r0) r0)).
Proof.
  intros Hb Hrun.
  destruct (api_study_result_built w study Hb)
    as [summary [detailed_desc [_ [_ [_ [_ [Ha [Hi Hn]]]]]]]].
  symmetry in Hn. apply andb_true_iff in Hn. destruct Hn as [Hs Hd].
  apply negb_true_iff in Hs, Hd.
  split; [rewrite Ha, Hs; exact Hd |]. split; [exact Hi |].
  rewrite api_study_run, Hb in Hrun.
  destruct (SearchTool._get_clinical_trial_details_api w (nct_id r0) h)
    as [[[d |] | e] ev'] eqn:D; [| | discriminate].
  - right. exists d, ev'. injection Hrun as <- _.
    split; [reflexivity |]. split; [reflexivity |]. apply merge_details_fields.
  - left. exists ev'. injection Hrun as <- _. split; reflexivity.
Qed.

Lemma enrichment_replaces_witness :
  Py.truthy (abstract diabetes_record) = false
  /\ interventions diabetes_record = VNone.
Proof.
  pose proof (@enrichment_replaces conflicting_details diabetes_study diabetes_record
                [] _ [EvGet (SearchTool.api_request "diabetes" 2)] _
                eq_refl eq_refl) as H.
  exact (conj (proj1 H) (proj1 (proj2 H))).
Defined.

(** C3 as stated fails: the study is listed with a condition and no
    summary, its detail record has no condition, and after enrichment the
    record has lost its condition. *)
Lemma enrichment_overwrites_conditions :
  SearchTool.api_study_result conflicting_details diabetes_study
  = Ok (Some (diabetes_record, true))
  /\ conditions diabetes_record = VList [VStr "Diabetes"]
  /\ exists r,
       fst (SearchTool.clinicaltrials_search_beta_api conflicting_details "diabetes" 2 [])
       = Ok [r]
       /\ conditions r = VList []
       /\ conditions r <> conditions diabetes_record.
Proof.
  split; [reflexivity |]. split; [reflexivity |].
  eexists. split; [reflexivity |]. split; [reflexivity | discriminate].
Qed.

(* ===================================================================== *)
(** ** The snippet of a Tier-1 record *)

Lemma api_snippet_text (s : string) :
  SearchTool.api_snippet (VStr s)
  = Ok (VStr (if (200 <? String.length s)%nat then PyStr.take 200 s ++ "..." else s)).
Proof.
  unfold SearchTool.api_snippet. cbn [Py.len and_then].
  destruct (200 <? String.length s)%nat; reflexivity.
Qed.

(** The record built from a study whose brief summary is the text [s]. *)
Lemma snippet_of_built_record
      (w : World) (study : value) (r0 : SearchResult) (needs_details : bool)
      (s : string) :
  SearchTool.api_study_result w study = Ok (Some (r0, needs_details)) ->
  study_field study "descriptionModule" "briefSummary" (VStr "") = Ok (VStr s) ->
  (200 < String.length s -> snippet r0 = VStr (PyStr.take 200 s ++ "..."))
  /\ (String.length s <= 200 -> snippet r0 = VStr s)
  /\ (0 < String.length s -> abstract r0 = VStr s /\ needs_details = false)
  /\ (String.length s = 0 ->
      study_field study "descriptionModule" "detailedDescription" (VStr "")
      = Ok (abstract r0)).
Proof.
  intros Hb Hs.
  destruct (api_study_result_built w study Hb)
    as [summary [detailed_desc [Hsum [Hdet [_ [Hsn [Ha [_ Hn]]]]]]]].
  rewrite Hs in Hsum. apply Ok_inj in Hsum. subst summary.
  rewrite api_snippet_text in Hsn. apply Ok_inj in Hsn.
  split; [| split; [| split]].
  - intros H. apply Nat.ltb_lt in H. now rewrite H in Hsn.
  - intros H. apply Nat.ltb_ge in H. now rewrite H in Hsn.
  - intros H. assert (Ht : Py.truthy (VStr s) = true)
      by (destruct s; simpl; [simpl in H; lia | reflexivity]).
    rewrite Ht in Ha, Hn. simpl in Hn. now split.
  - intros H. destruct s; [| discriminate H]. simpl in Ha. now rewrite Ha.
Qed.

Lemma built_record_follows_summary w study r0 needs_details :
  SearchTool.api_study_result w study = Ok (Some (r0, needs_details)) ->
  snippet_follows_summary study r0.
Proof.
  intros Hb s Hs.
  destruct (@snippet_of_built_record w study _ _ s Hb Hs) as [Hlong [Hshort [Hfull _]]].
  split; [| split; [| split]].
  - intros H. split; [now apply Hlong |].
    rewrite length_append, length_take.
    change (String.length "...") with 3. lia.
  - exact Hshort.
  - intros H. now apply Hfull.
  - intros [H1 H2]. destruct (Hfull H1) as [Ha _]. rewrite Ha. now apply Hshort.
Qed.

(** Enrichment runs only for a study without summary, and leaves the
    snippet alone. *)
Lemma tier1_record_follows_summary w study r :
  tier1_record w study r -> snippet_follows_summary study r.
Proof.
  intros [need Hb | r0 d h ev Hb Hd ->].
  - eapply built_record_follows_summary; eauto.
  - intros s Hs.
    destruct (@snippet_of_built_record w study _ _ s Hb Hs) as [Hlong [Hshort [Hfull _]]].
    assert (H0 : String.length s = 0).
    { destruct (String.length s) eqn:E; [reflexivity |].
      assert (Hpos : 0 < S n) by lia. destruct (Hfull Hpos) as [_ Hn]. discriminate Hn. }
    split; [intros H; lia |].
    split; [intros _; apply Hshort; lia |].
    split; intros H; lia.
Qed.

(** C6, as the program has it.  Every record of a Tier-1 fetch comes from a
    study of the answer, and for the text [s] of the brief summary of that
    study: when [s] has more than 200 characters the snippet is its first
    200 characters followed by the ellipsis marker, 203 characters in all;
    otherwise the snippet is [s]; when [s] is not empty the abstract is [s]
    too, so snippet and abstract are equal for a summary of 1 to 200
    characters.  Nothing is said of the abstract for an empty summary:
    there it is the detailed description, or what enrichment put. *)
Theorem snippet_of_summary
        (w : World) (query : string) (n : Z) (h : trace)
        (l : list SearchResult) (r : SearchResult) :
  fst (SearchTool.clinicaltrials_search_beta_api w query n h) = Ok l ->
  In r l ->
  exists study,
    In study (listed "studies" (transport w h (SearchTool.api_request query n)))
    /\ tier1_record w study r
    /\ snippet_follows_summary study r.
Proof.
  intros H Hin.
  destruct (@beta_api_provenance w query n h l r H Hin) as [study [Hs Hr]].
  exists study. split; [exact Hs |]. split; [exact Hr |].
  now apply tier1_record_follows_summary with (w := w).
Qed.

Lemma snippet_of_summary_witness :
  exists study,
    In study (listed "studies"
                (transport summarised_listing [] (SearchTool.api_request "diabetes" 2)))
    /\ tier1_record summarised_listing study summarised_record
    /\ snippet_follows_summary study summarised_record.
Proof.
  apply (@snippet_of_summary summarised_listing "diabetes" 2 [] [summarised_record]).
  - reflexivity.
  - left. reflexivity.
Defined.

(** C6 as stated fails: a study with no brief summary and a detailed
    description gives a record whose snippet is empty and whose abstract is
    the detailed description. *)
Lemma empty_summary_snippet_differs :
  study_field described_study "descriptionModule" "briefSummary" (VStr "") = Ok (VStr "")
  /\ String.length "" <= 200
  /\ exists r,
       fst (SearchTool.clinicaltrials_search_beta_api detailed_only "diabetes" 2 [])
       = Ok [r]
       /\ snippet r = VStr ""
       /\ abstract r = VStr "Long text."
       /\ snippet r <> abstract r.
Proof.
  split; [reflexivity |]. split; [simpl; lia |].
  eexists. split; [reflexivity |].
  split; [reflexivity |]. split; [reflexivity | discriminate].
Qed.

(* ===================================================================== *)
(** ** List fields left at [None] *)

Lemma google_search_list_fields w self query num_results max_chars h l r :
  fst (SearchTool.google_search w self query num_results max_chars h) = Ok l ->
  In r l ->
  authors r = VNone /\ conditions r = VNone
  /\ interventions r = VNone /\ locations r = VNone.
Proof.
  intros H Hin. apply google_search_cases in H.
  destruct H as [-> | [h' H]]; [contradiction |].
  revert r Hin. apply Forall_forall.
  eapply for_each_invariant; [| | exact H]; [| constructor].
  clear. intros item s h0 s' _ Hs H. apply google_item_appends in H.
  destruct H as [r [-> Hr]]. apply Forall_app. split; [exact Hs |].
  constructor; [exact Hr | constructor].
Qed.

Lemma tier1_record_interventions w study r :
  tier1_record w study r ->
  interventions r = VNone
  \/ exists r0 d h ev,
       SearchTool.api_study_result w study = Ok (Some (r0, true))
       /\ SearchTool._get_clinical_trial_details_api w (nct_id r0) h = (Ok (Some d), ev)
       /\ r = SearchTool.merge_details d r0.
Proof.
  intros [need Hb | r0 d h ev Hb Hd ->].
  - left. destruct (api_study_result_built w study Hb)
      as [summary [detailed_desc [_ [_ [_ [_ [_ [Hi _]]]]]]]]. exact Hi.
  - right. exists r0, d, h, ev. auto.
Qed.

(** C10.  The list fields of a record default to [None]; every record of
    the web search has [authors], [conditions], [interventions] and
    [locations] at [None]; a record of the Tier-1 fetch has [interventions]
    at [None] unless it is the record of a study merged with the detail
    record an enrichment fetch returned.  Joining [None] raises, and the
    orchestrator and the display guard against it: with [conditions] at
    [None] the conditions line reads [Not specified], with [authors] at
    [None] the arXiv block has no author and the display writes no author
    line. *)
Theorem list_fields_default_to_none (w : World) :
  (forall t,
     authors (SearchResult_defaults t) = VNone
     /\ conditions (SearchResult_defaults t) = VNone
     /\ interventions (SearchResult_defaults t) = VNone
     /\ locations (SearchResult_defaults t) = VNone)
  /\ (forall self query n max_chars h l r,
        fst (SearchTool.google_search w self query n max_chars h) = Ok l ->
        In r l ->
        authors r = VNone /\ conditions r = VNone
        /\ interventions r = VNone /\ locations r = VNone)
  /\ (forall query n h l r,
        fst (SearchTool.clinicaltrials_search_beta_api w query n h) = Ok l ->
        In r l ->
        interventions r = VNone
        \/ exists study r0 d h' ev,
             In study (listed "studies" (transport w h (SearchTool.api_request query n)))
             /\ SearchTool.api_study_result w study = Ok (Some (r0, true))
             /\ SearchTool._get_clinical_trial_details_api w (nct_id r0) h'
                = (Ok (Some d), ev)
             /\ r = SearchTool.merge_details d r0)
  /\ Py.join ", " VNone = Raise TypeError
  /\ (forall r, conditions r = VNone ->
                MultiAgentSystem.conditions_line r
                = Ok ("Conditions: Not specified" ++ PyStr.nl))
  /\ (forall r, authors r = VNone ->
                MultiAgentSystem.arxiv_block w r
                = Ok (PyStr.nl ++ "Title: " ++ fmt w (title r) ++ PyStr.nl
                      ++ "Authors: " ++ PyStr.nl
                      ++ "Published: " ++ fmt w (published r) ++ PyStr.nl
                      ++ "Abstract: " ++ fmt w (abstract r) ++ PyStr.nl
                      ++ "URL: " ++ fmt w (arxiv_url r) ++ PyStr.nl))
  /\ (forall r, authors r = VNone -> App.authors_line r = Ok None).
Proof.
  split; [intros t; repeat split |].
  split; [intros; eapply google_search_list_fields; eauto |].
  split.
  { intros query n h l r H Hin.
    destruct (@beta_api_provenance w query n h l r H Hin) as [study [Hs Hr]].
    destruct (tier1_record_interventions Hr) as [Hi | [r0 [d [h' [ev [H1 [H2 H3]]]]]]].
    - now left.
    - right. exists study, r0, d, h', ev. auto. }
  split; [reflexivity |].
  split.
  { intros r Hr. unfold MultiAgentSystem.conditions_line. rewrite Hr. reflexivity. }
  split.
  { intros r Hr. unfold MultiAgentSystem.arxiv_block. rewrite Hr. reflexivity. }
  intros r Hr. unfold App.authors_line. rewrite Hr. reflexivity.
Qed.

Lemma list_fields_default_to_none_witness :
  MultiAgentSystem.conditions_line (SearchResult_defaults (VStr "t"))
  = Ok ("Conditions: Not specified" ++ PyStr.nl).
Proof.
  apply (proj1 (proj2 (proj2 (proj2 (proj2 (list_fields_default_to_none offline)))))
           (SearchResult_defaults (VStr "t"))).
  reflexivity.
Defined.

(* ===================================================================== *)
(** ** More on loops and on the shape of a fetch *)

Unset Implicit Arguments.

(** A loop whose every round appends one item related to what it visits
    leaves the items in the order of the visit. *)
Lemma for_each_forall2 {A T} (R : A -> T -> Prop) (l : list A)
      (body : A -> list T -> M (list T)) :
  (forall a s h s', fst (body a s h) = Ok s' -> exists r, s' = (s ++ [r])%list /\ R a r) ->
  forall s h s', fst (for_each l body s h) = Ok s' ->
                 exists rs, s' = (s ++ rs)%list /\ Forall2 R l rs.
Proof.
  intros Hb. induction l as [| a l IH]; intros s h s' H; simpl in H.
  - apply Ok_inj in H. subst s'. exists []. split; [now rewrite app_nil_r | constructor].
  - rewrite bind_run in H.
    destruct (fst (body a s h)) as [s1 | e] eqn:E; simpl in H; [| discriminate].
    apply Hb in E. destruct E as [r [-> Hr]].
    apply IH in H. destruct H as [rs [-> Hrs]].
    exists (r :: rs). split; [now rewrite <- app_assoc | now constructor].
Qed.

(** A loop whose every round performs as many effects of a kind as it adds
    items has performed, at its end, as many as it has added. *)
Lemma for_each_counted {A T} (p : event -> bool) (l : list A)
      (body : A -> list T -> M (list T)) :
  (forall a s h s', fst (body a s h) = Ok s' ->
                    List.length s' = List.length s + count p (snd (body a s h))) ->
  forall s h s', fst (for_each l body s h) = Ok s' ->
                 List.length s' = List.length s + count p (snd (for_each l body s h)).
Proof.
  intros Hb. induction l as [| a l IH]; intros s h s' H; simpl in *.
  - apply Ok_inj in H. subst s'. unfold count. simpl. lia.
  - rewrite count_bind. rewrite fst_bind in H.
    destruct (fst (body a s h)) as [s1 | e] eqn:E; [| discriminate].
    apply IH in H. apply Hb in E. lia.
Qed.

(** A fetch that returns a record got an answer to its request, and what
    it did is the request followed by what the rest did. *)
Lemma fetch_nonempty {A} (w : World) (req : request) (k : response -> M (list A))
      (msg : exn -> string) (h : trace) (l : list A) :
  fst (try_except (response <- http_get w req ;; k response)
                  (fun e => print (msg e) ;; ret []) h) = Ok l ->
  l <> [] ->
  exists page,
    transport w h req = Ok page
    /\ fst (k page (EvGet req :: h)) = Ok l
    /\ snd (try_except (response <- http_get w req ;; k response)
                       (fun e => print (msg e) ;; ret []) h)
       = (snd (k page (EvGet req :: h)) ++ [EvGet req])%list.
Proof.
  rewrite try_except_run, bind_run. unfold http_get. simpl.
  destruct (transport w h req) as [page | e]; simpl.
  - destruct (fst (k page (EvGet req :: h))) as [l' | e] eqn:E; simpl.
    + intros H Hl. apply Ok_inj in H. subst l'. exists page. auto.
    + intros H Hl. apply Ok_inj in H. congruence.
  - intros H Hl. apply Ok_inj in H. congruence.
Qed.

(* ===================================================================== *)
(** ** The text of a linked page *)

Lemma length_slice_to (n : Z) (s : string) :
  (0 <= n)%Z -> String.length (PyStr.slice_to n s) <= Z.to_nat n.
Proof.
  intros H. unfold PyStr.slice_to.
  destruct (0 <=? n)%Z eqn:E; [| lia].
  rewrite length_take. lia.
Qed.

Lemma page_content_run w u max_chars h :
  SearchTool._get_page_content w u max_chars h =
  match transport w h (page_request u) with
  | Ok page =>
      (Ok (VStr (PyStr.slice_to max_chars (doc_visible_text (soup page)))),
       [EvGet (page_request u)])
  | Raise e =>
      (Ok (VStr ""),
       [EvPrint ("Error fetching " ++ fmt w u ++ ": " ++ str_exn w e);
        EvGet (page_request u)])
  end.
Proof.
  unfold SearchTool._get_page_content. rewrite try_except_run, bind_run.
  unfold http_get. simpl. fold (page_request u).
  destruct (transport w h (page_request u)); reflexivity.
Qed.

(** X1.  [_get_page_content] never raises and makes exactly one request.
    It returns the visible text of whatever page was served, cut to
    [max_chars] characters, without looking at the status code; when the
    request fails it returns the empty text. *)
Theorem page_content_bounded (w : World) (u : value) (max_chars : Z) (h : trace) :
  (0 <= max_chars)%Z ->
  exists b,
    fst (SearchTool._get_page_content w u max_chars h) = Ok (VStr b)
    /\ String.length b <= Z.to_nat max_chars
    /\ count is_get (snd (SearchTool._get_page_content w u max_chars h)) = 1
    /\ (forall page, transport w h (page_request u) = Ok page ->
                     b = PyStr.slice_to max_chars (doc_visible_text (soup page)))
    /\ (forall e, transport w h (page_request u) = Raise e -> b = "").
Proof.
  intros Hn. rewrite page_content_run.
  destruct (transport w h (page_request u)) as [page | e]; eexists;
    (split; [reflexivity |]); (split; [| split; [reflexivity |]]).
  - now apply length_slice_to.
  - split; [intros page' H; apply Ok_inj in H; now subst | intros e H; discriminate].
  - simpl. lia.
  - split; [intros page' H; discriminate | reflexivity].
Qed.

Lemma page_content_bounded_witness :
  exists b,
    fst (SearchTool._get_page_content dead_link (VStr "https://example.org/1") 500 [])
    = Ok (VStr b)
    /\ String.length b <= Z.to_nat 500
    /\ count is_get
         (snd (SearchTool._get_page_content dead_link (VStr "https://example.org/1") 500 []))
       = 1
    /\ (forall page,
          transport dead_link [] (page_request (VStr "https://example.org/1")) = Ok page ->
          b = PyStr.slice_to 500 (doc_visible_text (soup page)))
    /\ (forall e,
          transport dead_link [] (page_request (VStr "https://example.org/1")) = Raise e ->
          b = "").
Proof.
  apply (page_content_bounded dead_link (VStr "https://example.org/1") 500 []).
  lia.
Defined.

(* ===================================================================== *)
(** ** The records of the web search, in order *)

Lemma google_item_inv w max_chars item s h s' :
  fst (SearchTool.google_item w max_chars item s h) = Ok s' ->
  exists r,
    s' = (s ++ [r])%list
    /\ record_of_hit max_chars item r
    /\ snd (SearchTool.google_item w max_chars item s h)
       = EvSleep 1000 :: snd (SearchTool._get_page_content w (link r) max_chars h).
Proof.
  unfold SearchTool.google_item.
  destruct (Py.getitem item "link") as [item_link | e1] eqn:L; [| discriminate].
  rewrite bind_lift_ok, bind_run.
  assert (Hb : exists b, fst (SearchTool._get_page_content w item_link max_chars h)
                         = Ok (VStr b)
                         /\ ((0 <= max_chars)%Z -> String.length b <= Z.to_nat max_chars)).
  { rewrite page_content_run.
    destruct (transport w h (page_request item_link)); eexists;
      (split; [reflexivity |]); intros Hn; [now apply length_slice_to | simpl; lia]. }
  destruct Hb as [b [Hb Hlen]]. rewrite Hb.
  destruct (Py.getitem item "title") as [item_title | e2] eqn:T; [| discriminate].
  rewrite bind_lift_ok, bind_lift_ok.
  destruct (Py.getitem item "snippet") as [item_snippet | e3] eqn:S; [| discriminate].
  rewrite bind_lift_ok. simpl. intros H. apply Ok_inj in H. subst s'.
  eexists. split; [reflexivity |]. split; [| reflexivity].
  unfold record_of_hit. simpl. repeat split; try assumption.
  exists b. split; [reflexivity | exact Hlen].
Qed.

Lemma google_search_hits w self query num_results max_chars h :
  exists l,
    fst (SearchTool.google_search w self query num_results max_chars h) = Ok l
    /\ (l = []
        \/ Forall2 (record_of_hit max_chars)
             (listed "items"
                (transport w h (SearchTool.google_request self query num_results)))
             l).
Proof.
  destruct (google_search_returns w self query num_results max_chars h) as [l Hl].
  exists l. split; [exact Hl |].
  apply google_search_cases in Hl. destruct Hl as [-> | [h' H]]; [now left |].
  right. apply for_each_forall2 with (R := record_of_hit max_chars) in H.
  - destruct H as [rs [-> Hrs]]. exact Hrs.
  - intros a s h0 s' Hs. apply google_item_inv in Hs.
    destruct Hs as [r [-> [Hr _]]]. now exists r.
Qed.

(** X2.  [google_search] never raises, and it returns either no record or
    one record for each hit the answer lists, in the order of the answer:
    title, link and snippet are those of the hit, and the body is a text of
    at most [max_chars] characters. *)
Theorem google_records_follow_hits
        (w : World) (self : SearchTool.t) (query : string)
        (num_results max_chars : Z) (h : trace) :
  exists l,
    fst (SearchTool.google_search w self query num_results max_chars h) = Ok l
    /\ (l = []
        \/ Forall2 (record_of_hit max_chars)
             (listed "items"
                (transport w h (SearchTool.google_request self query num_results)))
             l).
Proof. apply google_search_hits. Qed.

(** A web search that returns a record ran its loop to the end. *)
Lemma google_search_nonempty w self query num_results max_chars h l :
  fst (SearchTool.google_search w self query num_results max_chars h) = Ok l ->
  l <> [] ->
  let req := SearchTool.google_request self query num_results in
  let loop := for_each (listed "items" (transport w h req))
                       (SearchTool.google_item w max_chars) [] (EvGet req :: h) in
  fst loop = Ok l
  /\ snd (SearchTool.google_search w self query num_results max_chars h)
     = (snd loop ++ [EvGet req])%list.
Proof.
  cbv zeta. unfold SearchTool.google_search.
  destruct (env_missing _ || env_missing _).
  { simpl. intros H Hl. apply Ok_inj in H. congruence. }
  intros H Hl. destruct (fetch_nonempty _ _ _ _ _ _ H Hl) as [page [Ht [Hk Hev]]].
  rewrite Hev, Ht. clear H Hev. simpl listed.
  destruct (negb (status_code page =? 200)%Z).
  { simpl in Hk. apply Ok_inj in Hk. congruence. }
  destruct (json page) as [data | e]; [| discriminate Hk].
  rewrite bind_lift_ok in *.
  destruct (Py.get data "items" (VList [])) as [results | e]; [| discriminate Hk].
  rewrite bind_lift_ok in *.
  destruct (Py.iter results) as [items | e]; [| discriminate Hk].
  rewrite bind_lift_ok in *. split; [exact Hk | reflexivity].
Qed.

Lemma page_content_counts w u max_chars h :
  count is_get (snd (SearchTool._get_page_content w u max_chars h)) = 1
  /\ count is_sleep (snd (SearchTool._get_page_content w u max_chars h)) = 0.
Proof.
  rewrite page_content_run.
  destruct (transport w h (page_request u)); split; reflexivity.
Qed.

(** X3.  When [google_search] returns records it has made one search
    request and, for each record, one page request followed by one pause of
    one second: as many pauses as records, and one request more. *)
Theorem google_search_paces
        (w : World) (self : SearchTool.t) (query : string)
        (num_results max_chars : Z) (h : trace) (l : list SearchResult) :
  fst (SearchTool.google_search w self query num_results max_chars h) = Ok l ->
  l <> [] ->
  let ev := snd (SearchTool.google_search w self query num_results max_chars h) in
  count is_sleep ev = List.length l
  /\ count (is_pause 1000) ev = List.length l
  /\ count is_get ev = 1 + List.length l.
Proof.
  intros H Hl. cbv zeta.
  destruct (google_search_nonempty _ _ _ _ _ _ _ H Hl) as [Hloop ->].
  rewrite !count_app.
  assert (Hround : forall p,
            p (EvSleep 1000) = true ->
            (forall r, p (EvGet r) = false) -> (forall m, p (EvPrint m) = false) ->
            forall a s h0 s',
              fst (SearchTool.google_item w max_chars a s h0) = Ok s' ->
              List.length s' = List.length s
                               + count p (snd (SearchTool.google_item w max_chars a s h0))).
  { intros p Hs Hg Hp a s h0 s' Hr. apply google_item_inv in Hr.
    destruct Hr as [r [-> [_ ->]]]. rewrite length_app, page_content_run.
    destruct (transport w h0 (page_request (link r))); unfold count; simpl;
      rewrite Hs, ?Hg, ?Hp; simpl; lia. }
  set (req := SearchTool.google_request self query num_results) in *.
  assert (Hg : forall a s h0 s',
            fst (SearchTool.google_item w max_chars a s h0) = Ok s' ->
            List.length s' = List.length s
                             + count is_get (snd (SearchTool.google_item w max_chars a s h0))).
  { intros a s h0 s' Hr. apply google_item_inv in Hr.
    destruct Hr as [r [-> [_ ->]]]. rewrite length_app.
    change (count is_get (EvSleep 1000 :: ?t)) with (count is_get t).
    rewrite (proj1 (page_content_counts w (link r) max_chars h0)). simpl. lia. }
  pose proof (for_each_counted is_sleep _ _
                (Hround is_sleep eq_refl (fun _ => eq_refl) (fun _ => eq_refl))
                _ _ _ Hloop) as H1.
  pose proof (for_each_counted (is_pause 1000) _ _
                (Hround (is_pause 1000) eq_refl (fun _ => eq_refl) (fun _ => eq_refl))
                _ _ _ Hloop) as H2.
  pose proof (for_each_counted is_get _ _ Hg _ _ _ Hloop) as H3.
  change (List.length (@nil SearchResult)) with 0 in H1, H2, H3.
  change (count is_sleep [EvGet req]) with 0.
  change (count (is_pause 1000) [EvGet req]) with 0.
  change (count is_get [EvGet req]) with 1.
  lia.
Qed.

Lemma google_search_paces_witness :
  let ev := snd (SearchTool.google_search generous with_credentials "diabetes" 1 500 []) in
  count is_sleep ev = List.length [hit_record "1"; hit_record "2"; hit_record "3"]
  /\ count (is_pause 1000) ev
     = List.length [hit_record "1"; hit_record "2"; hit_record "3"]
  /\ count is_get ev
     = 1 + List.length [hit_record "1"; hit_record "2"; hit_record "3"].
Proof.
  apply (google_search_paces generous with_credentials "diabetes" 1 500 []
           [hit_record "1"; hit_record "2"; hit_record "3"]).
  - reflexivity.
  - discriminate.
Defined.

(* ===================================================================== *)
(** ** The records of the arXiv search *)

Lemma arxiv_entry_run p s h :
  exists r, SearchTool.arxiv_entry p s h = (Ok (s ++ [r])%list, [EvSleep 500])
            /\ record_of_paper p r.
Proof. eexists. split; [reflexivity |]. unfold record_of_paper. repeat split. Qed.

Lemma arxiv_loop_returns (papers : list paper) :
  forall s h, exists l, fst (for_each papers SearchTool.arxiv_entry s h) = Ok l.
Proof.
  induction papers as [| p papers IH]; intros s h; simpl.
  - now exists s.
  - rewrite fst_bind. destruct (arxiv_entry_run p s h) as [r [-> _]]. simpl. apply IH.
Qed.

Lemma arxiv_search_run w query max_results h :
  let feed := arxiv_feed w h query max_results in
  let loop := for_each (fst feed) SearchTool.arxiv_entry []
                       (EvArxiv query max_results :: h) in
  SearchTool.arxiv_search w query max_results h =
  match fst loop, snd feed with
  | Ok results, None => (Ok results, (snd loop ++ [EvArxiv query max_results])%list)
  | Ok results, Some e =>
      (Ok [], EvPrint ("Error in Arxiv search: " ++ str_exn w e)
                :: (snd loop ++ [EvArxiv query max_results])%list)
  | Raise e, _ =>
      (Ok [], EvPrint ("Error in Arxiv search: " ++ str_exn w e)
                :: (snd loop ++ [EvArxiv query max_results])%list)
  end.
Proof.
  cbv zeta. unfold SearchTool.arxiv_search.
  rewrite try_except_run, bind_run. unfold arxiv_results at 1 2 3. simpl fst. simpl snd.
  cbv iota. rewrite bind_run.
  change ([EvArxiv query max_results] ++ h)%list with (EvArxiv query max_results :: h).
  destruct (fst (for_each _ _ _ _)) as [results | e]; simpl.
  - unfold arxiv_results. simpl.
    destruct (snd (arxiv_feed w h query max_results)); simpl; reflexivity.
  - reflexivity.
Qed.

(** X4.  [arxiv_search] never raises and makes no HTTP request of its own:
    it queries the arXiv client once.  When the feed ends on an error it
    returns the empty list, whatever entries came before; otherwise it
    returns one record for each entry, in the order of the feed, with the
    abstract-page address built from the last path segment of the entry
    identifier, and it has paused half a second once for each record. *)
Theorem arxiv_records_follow_feed
        (w : World) (query : string) (max_results : Z) (h : trace) :
  let feed := arxiv_feed w h query max_results in
  let ev := snd (SearchTool.arxiv_search w query max_results h) in
  exists l,
    fst (SearchTool.arxiv_search w query max_results h) = Ok l
    /\ count is_get ev = 0
    /\ count is_arxiv ev = 1
    /\ (forall e, snd feed = Some e -> l = [])
    /\ (snd feed = None ->
        Forall2 record_of_paper (fst feed) l
        /\ count (is_pause 500) ev = List.length l
        /\ count is_sleep ev = List.length l).
Proof.
  cbv zeta. rewrite arxiv_search_run. cbv zeta.
  set (papers := fst (arxiv_feed w h query max_results)).
  set (h' := EvArxiv query max_results :: h).
  destruct (arxiv_loop_returns papers [] h') as [l Hl].
  assert (Hsilent : forall p, (forall d, p (EvSleep d) = false) ->
                              count p (snd (for_each papers SearchTool.arxiv_entry [] h')) = 0).
  { intros p Hp. apply silent_for_each. intros a s h0.
    destruct (arxiv_entry_run a s h0) as [r [-> _]]. unfold count. simpl. now rewrite Hp. }
  assert (Hcount : forall p, p (EvSleep 500) = true ->
                             count p (snd (for_each papers SearchTool.arxiv_entry [] h'))
                             = List.length l).
  { intros p Hp.
    assert (Hr : forall a s h0 s',
              fst (SearchTool.arxiv_entry a s h0) = Ok s' ->
              List.length s' = List.length s
                               + count p (snd (SearchTool.arxiv_entry a s h0))).
    { intros a s h0 s' Hs.
      destruct (arxiv_entry_run a s h0) as [r [E _]]. rewrite E in *.
      simpl in Hs. apply Ok_inj in Hs. subst s'. rewrite length_app.
      unfold count. simpl. rewrite Hp. simpl. lia. }
    pose proof (for_each_counted p papers SearchTool.arxiv_entry Hr [] h' l Hl) as Hc.
    change (List.length (@nil SearchResult)) with 0 in Hc. lia. }
  assert (Hord : Forall2 record_of_paper papers l).
  { apply for_each_forall2 with (R := record_of_paper) in Hl.
    - destruct Hl as [rs [-> Hrs]]. exact Hrs.
    - intros a s h0 s' Hs. destruct (arxiv_entry_run a s h0) as [r [E Hr]].
      rewrite E in Hs. simpl in Hs. apply Ok_inj in Hs. subst s'. now exists r. }
  rewrite Hl.
  destruct (snd (arxiv_feed w h query max_results)) as [e |].
  - exists []. cbn [fst snd]. split; [reflexivity |].
    change (EvPrint ?m :: ?t) with ([EvPrint m] ++ t)%list.
    rewrite !count_app, !Hsilent by reflexivity.
    split; [reflexivity |]. split; [reflexivity |].
    split; [reflexivity | discriminate].
  - exists l. cbn [fst snd]. split; [reflexivity |].
    rewrite !count_app, !Hsilent, !Hcount by reflexivity.
    split; [reflexivity |]. split; [reflexivity |].
    split; [discriminate |]. intros _.
    split; [exact Hord |]. split; unfold count; simpl; lia.
Qed.

Example two_papers_addresses :
  option_map (map arxiv_url)
    (match fst (SearchTool.arxiv_search two_papers "diabetes" 2 []) with
     | Ok l => Some l
     | Raise _ => None
     end)
  = Some [VStr "https://arxiv.org/abs/2401.00001v1";
          VStr "https://arxiv.org/abs/2401.00002v2"].
Proof. reflexivity. Qed.

(* ===================================================================== *)
(** ** The single-study fetch *)

Lemma details_api_valid_run w nct h :
  SearchTool.invalid_nct_id nct = Ok false ->
  SearchTool._get_clinical_trial_details_api w nct h =
  match transport w h (SearchTool.details_request w nct) with
  | Raise e =>
      (Ok None,
       [EvPrint ("Error fetching details for study " ++ fmt w nct ++ ": " ++ str_exn w e);
        EvGet (SearchTool.details_request w nct)])
  | Ok page =>
      if negb (status_code page =? 200)%Z then
        (Ok None,
         [EvPrint ("ClinicalTrials.gov API error for study " ++ fmt w nct ++ ": "
                   ++ fmt w (VInt (status_code page)));
          EvGet (SearchTool.details_request w nct)])
      else
        match and_then (json page) (SearchTool.details_record w nct) with
        | Ok d => (Ok (Some d), [EvGet (SearchTool.details_request w nct)])
        | Raise e =>
            (Ok None,
             [EvPrint ("Error fetching details for study " ++ fmt w nct ++ ": "
                       ++ str_exn w e);
              EvGet (SearchTool.details_request w nct)])
        end
  end.
Proof.
  intros Hv. unfold SearchTool._get_clinical_trial_details_api.
  rewrite Hv, bind_lift_ok. cbv iota.
  rewrite try_except_run, bind_run. unfold http_get. simpl fst. simpl snd.
  destruct (transport w h (SearchTool.details_request w nct)) as [page | e];
    [| reflexivity].
  cbv iota. destruct (negb (status_code page =? 200)%Z); [reflexivity |].
  destruct (json page) as [study | e]; [| reflexivity].
  rewrite bind_lift_ok. cbn [and_then].
  destruct (SearchTool.details_record w nct study) as [d | e]; reflexivity.
Qed.

Lemma details_record_fields w nct study d :
  SearchTool.details_record w nct study = Ok d ->
  nct_id d = nct
  /\ link d = VStr ("https://clinicaltrials.gov/ct2/show/" ++ fmt w nct)
  /\ exists names, interventions d = VList names.
Proof.
  unfold SearchTool.details_record.
  repeat match goal with
         | |- (and_then ?r _ = _) -> _ =>
             destruct r; cbn [and_then]; [| intros H; discriminate H]
         end.
  intros H. apply Ok_inj in H. subst d. simpl. eauto.
Qed.

(** X5.  The single-study fetch checks the identifier before anything
    else.  An empty (or otherwise false) identifier, and a text that does
    not start with [NCT], give no record and no request, only a complaint.
    A true identifier that is not a text raises [AttributeError] out of the
    function, the check standing outside its [try].  For a text starting
    with [NCT] the function never raises and makes exactly one request;
    the record it returns carries the identifier it was asked for and the
    link built from it. *)
Theorem details_api_guards (w : World) (nct : value) (h : trace) :
  (Py.truthy nct = false \/ (exists s, nct = VStr s /\ PyStr.startswith "NCT" s = false) ->
   SearchTool._get_clinical_trial_details_api w nct h
   = (Ok None, [EvPrint ("Invalid NCT ID format: " ++ fmt w nct)]))
  /\ (Py.truthy nct = true -> (forall s, nct <> VStr s) ->
      SearchTool._get_clinical_trial_details_api w nct h = (Raise AttributeError, []))
  /\ (forall s, nct = VStr s -> PyStr.startswith "NCT" s = true ->
      count is_get (snd (SearchTool._get_clinical_trial_details_api w nct h)) = 1
      /\ exists r,
           fst (SearchTool._get_clinical_trial_details_api w nct h) = Ok r
           /\ forall d, r = Some d ->
                        nct_id d = nct
                        /\ link d = VStr ("https://clinicaltrials.gov/ct2/show/" ++ s)).
Proof.
  split; [| split].
  - intros [Hf | [s [-> Hs]]]; unfold SearchTool._get_clinical_trial_details_api,
      SearchTool.invalid_nct_id.
    + rewrite Hf. reflexivity.
    + destruct (negb (Py.truthy (VStr s))); [reflexivity |].
      cbn [Py.startswith and_then]. rewrite Hs. reflexivity.
  - intros Ht Hn. unfold SearchTool._get_clinical_trial_details_api,
      SearchTool.invalid_nct_id. rewrite Ht.
    destruct nct; try reflexivity. now destruct (Hn s).
  - intros s -> Hs.
    assert (Hv : SearchTool.invalid_nct_id (VStr s) = Ok false).
    { unfold SearchTool.invalid_nct_id. cbn [Py.startswith and_then]. rewrite Hs.
      destruct s as [| c s]; [discriminate Hs | reflexivity]. }
    rewrite (details_api_valid_run w (VStr s) h Hv).
    destruct (transport w h (SearchTool.details_request w (VStr s))) as [page | e].
    + destruct (negb (status_code page =? 200)%Z).
      * split; [reflexivity |]. eexists. split; [reflexivity |]. discriminate.
      * destruct (and_then (json page) (SearchTool.details_record w (VStr s)))
          as [d | e] eqn:E.
        -- split; [reflexivity |]. eexists. split; [reflexivity |].
           intros d' Hd. injection Hd as <-.
           destruct (json page) as [study | e]; [| discriminate E].
           cbn [and_then] in E.
           destruct (details_record_fields w (VStr s) study d E) as [H1 [H2 _]].
           split; [exact H1 | exact H2].
        -- split; [reflexivity |]. eexists. split; [reflexivity |]. discriminate.
    + split; [reflexivity |]. eexists. split; [reflexivity |]. discriminate.
Qed.

Lemma details_api_guards_witness :
  SearchTool._get_clinical_trial_details_api generous (VStr "12345678") []
  = (Ok None, [EvPrint ("Invalid NCT ID format: " ++ fmt generous (VStr "12345678"))]).
Proof.
  apply (proj1 (details_api_guards generous (VStr "12345678") [])).
  right. exists "12345678". split; reflexivity.
Defined.

(* ===================================================================== *)
(** ** The identification of a Tier-1 record *)

Lemma api_study_result_identified w study r0 need :
  SearchTool.api_study_result w study = Ok (Some (r0, need)) ->
  identified_by w study r0.
Proof.
  unfold SearchTool.api_study_result, identified_by, study_field.
  repeat match goal with
         | |- (and_then (Py.get ?a ?b ?c) _ = _) -> _ =>
             destruct (Py.get a b c) eqn:?; cbn [and_then];
             [| intros H; discriminate H]
         end.
  destruct (negb (Py.truthy _)) eqn:Ht; [intros H; discriminate H |].
  apply negb_false_iff in Ht.
  repeat match goal with
         | |- (and_then (Py.get ?a ?b ?c) _ = _) -> _ =>
             destruct (Py.get a b c) eqn:?; cbn [and_then];
             [| intros H; discriminate H]
         end.
  match goal with
  | |- (and_then (if Py.truthy ?v then _ else _) _ = _) -> _ =>
      destruct (Py.truthy v) eqn:Hp; cbn [and_then]
  end.
  - destruct (Py.join ", " _) as [joined | e] eqn:Hj; cbn [and_then];
      [| intros H; discriminate H].
    repeat match goal with
           | |- (and_then ?r _ = _) -> _ =>
               destruct r eqn:?; cbn [and_then]; [| intros H; discriminate H]
           end.
    intros H. apply Ok_inj in H. injection H as <- <-. cbn.
    split; [reflexivity |]. split; [exact Ht |]. split; [reflexivity |].
    split.
    + eexists. split; [reflexivity |]. rewrite Hp. eauto.
    + do 2 eexists. split; [reflexivity |]. split; reflexivity.
  - repeat match goal with
           | |- (and_then ?r _ = _) -> _ =>
               destruct r eqn:?; cbn [and_then]; [| intros H; discriminate H]
           end.
    intros H. apply Ok_inj in H. injection H as <- <-. cbn.
    split; [reflexivity |]. split; [exact Ht |]. split; [reflexivity |].
    split.
    + eexists. split; [reflexivity |]. rewrite Hp. reflexivity.
    + do 2 eexists. split; [reflexivity |]. split; reflexivity.
Qed.

Lemma tier1_record_identified w study r :
  tier1_record w study r -> identified_by w study r.
Proof.
  intros [need Hb | r0 d h ev Hb Hd ->].
  - eapply api_study_result_identified; eauto.
  - exact (api_study_result_identified w study r0 true Hb).
Qed.

(** X6.  Every record of a Tier-1 fetch is identified by a study of the
    answer: its identifier is the study's, and is never empty (a study
    without identifier is skipped); its link is the show address followed
    by the identifier; its phase is a text, the study's phases joined by a
    comma and a space, or [Not Specified] when the study lists none; its
    title is the brief title, or the official title when there is no brief
    one.  Enrichment changes none of these. *)
Theorem tier1_records_identified
        (w : World) (query : string) (n : Z) (h : trace) :
  exists l,
    fst (SearchTool.clinicaltrials_search_beta_api w query n h) = Ok l
    /\ Forall (fun r =>
                 exists study,
                   In study (listed "studies"
                               (transport w h (SearchTool.api_request query n)))
                   /\ identified_by w study r) l.
Proof.
  destruct (beta_api_returns w query n h) as [l Hl]. exists l. split; [exact Hl |].
  apply Forall_forall. intros r Hin.
  destruct (@beta_api_provenance w query n h l r Hl Hin) as [study [Hs Hr]].
  exists study. split; [exact Hs |]. now apply tier1_record_identified.
Qed.

(* ===================================================================== *)
(** ** The pauses of the registry adapters *)

(** A loop whose every round performs at most as many effects of a kind as
    it adds items. *)
Lemma for_each_bounded {A T} (p : event -> bool) (l : list A)
      (body : A -> list T -> M (list T)) :
  (forall a s h s', fst (body a s h) = Ok s' ->
                    List.length s + count p (snd (body a s h)) <= List.length s') ->
  forall s h s', fst (for_each l body s h) = Ok s' ->
                 List.length s + count p (snd (for_each l body s h)) <= List.length s'.
Proof.
  intros Hb. induction l as [| a l IH]; intros s h s' H; simpl in *.
  - apply Ok_inj in H. subst s'. unfold count. simpl. lia.
  - rewrite count_bind. rewrite fst_bind in H.
    destruct (fst (body a s h)) as [s1 | e] eqn:E; [| discriminate].
    apply IH in H. apply Hb in E. lia.
Qed.

Lemma details_api_no_pause w nct :
  silent is_sleep (SearchTool._get_clinical_trial_details_api w nct)
  /\ silent (is_pause 2000) (SearchTool._get_clinical_trial_details_api w nct).
Proof. split; unfold SearchTool._get_clinical_trial_details_api; silence. Qed.

Lemma details_api_one_request w nct h :
  count is_get (snd (SearchTool._get_clinical_trial_details_api w nct h)) <= 1.
Proof.
  destruct (SearchTool.invalid_nct_id nct) as [[|] | e] eqn:Hv.
  - unfold SearchTool._get_clinical_trial_details_api. rewrite Hv, bind_lift_ok.
    unfold count. simpl. lia.
  - rewrite (details_api_valid_run w nct h Hv).
    destruct (transport w h _) as [page | e]; [| unfold count; simpl; lia].
    destruct (negb _); [unfold count; simpl; lia |].
    destruct (and_then _ _); unfold count; simpl; lia.
  - unfold SearchTool._get_clinical_trial_details_api. rewrite Hv.
    unfold count. simpl. lia.
Qed.

(** A Tier-1 fetch that returns a record ran its loop to the end. *)
Lemma beta_api_nonempty w query max_results h l :
  fst (SearchTool.clinicaltrials_search_beta_api w query max_results h) = Ok l ->
  l <> [] ->
  let req := SearchTool.api_request query max_results in
  let loop := for_each (listed "studies" (transport w h req))
                       (SearchTool.api_study w) [] (EvGet req :: h) in
  fst loop = Ok l
  /\ snd (SearchTool.clinicaltrials_search_beta_api w query max_results h)
     = (snd loop ++ [EvGet req])%list.
Proof.
  cbv zeta. unfold SearchTool.clinicaltrials_search_beta_api.
  intros H Hl. destruct (fetch_nonempty _ _ _ _ _ _ H Hl) as [page [Ht [Hk Hev]]].
  rewrite Hev, Ht. clear H Hev. simpl listed.
  destruct (negb (status_code page =? 200)%Z).
  { simpl in Hk. apply Ok_inj in Hk. congruence. }
  destruct (json page) as [data | e]; [| discriminate Hk].
  rewrite bind_lift_ok in *.
  destruct (Py.get data "studies" (VList [])) as [studies | e]; [| discriminate Hk].
  rewrite bind_lift_ok in *.
  destruct (negb (Py.truthy studies)).
  { simpl in Hk. apply Ok_inj in Hk. congruence. }
  destruct (Py.iter studies) as [each | e]; [| discriminate Hk].
  rewrite bind_lift_ok in *. split; [exact Hk | reflexivity].
Qed.

(** X7.  When the Tier-1 fetch returns records it has paused two seconds
    once for each record, a skipped study costing no pause; and it has made
    its search request and at most one enrichment request for each
    record. *)
Theorem tier1_fetch_paces
        (w : World) (query : string) (n : Z) (h : trace) (l : list SearchResult) :
  fst (SearchTool.clinicaltrials_search_beta_api w query n h) = Ok l ->
  l <> [] ->
  let ev := snd (SearchTool.clinicaltrials_search_beta_api w query n h) in
  count is_sleep ev = List.length l
  /\ count (is_pause 2000) ev = List.length l
  /\ 1 <= count is_get ev <= 1 + List.length l.
Proof.
  intros H Hl. cbv zeta.
  destruct (beta_api_nonempty _ _ _ _ _ H Hl) as [Hloop ->].
  set (req := SearchTool.api_request query n) in *.
  assert (Hround : forall p,
            p (EvSleep 2000) = true ->
            (forall nct, silent p (SearchTool._get_clinical_trial_details_api w nct)) ->
            forall a s h0 s',
              fst (SearchTool.api_study w a s h0) = Ok s' ->
              List.length s' = List.length s
                               + count p (snd (SearchTool.api_study w a s h0))).
  { intros p Hs Hd a s h0 s'. rewrite api_study_run.
    destruct (SearchTool.api_study_result w a) as [[[r0 [|]] |] | e].
    - pose proof (Hd (nct_id r0) h0) as Hq.
      destruct (SearchTool._get_clinical_trial_details_api w (nct_id r0) h0)
        as [[[d |] | e] ev']; simpl in *; intros Hr; try discriminate Hr;
        apply Ok_inj in Hr; subst s'; rewrite length_app;
        change (count p (EvSleep 2000 :: ev')) with (count p ([EvSleep 2000] ++ ev')%list);
        rewrite count_app, Hq; unfold count; simpl; rewrite Hs; simpl; lia.
    - simpl. intros Hr. apply Ok_inj in Hr. subst s'. rewrite length_app.
      unfold count. simpl. rewrite Hs. simpl. lia.
    - simpl. intros Hr. apply Ok_inj in Hr. subst s'. unfold count. simpl. lia.
    - discriminate. }
  assert (Hget : forall a s h0 s',
            fst (SearchTool.api_study w a s h0) = Ok s' ->
            List.length s + count is_get (snd (SearchTool.api_study w a s h0))
            <= List.length s').
  { intros a s h0 s'. rewrite api_study_run.
    destruct (SearchTool.api_study_result w a) as [[[r0 [|]] |] | e].
    - pose proof (details_api_one_request w (nct_id r0) h0) as Hq.
      destruct (SearchTool._get_clinical_trial_details_api w (nct_id r0) h0)
        as [[[d |] | e] ev']; simpl in *; intros Hr; try discriminate Hr;
        apply Ok_inj in Hr; subst s'; rewrite length_app;
        change (count is_get (EvSleep 2000 :: ev')) with (count is_get ev');
        simpl; lia.
    - simpl. intros Hr. apply Ok_inj in Hr. subst s'. rewrite length_app.
      unfold count. simpl. lia.
    - simpl. intros Hr. apply Ok_inj in Hr. subst s'. unfold count. simpl. lia.
    - discriminate. }
  pose proof (for_each_counted is_sleep _ _
                (Hround is_sleep eq_refl (fun nct => proj1 (details_api_no_pause w nct)))
                _ _ _ Hloop) as H1.
  pose proof (for_each_counted (is_pause 2000) _ _
                (Hround (is_pause 2000) eq_refl
                        (fun nct => proj2 (details_api_no_pause w nct)))
                _ _ _ Hloop) as H2.
  pose proof (for_each_bounded is_get _ _ Hget _ _ _ Hloop) as H3.
  rewrite !count_app.
  change (List.length (@nil SearchResult)) with 0 in H1, H2, H3.
  change (count is_sleep [EvGet req]) with 0.
  change (count (is_pause 2000) [EvGet req]) with 0.
  change (count is_get [EvGet req]) with 1.
  lia.
Qed.

Lemma tier1_fetch_paces_witness :
  let ev := snd (SearchTool.clinicaltrials_search_beta_api detailed_only "diabetes" 2 []) in
  count is_sleep ev = List.length [described_record]
  /\ count (is_pause 2000) ev = List.length [described_record]
  /\ 1 <= count is_get ev <= 1 + List.length [described_record].
Proof.
  apply (tier1_fetch_paces detailed_only "diabetes" 2 [] [described_record]).
  - reflexivity.
  - discriminate.
Defined.

(* ===================================================================== *)
(** ** Splitting at slashes, and the identifier pattern *)

Lemma prefix_nil r : String.prefix "" r = true.
Proof. destruct r; reflexivity. Qed.

Lemma prefix_slash c r : String.prefix "/" (String c r) = Ascii.eqb "/" c.
Proof.
  change (String.prefix "/" (String c r))
    with (if Ascii.ascii_dec "/" c then String.prefix "" r else false).
  destruct (Ascii.ascii_dec "/" c) as [<- | Hc].
  - apply prefix_nil.
  - apply Ascii.eqb_neq in Hc. now rewrite Hc.
Qed.

Lemma splitn_slash_step n acc c r :
  PyStr.splitn "/" (S n) 0 acc (String c r)
  = if Ascii.eqb "/" c then acc :: PyStr.splitn "/" n 0 "" r
    else PyStr.splitn "/" (S n) 0 (acc ++ String c "") r.
Proof.
  cbn [PyStr.splitn]. rewrite prefix_slash.
  destruct (Ascii.eqb "/" c); reflexivity.
Qed.

Lemma contains_slash_mem s : PyStr.contains "/" s = PyStr.mem "/" s.
Proof.
  induction s as [| c r IH]; [reflexivity |].
  cbn [PyStr.contains PyStr.mem]. now rewrite IH, prefix_slash.
Qed.

Lemma mem_append c a b : PyStr.mem c (a ++ b) = PyStr.mem c a || PyStr.mem c b.
Proof.
  induction a as [| x a IH]; [reflexivity |].
  cbn [append PyStr.mem]. rewrite IH. now rewrite orb_assoc.
Qed.

(** A text without slash is one piece. *)
Lemma splitn_no_slash s :
  PyStr.mem "/" s = false ->
  forall n acc, PyStr.splitn "/" n 0 acc s = [acc ++ s].
Proof.
  induction s as [| c r IH]; intros Hs n acc.
  - cbn [PyStr.splitn]. now rewrite append_nil_r.
  - cbn [PyStr.mem] in Hs. apply orb_false_iff in Hs. destruct Hs as [Hc Hr].
    destruct n as [| n]; [reflexivity |].
    rewrite splitn_slash_step, Hc, (IH Hr), append_assoc. reflexivity.
Qed.

Lemma splitn_nonempty sep n k acc s : PyStr.splitn sep n k acc s <> [].
Proof.
  revert n k acc. induction s as [| c r IH]; intros n k acc; cbn [PyStr.splitn].
  - discriminate.
  - destruct k; [| apply IH]. destruct n; [discriminate |].
    destruct (String.prefix sep (String c r)); [discriminate | apply IH].
Qed.

Lemma last_cons {A} (a : A) (l : list A) (d : A) : l <> [] -> List.last (a :: l) d = List.last l d.
Proof. destruct l; [congruence | reflexivity]. Qed.

(** What follows the last slash is the last piece. *)
Lemma splitn_slash_last p id :
  PyStr.mem "/" id = false ->
  forall n acc,
    String.length (p ++ String "/" id) <= n ->
    List.last (PyStr.splitn "/" n 0 acc (p ++ String "/" id)) "" = id.
Proof.
  intros Hid. induction p as [| c p IH]; intros n acc Hn.
  - cbn [append] in *. cbn [String.length] in Hn.
    destruct n as [| n]; [lia |].
    rewrite splitn_slash_step. cbn [Ascii.eqb Bool.eqb]. cbv iota.
    rewrite (splitn_no_slash id Hid). reflexivity.
  - cbn [append] in *. cbn [String.length] in Hn.
    destruct n as [| n]; [lia |].
    rewrite splitn_slash_step. destruct (Ascii.eqb "/" c).
    + rewrite last_cons by apply splitn_nonempty. apply IH. lia.
    + apply IH. lia.
Qed.

(** No piece has a slash. *)
Lemma splitn_pieces_no_slash s :
  forall n acc,
    String.length s <= n -> PyStr.mem "/" acc = false ->
    Forall (fun piece => PyStr.mem "/" piece = false) (PyStr.splitn "/" n 0 acc s).
Proof.
  induction s as [| c r IH]; intros n acc Hn Hacc.
  - cbn [PyStr.splitn]. now constructor.
  - cbn [String.length] in Hn. destruct n as [| n]; [lia |].
    rewrite splitn_slash_step. destruct (Ascii.eqb "/" c) eqn:Hc.
    + constructor; [exact Hacc |]. apply IH; [lia | reflexivity].
    + apply IH; [lia |]. rewrite mem_append, Hacc. cbn [PyStr.mem].
      now rewrite Hc.
Qed.

Lemma last_segment_no_slash s : PyStr.mem "/" (PyStr.last (PyStr.split "/" s)) = false.
Proof.
  unfold PyStr.last, PyStr.split.
  pose proof (splitn_pieces_no_slash s (String.length s) "" (le_n _) eq_refl) as H.
  induction H as [| x l Hx Hl IH]; [reflexivity |].
  destruct l; [exact Hx | exact IH].
Qed.

Lemma digit_not_slash c : PyStr.is_digit c = true -> Ascii.eqb "/" c = false.
Proof.
  intros H. destruct (Ascii.eqb "/" c) eqn:E; [| reflexivity].
  apply Ascii.eqb_eq in E. subst c. discriminate H.
Qed.

Lemma digits_take_no_slash n r :
  PyStr.digits n r = true ->
  PyStr.mem "/" (PyStr.take n r) = false /\ String.length (PyStr.take n r) = n.
Proof.
  revert r. induction n as [| n IH]; intros r H.
  - destruct r; split; reflexivity.
  - destruct r as [| c r]; [discriminate H |].
    cbn [PyStr.digits] in H. apply andb_true_iff in H. destruct H as [Hc Hr].
    destruct (IH r Hr) as [H1 H2].
    cbn [PyStr.take PyStr.mem String.length]. rewrite (digit_not_slash c Hc), H1, H2.
    split; reflexivity.
Qed.

Lemma nct_here_take s :
  PyStr.nct_here s = true ->
  PyStr.nct_here (PyStr.take 11 s) = true
  /\ String.length (PyStr.take 11 s) = 11
  /\ PyStr.mem "/" (PyStr.take 11 s) = false.
Proof.
  unfold PyStr.nct_here. intros H.
  destruct s as [| [[] [] [] [] [] [] [] []] s]; try discriminate H.
  destruct s as [| [[] [] [] [] [] [] [] []] s]; try discriminate H.
  destruct s as [| [[] [] [] [] [] [] [] []] r]; try discriminate H.
  revert H.
  intros H. destruct (digits_take_no_slash 8 r H) as [H1 H2].
  change (PyStr.take 11 (String "N" (String "C" (String "T" r))))
    with (String "N" (String "C" (String "T" (PyStr.take 8 r)))).
  cbn [String.length PyStr.mem]. rewrite H1, H2.
  split; [| split; reflexivity].
  clear H1 H2. revert H. generalize 8. intros n. revert r.
  induction n as [| n IH]; intros r H; [reflexivity |].
  destruct r as [| c r]; [discriminate H |].
  cbn [PyStr.digits] in H. apply andb_true_iff in H. destruct H as [Hc Hr].
  cbn [PyStr.take PyStr.digits]. rewrite Hc. apply IH. exact Hr.
Qed.

Lemma prefix_take n s : String.prefix (PyStr.take n s) s = true.
Proof.
  revert s. induction n as [| n IH]; intros [| c r]; try reflexivity.
  change (String.prefix (PyStr.take (S n) (String c r)) (String c r))
    with (if Ascii.ascii_dec c c then String.prefix (PyStr.take n r) r else false).
  destruct (Ascii.ascii_dec c c); [apply IH | contradiction].
Qed.

Lemma prefix_append sub b : String.prefix sub (sub ++ b) = true.
Proof.
  induction sub as [| c sub IH]; [apply prefix_nil |].
  change (String.prefix (String c sub) (String c sub ++ b))
    with (if Ascii.ascii_dec c c then String.prefix sub (sub ++ b) else false).
  destruct (Ascii.ascii_dec c c); [apply IH | contradiction].
Qed.

Lemma contains_prefix sub s : String.prefix sub s = true -> PyStr.contains sub s = true.
Proof. intros H. destruct s; cbn [PyStr.contains]; now rewrite H. Qed.

Lemma contains_skip sub a s : PyStr.contains sub s = true -> PyStr.contains sub (a ++ s) = true.
Proof.
  intros H. induction a as [| c a IH]; [exact H |].
  cbn [append PyStr.contains]. rewrite IH. apply orb_true_r.
Qed.

(** What the pattern search finds has the pattern and is part of the
    text. *)
Lemma search_nct_sound s m :
  PyStr.search_nct s = Some m ->
  PyStr.nct_here m = true /\ String.length m = 11
  /\ PyStr.mem "/" m = false /\ PyStr.contains m s = true.
Proof.
  induction s as [| c r IH]; cbn [PyStr.search_nct].
  - simpl. discriminate.
  - destruct (PyStr.nct_here (String c r)) eqn:E.
    + intros H. clear IH.
      assert (Hm : m = PyStr.take 11 (String c r)) by congruence. subst m.
      destruct (nct_here_take (String c r) E) as [H1 [H2 H3]].
      repeat split; try assumption. apply contains_prefix, prefix_take.
    + intros H. destruct (IH H) as [H1 [H2 [H3 H4]]].
      repeat split; try assumption.
      cbn [PyStr.contains]. rewrite H4. apply orb_true_r.
Qed.

(** The match is the leftmost one: the pattern stands at the cut the
    search stops at, and at no earlier cut of the text. *)
Lemma search_nct_first s m :
  PyStr.search_nct s = Some m ->
  exists before rest,
    s = before ++ rest
    /\ PyStr.nct_here rest = true
    /\ m = PyStr.take 11 rest
    /\ forall before' rest',
         s = before' ++ rest' ->
         String.length before' < String.length before ->
         PyStr.nct_here rest' = false.
Proof.
  induction s as [| c r IH]; cbn [PyStr.search_nct].
  - simpl. discriminate.
  - destruct (PyStr.nct_here (String c r)) eqn:E.
    + intros H. clear IH. exists "", (String c r).
      split; [reflexivity |]. split; [exact E |]. split; [congruence |].
      intros before' rest' _ Hlt. simpl in Hlt. lia.
    + intros H. destruct (IH H) as [before [rest [Hs [Hr [Hm Hfirst]]]]].
      exists (String c before), rest.
      split; [simpl; now rewrite Hs |]. split; [exact Hr |]. split; [exact Hm |].
      intros before' rest' Hcut Hlt. destruct before' as [| c' before''].
      * simpl in Hcut. subst rest'. exact E.
      * simpl in Hcut, Hlt. injection Hcut as _ Hcut.
        apply (Hfirst before'' rest' Hcut). lia.
Qed.

Lemma show_url_contains id : PyStr.contains "/ct2/show/" (show_url id) = true.
Proof.
  change (show_url id) with ("https://clinicaltrials.gov" ++ ("/ct2/show/" ++ id)).
  apply contains_skip, contains_prefix, prefix_append.
Qed.

Lemma show_url_last id :
  PyStr.mem "/" id = false -> PyStr.last (PyStr.split "/" (show_url id)) = id.
Proof.
  intros H. unfold PyStr.last, PyStr.split.
  change (show_url id) with ("https://clinicaltrials.gov/ct2/show" ++ String "/" id).
  apply splitn_slash_last; [exact H | apply le_n].
Qed.

Lemma href_identifier_facts href id :
  SearchTool.href_nct_id href = Some id ->
  PyStr.contains "/" id = false
  /\ forall doc, SearchTool.page_nct_id (show_url id) doc = id.
Proof.
  intros H. unfold SearchTool.href_nct_id in H.
  assert (Hid : PyStr.mem "/" id = false).
  { destruct (PyStr.contains "/study/" href).
    - injection H as <-. apply last_segment_no_slash.
    - destruct (PyStr.contains "/ct2/show/" href).
      + injection H as <-. apply last_segment_no_slash.
      + now destruct (search_nct_sound href id H) as [_ [_ [H3 _]]]. }
  split; [now rewrite contains_slash_mem |].
  intros doc. unfold SearchTool.page_nct_id.
  rewrite show_url_contains. now apply show_url_last.
Qed.

(** X8.  The identifier found in the href of a result link.  It is the last
    path segment of the href when the href has a [/study/] or [/ct2/show/]
    part, else the first occurrence in the href of [NCT] followed by eight
    digits: the eleven characters at the leftmost place of the href where
    the pattern stands.  It never has a slash, so that the page address
    built from it gives it back as the identifier of the record, whatever
    the page. *)
Theorem href_identifier (href id : string) :
  SearchTool.href_nct_id href = Some id ->
  PyStr.contains "/" id = false
  /\ (forall doc, SearchTool.page_nct_id (show_url id) doc = id)
  /\ (PyStr.contains "/study/" href = true \/ PyStr.contains "/ct2/show/" href = true ->
      id = PyStr.last (PyStr.split "/" href))
  /\ (PyStr.contains "/study/" href = false ->
      PyStr.contains "/ct2/show/" href = false ->
      PyStr.nct_here id = true /\ String.length id = 11
      /\ PyStr.contains id href = true
      /\ exists before rest,
           href = before ++ rest
           /\ PyStr.nct_here rest = true
           /\ id = PyStr.take 11 rest
           /\ forall before' rest',
                href = before' ++ rest' ->
                String.length before' < String.length before ->
                PyStr.nct_here rest' = false).
Proof.
  intros H. destruct (href_identifier_facts href id H) as [Hno Hback].
  unfold SearchTool.href_nct_id in H.
  split; [exact Hno |]. split; [exact Hback |].
  split.
  - intros [Hs | Hs]; rewrite Hs in H.
    + now injection H as <-.
    + destruct (PyStr.contains "/study/" href); now injection H as <-.
  - intros H1 H2. rewrite H1, H2 in H.
    destruct (search_nct_sound href id H) as [Ha [Hb [_ Hc]]].
    split; [exact Ha |]. split; [exact Hb |]. split; [exact Hc |].
    now apply search_nct_first.
Qed.

Lemma href_identifier_witness :
  PyStr.contains "/" "NCT00000003" = false
  /\ (forall doc, SearchTool.page_nct_id (show_url "NCT00000003") doc = "NCT00000003").
Proof.
  pose proof (href_identifier "/search?id=NCT00000003" "NCT00000003" eq_refl) as H.
  exact (conj (proj1 H) (proj1 (proj2 H))).
Defined.

(* ===================================================================== *)
(** ** The records of the scrape *)

Lemma details_scrape_run w u h :
  SearchTool._get_clinical_trial_details_scrape w u h =
  match transport w h (page_request (VStr u)) with
  | Ok page =>
      if negb (status_code page =? 200)%Z then
        (Ok None,
         [EvPrint ("Error accessing " ++ u ++ ": " ++ fmt w (VInt (status_code page)));
          EvGet (page_request (VStr u))])
      else
        (Ok (Some (SearchTool.scrape_page u (soup page))),
         [EvGet (page_request (VStr u))])
  | Raise e =>
      (Ok None,
       [EvPrint ("Error extracting details from " ++ u ++ ": " ++ str_exn w e);
        EvGet (page_request (VStr u))])
  end.
Proof.
  unfold SearchTool._get_clinical_trial_details_scrape.
  rewrite try_except_run, bind_run. unfold http_get. simpl fst. simpl snd.
  fold (page_request (VStr u)).
  destruct (transport w h (page_request (VStr u))) as [page | e]; [| reflexivity].
  cbv iota. destruct (negb (status_code page =? 200)%Z); reflexivity.
Qed.

(** A round of the scrape loop: it leaves the list as it is, without a
    pause, or it appends one scraped record, after one request and with one
    pause. *)
Lemma scrape_link_inv w link s h s' :
  fst (SearchTool.scrape_link w link s h) = Ok s' ->
  (s' = s /\ count is_sleep (snd (SearchTool.scrape_link w link s h)) = 0
   /\ count (is_pause 2000) (snd (SearchTool.scrape_link w link s h)) = 0)
  \/ (exists r, s' = (s ++ [r])%list /\ scraped r
                /\ count is_sleep (snd (SearchTool.scrape_link w link s h)) = 1
                /\ count (is_pause 2000) (snd (SearchTool.scrape_link w link s h)) = 1
                /\ count is_get (snd (SearchTool.scrape_link w link s h)) = 1).
Proof.
  unfold SearchTool.scrape_link.
  destruct (PyStr.is_empty _).
  { simpl. intros H. apply Ok_inj in H. subst. left. repeat split. }
  destruct (SearchTool.href_nct_id _) as [id |] eqn:Hid.
  2:{ simpl. intros H. apply Ok_inj in H. subst. left. repeat split. }
  rewrite bind_run, details_scrape_run. fold (show_url id).
  destruct (transport w h (page_request (VStr (show_url id)))) as [page | e].
  - destruct (negb (status_code page =? 200)%Z).
    + simpl. intros H. apply Ok_inj in H. subst. left. repeat split.
    + simpl. intros H. apply Ok_inj in H. subst. right.
      eexists. split; [reflexivity |]. split; [| repeat split].
      eexists _, id, _. split; [exact Hid | reflexivity].
  - simpl. intros H. apply Ok_inj in H. subst. left. repeat split.
Qed.

(** A scrape that returns a record ran its loop to the end. *)
Lemma scrape_nonempty w query max_results h l :
  fst (SearchTool.clinicaltrials_search_scrape w query max_results h) = Ok l ->
  l <> [] ->
  let req := SearchTool.scrape_request query in
  exists links,
    let loop := for_each links (SearchTool.scrape_link w) [] (EvGet req :: h) in
    fst loop = Ok l
    /\ snd (SearchTool.clinicaltrials_search_scrape w query max_results h)
       = (snd loop ++ [EvGet req])%list.
Proof.
  cbv zeta. unfold SearchTool.clinicaltrials_search_scrape.
  intros H Hl. destruct (fetch_nonempty _ _ _ _ _ _ H Hl) as [page [Ht [Hk Hev]]].
  rewrite Hev. clear H Hev.
  destruct (negb (status_code page =? 200)%Z).
  { simpl in Hk. apply Ok_inj in Hk. congruence. }
  destruct (Py.list_slice_to max_results _) as [| link links].
  { simpl in Hk. apply Ok_inj in Hk. congruence. }
  exists (link :: links). split; [exact Hk | reflexivity].
Qed.

Lemma scrape_records_scraped w query max_results h l :
  fst (SearchTool.clinicaltrials_search_scrape w query max_results h) = Ok l ->
  Forall scraped l.
Proof.
  intros H. destruct l as [| r0 l0]; [constructor |].
  destruct (scrape_nonempty w query max_results h (r0 :: l0) H) as [links [Hloop _]];
    [discriminate |].
  eapply for_each_invariant; [| | exact Hloop]; [| constructor].
  intros link s h0 s' _ Hs Hr. apply scrape_link_inv in Hr.
  destruct Hr as [[-> _] | [r [-> [Hr _]]]]; [exact Hs |].
  apply Forall_app. split; [exact Hs | now constructor].
Qed.

(** X9.  The scrape adapter never raises, and every record it returns is
    consistent: its identifier, the one found in the href of a result
    link, has no slash, its link is the show address followed by that
    identifier, its conditions are a list of texts, never [None], and its
    interventions are [None]. *)
Theorem scrape_records_consistent
        (w : World) (query : string) (n : Z) (h : trace) :
  exists l,
    fst (SearchTool.clinicaltrials_search_scrape w query n h) = Ok l
    /\ Forall (fun r =>
                 exists id,
                   nct_id r = VStr id
                   /\ link r = VStr ("https://clinicaltrials.gov/ct2/show/" ++ id)
                   /\ PyStr.contains "/" id = false
                   /\ (exists cs, conditions r = VList (map VStr cs))
                   /\ interventions r = VNone) l.
Proof.
  destruct (scrape_returns w query n h) as [l Hl]. exists l. split; [exact Hl |].
  pose proof (scrape_records_scraped w query n h l Hl) as Hs.
  eapply Forall_impl; [| exact Hs]. clear.
  intros r [href [id [doc [Hid ->]]]].
  destruct (href_identifier_facts href id Hid) as [H1 H2].
  exists id. unfold SearchTool.scrape_page. cbn [nct_id link conditions interventions].
  rewrite H2. split; [reflexivity |]. split; [reflexivity |].
  split; [exact H1 |]. split; [eexists; reflexivity | reflexivity].
Qed.

Lemma for_each_at_least {A T} (p : event -> bool) (l : list A)
      (body : A -> list T -> M (list T)) :
  (forall a s h s', fst (body a s h) = Ok s' ->
                    List.length s' <= List.length s + count p (snd (body a s h))) ->
  forall s h s', fst (for_each l body s h) = Ok s' ->
                 List.length s' <= List.length s + count p (snd (for_each l body s h)).
Proof.
  intros Hb. induction l as [| a l IH]; intros s h s' H; simpl in *.
  - apply Ok_inj in H. subst s'. lia.
  - rewrite count_bind. rewrite fst_bind in H.
    destruct (fst (body a s h)) as [s1 | e] eqn:E; [| discriminate].
    apply IH in H. apply Hb in E. lia.
Qed.

(** X10.  When the scrape adapter returns records it has paused two seconds
    once for each record, a link that gave no record costing no pause; and
    it has made its search request and at least one page request for each
    record. *)
Theorem scrape_paces
        (w : World) (query : string) (n : Z) (h : trace) (l : list SearchResult) :
  fst (SearchTool.clinicaltrials_search_scrape w query n h) = Ok l ->
  l <> [] ->
  let ev := snd (SearchTool.clinicaltrials_search_scrape w query n h) in
  count is_sleep ev = List.length l
  /\ count (is_pause 2000) ev = List.length l
  /\ 1 + List.length l <= count is_get ev.
Proof.
  intros H Hl. cbv zeta.
  destruct (scrape_nonempty w query n h l H Hl) as [links [Hloop ->]].
  set (req := SearchTool.scrape_request query) in *.
  assert (H1 : forall a s h0 s',
            fst (SearchTool.scrape_link w a s h0) = Ok s' ->
            List.length s' = List.length s
                             + count is_sleep (snd (SearchTool.scrape_link w a s h0))).
  { intros a s h0 s' Hr. apply scrape_link_inv in Hr.
    destruct Hr as [[-> [E _]] | [r [-> [_ [E _]]]]]; rewrite E, ?length_app; simpl; lia. }
  assert (H2 : forall a s h0 s',
            fst (SearchTool.scrape_link w a s h0) = Ok s' ->
            List.length s' = List.length s
                             + count (is_pause 2000) (snd (SearchTool.scrape_link w a s h0))).
  { intros a s h0 s' Hr. apply scrape_link_inv in Hr.
    destruct Hr as [[-> [_ E]] | [r [-> [_ [_ [E _]]]]]]; rewrite E, ?length_app; simpl; lia. }
  assert (H3 : forall a s h0 s',
            fst (SearchTool.scrape_link w a s h0) = Ok s' ->
            List.length s' <= List.length s
                              + count is_get (snd (SearchTool.scrape_link w a s h0))).
  { intros a s h0 s' Hr. apply scrape_link_inv in Hr.
    destruct Hr as [[-> _] | [r [-> [_ [_ [_ E]]]]]]; [lia |].
    rewrite E, length_app. simpl. lia. }
  pose proof (for_each_counted is_sleep _ _ H1 _ _ _ Hloop) as C1.
  pose proof (for_each_counted (is_pause 2000) _ _ H2 _ _ _ Hloop) as C2.
  pose proof (for_each_at_least is_get _ _ H3 _ _ _ Hloop) as C3.
  rewrite !count_app.
  change (List.length (@nil SearchResult)) with 0 in C1, C2, C3.
  change (count is_sleep [EvGet req]) with 0.
  change (count (is_pause 2000) [EvGet req]) with 0.
  change (count is_get [EvGet req]) with 1.
  lia.
Qed.

Lemma scrape_paces_witness :
  let ev := snd (SearchTool.clinicaltrials_search_scrape three_links "diabetes" 1 []) in
  count is_sleep ev
  = List.length [SearchTool.scrape_page (show_url "NCT00000001") blank_document]
  /\ count (is_pause 2000) ev
     = List.length [SearchTool.scrape_page (show_url "NCT00000001") blank_document]
  /\ 1 + List.length [SearchTool.scrape_page (show_url "NCT00000001") blank_document]
     <= count is_get ev.
Proof.
  apply (scrape_paces three_links "diabetes" 1 []
           [SearchTool.scrape_page (show_url "NCT00000001") blank_document]).
  - reflexivity.
  - discriminate.
Defined.

Lemma scrape_snippet_cases s :
  SearchTool.scrape_snippet s
  = if (200 <? String.length s)%nat then PyStr.take 200 s ++ "..." else s.
Proof. destruct s; reflexivity. Qed.

(** X11.  In every record of the scrape the abstract is the summary read
    off the page, and the snippet is that text when it has at most 200
    characters, its first 200 characters and the ellipsis marker
    otherwise: the snippet equals the abstract for every summary of at most
    200 characters, the empty one included, and never has more than 203
    characters. *)
Theorem scrape_snippet_of_abstract
        (w : World) (query : string) (n : Z) (h : trace) :
  exists l,
    fst (SearchTool.clinicaltrials_search_scrape w query n h) = Ok l
    /\ Forall (fun r =>
                 exists a sn,
                   abstract r = VStr a /\ snippet r = VStr sn
                   /\ (String.length a <= 200 -> sn = a)
                   /\ (200 < String.length a -> sn = PyStr.take 200 a ++ "...")
                   /\ String.length sn <= 203) l.
Proof.
  destruct (scrape_returns w query n h) as [l Hl]. exists l. split; [exact Hl |].
  pose proof (scrape_records_scraped w query n h l Hl) as Hs.
  eapply Forall_impl; [| exact Hs]. clear.
  intros r [href [id [doc [_ ->]]]].
  unfold SearchTool.scrape_page. cbn [abstract snippet].
  set (a := for_break SearchTool.summary_selectors _ _).
  exists a, (SearchTool.scrape_snippet a). rewrite scrape_snippet_cases.
  split; [reflexivity |]. split; [reflexivity |].
  destruct (200 <? String.length a)%nat eqn:E.
  - apply Nat.ltb_lt in E. split; [lia |]. split; [reflexivity |].
    rewrite length_append, length_take. change (String.length "...") with 3. lia.
  - apply Nat.ltb_ge in E. split; [reflexivity |]. split; lia.
Qed.

(* ===================================================================== *)
(** ** Scraped texts are stripped *)

Lemma lstrip_head p s :
  PyStr.lstrip_by p s = ""
  \/ exists c r, PyStr.lstrip_by p s = String c r /\ p c = false.
Proof.
  induction s as [| c r IH]; [now left |].
  cbn [PyStr.lstrip_by]. destruct (p c) eqn:E; [exact IH |].
  right. now exists c, r.
Qed.

Lemma rstrip_idempotent p s :
  PyStr.rstrip_by p (PyStr.rstrip_by p s) = PyStr.rstrip_by p s.
Proof.
  induction s as [| c r IH]; [reflexivity |].
  cbn [PyStr.rstrip_by]. cbv zeta.
  destruct (p c && PyStr.is_empty (PyStr.rstrip_by p r)) eqn:E; [reflexivity |].
  cbn [PyStr.rstrip_by]. cbv zeta. now rewrite IH, E.
Qed.

(** Stripping what is stripped changes nothing. *)
Lemma strip_idempotent p s :
  PyStr.strip_by p (PyStr.strip_by p s) = PyStr.strip_by p s.
Proof.
  unfold PyStr.strip_by.
  destruct (lstrip_head p s) as [-> | [c [r [-> Hc]]]]; [reflexivity |].
  cbn [PyStr.rstrip_by]. cbv zeta. rewrite Hc. cbn [andb].
  cbn [PyStr.lstrip_by]. rewrite Hc.
  cbn [PyStr.rstrip_by]. cbv zeta. rewrite Hc. cbn [andb].
  now rewrite rstrip_idempotent.
Qed.

Lemma for_break_keeps {A S} (P : S -> Prop) (l : list A) (body : A -> S -> S * bool) :
  (forall a s, P s -> P (fst (body a s))) ->
  forall s, P s -> P (for_break l body s).
Proof.
  intros Hb. induction l as [| a l IH]; intros s Hs; [exact Hs |].
  cbn [for_break]. pose proof (Hb a s Hs) as H.
  destruct (body a s) as [s1 [|]]; [exact H | now apply IH].
Qed.

Lemma strip_clean s : clean (PyStr.strip s).
Proof. apply strip_idempotent. Qed.

Lemma scrape_page_clean u doc :
  exists t st a ty ph cs,
    title (SearchTool.scrape_page u doc) = VStr t /\ clean t
    /\ status (SearchTool.scrape_page u doc) = VStr st /\ clean st
    /\ abstract (SearchTool.scrape_page u doc) = VStr a /\ clean a
    /\ study_type (SearchTool.scrape_page u doc) = VStr ty /\ clean ty
    /\ phase (SearchTool.scrape_page u doc) = VStr ph /\ clean ph
    /\ conditions (SearchTool.scrape_page u doc) = VList (map VStr cs)
    /\ Forall clean cs.
Proof.
  unfold SearchTool.scrape_page. cbv zeta.
  cbn [title status abstract study_type phase conditions].
  do 6 eexists.
  split; [reflexivity |]. split.
  { apply for_break_keeps; [| reflexivity].
    intros sel s Hs. rewrite title_step_spec.
    destruct (Soup.select_one doc sel); [apply strip_clean | exact Hs]. }
  split; [reflexivity |]. split.
  { apply for_break_keeps; [| reflexivity].
    intros sel s Hs. rewrite status_step_spec.
    destruct (SearchTool.resolve doc "p" sel); [| exact Hs].
    cbn [fst]. unfold SearchTool.status_of_text.
    destruct (PyStr.contains "Status:" _); apply strip_clean. }
  split; [reflexivity |]. split.
  { apply for_break_keeps; [| reflexivity].
    intros sel s Hs. unfold SearchTool.summary_step.
    destruct (Soup.select_one doc sel); [apply strip_clean | exact Hs]. }
  split; [reflexivity |]. split.
  { apply for_break_keeps; [| reflexivity].
    intros sel s Hs. rewrite labelled_step_spec.
    destruct (labelled_value doc sel); [apply strip_clean | exact Hs]. }
  split; [reflexivity |]. split.
  { apply for_break_keeps; [| reflexivity].
    intros sel s Hs. rewrite labelled_step_spec.
    destruct (labelled_value doc sel); [apply strip_clean | exact Hs]. }
  split; [reflexivity |].
  apply for_break_keeps; [| constructor].
  intros sel s Hs. rewrite conditions_step_spec.
  destruct (SearchTool.resolve doc "section" sel) as [section |]; [| exact Hs].
  cbn [fst]. unfold SearchTool.conditions_of_section.
  destruct (el_select section "li") as [| item items].
  - apply Forall_forall. intros c Hc. apply in_map_iff in Hc.
    destruct Hc as [x [<- _]]. apply strip_clean.
  - apply Forall_forall. intros c Hc. apply in_map_iff in Hc.
    destruct Hc as [x [<- _]]. apply strip_clean.
Qed.

(** X12.  In every record of the scrape the title, the status, the
    abstract, the study type, the phase and each condition are texts
    without white space at either end: what is read off the page is
    stripped, and the defaults are clean. *)
Theorem scrape_texts_clean
        (w : World) (query : string) (n : Z) (h : trace) :
  exists l,
    fst (SearchTool.clinicaltrials_search_scrape w query n h) = Ok l
    /\ Forall (fun r =>
                 exists t st a ty ph cs,
                   title r = VStr t /\ clean t
                   /\ status r = VStr st /\ clean st
                   /\ abstract r = VStr a /\ clean a
                   /\ study_type r = VStr ty /\ clean ty
                   /\ phase r = VStr ph /\ clean ph
                   /\ conditions r = VList (map VStr cs)
                   /\ Forall clean cs) l.
Proof.
  destruct (scrape_returns w query n h) as [l Hl]. exists l. split; [exact Hl |].
  pose proof (scrape_records_scraped w query n h l Hl) as Hs.
  eapply Forall_impl; [| exact Hs]. clear.
  intros r [href [id [doc [_ ->]]]]. apply scrape_page_clean.
Qed.

(* ===================================================================== *)
(** ** The context blocks of the orchestrator *)

Section ContextLoop.

Variable f : SearchResult -> outcome string.

Let step (result : SearchResult) (context : string) : M string :=
  block <- lift (f result) ;; ret (context ++ block).

Lemma block_step_run result context h :
  step result context h =
  match f result with
  | Ok block => (Ok (context ++ block), [])
  | Raise e => (Raise e, [])
  end.
Proof.
  unfold step. destruct (f result) as [block | e].
  - now rewrite bind_lift_ok.
  - reflexivity.
Qed.

(** The loop over the records writes nothing to the outside; it ends well
    when every block can be written, and raises when one cannot. *)
Lemma block_loop_run (l : list SearchResult) :
  forall context h,
    snd (for_each l step context h) = []
    /\ (Forall (fun r => exists b, f r = Ok b) l ->
        exists context', fst (for_each l step context h) = Ok context')
    /\ ((exists r, In r l /\ exists e, f r = Raise e) ->
        exists e, fst (for_each l step context h) = Raise e).
Proof.
  induction l as [| r l IH]; intros context h.
  - split; [reflexivity |]. split; [intros _; now exists context |].
    intros [r [[] _]].
  - cbn [for_each]. rewrite bind_run, block_step_run.
    destruct (f r) as [b | e] eqn:E; cbn [fst snd].
    + destruct (IH (context ++ b) ([] ++ h)%list) as [H1 [H2 H3]].
      rewrite H1. split; [reflexivity |]. split.
      * intros Hall. apply H2. now inversion Hall.
      * intros [r' [[<- | Hin] [e He]]]; [congruence |].
        apply H3. exists r'. split; [exact Hin | now exists e].
    + split; [reflexivity |]. split.
      * intros Hall. inversion Hall as [| ? ? [b Hb] _]. congruence.
      * intros _. now exists e.
Qed.

End ContextLoop.

Lemma Forall2_right (A B : Type) (R : A -> B -> Prop) (l : list A) (l' : list B) :
  Forall2 R l l' -> forall y, In y l' -> exists x, In x l /\ R x y.
Proof.
  induction 1 as [| x y l l' Hxy _ IH]; intros z Hz; [destruct Hz |].
  destruct Hz as [<- | Hz].
  - exists x. split; [now left | exact Hxy].
  - destruct (IH z Hz) as [x' [Hin Hx']]. exists x'. split; [now right | exact Hx'].
Qed.

Lemma strings_of_texts (l : list string) : Py.strings (map VStr l) = Ok l.
Proof. induction l as [| s l IH]; [reflexivity |]. simpl. now rewrite IH. Qed.

Lemma google_block_of_text w r b :
  body r = VStr b -> exists block, MultiAgentSystem.google_block w r = Ok block.
Proof.
  intros H. unfold MultiAgentSystem.google_block. rewrite H. simpl. eauto.
Qed.

Lemma arxiv_block_of_paper w p r :
  record_of_paper p r -> exists block, MultiAgentSystem.arxiv_block w r = Ok block.
Proof.
  intros [_ [Ha _]]. unfold MultiAgentSystem.arxiv_block. rewrite Ha.
  destruct (Py.truthy _).
  - unfold Py.join. cbn [Py.iter]. rewrite strings_of_texts. eauto.
  - simpl. eauto.
Qed.

Lemma google_stage_returns w self topic :
  returns (MultiAgentSystem.google_stage w self topic).
Proof.
  intros h. unfold MultiAgentSystem.google_stage.
  rewrite fst_bind, print_run. cbn [fst snd]. rewrite fst_bind.
  destruct (google_search_hits w (MultiAgentSystem.search_tool self) topic 2 500
              ([EvPrint ("Performing Google search for '" ++ topic ++ "'...")] ++ h)%list)
    as [l [Hl Hr]].
  rewrite Hl. destruct l as [| r l]; [eexists; reflexivity |].
  destruct Hr as [Hr | Hr]; [discriminate Hr |].
  apply (block_loop_run (MultiAgentSystem.google_block w) (r :: l)).
  apply Forall_forall. intros x Hx.
  destruct (Forall2_right _ _ _ _ _ Hr x Hx) as [item [_ Hrec]].
  destruct Hrec as [_ [_ [_ [b [Hb _]]]]].
  now apply google_block_of_text with (b := b).
Qed.

Lemma arxiv_search_records w query max_results h l :
  fst (SearchTool.arxiv_search w query max_results h) = Ok l ->
  Forall (fun r => exists p, record_of_paper p r) l.
Proof.
  rewrite arxiv_search_run. cbv zeta.
  set (papers := fst (arxiv_feed w h query max_results)).
  set (h' := EvArxiv query max_results :: h).
  destruct (fst (for_each papers SearchTool.arxiv_entry [] h')) as [rs | e] eqn:E.
  - apply for_each_forall2 with (R := record_of_paper) in E.
    + destruct E as [rs' [-> Hrs]]. simpl in Hrs.
      destruct (snd (arxiv_feed w h query max_results)); cbn [fst];
        intros H; apply Ok_inj in H; subst l; [constructor |].
      apply Forall_forall. intros r Hr.
      destruct (Forall2_right _ _ _ _ _ Hrs r Hr) as [p [_ Hp]]. now exists p.
    + intros a s h0 s' Hs. destruct (arxiv_entry_run a s h0) as [r [Er Hr]].
      rewrite Er in Hs. simpl in Hs. apply Ok_inj in Hs. subst s'. now exists r.
  - cbn [fst]. intros H. apply Ok_inj in H. subst l. constructor.
Qed.

Lemma arxiv_stage_returns w self topic :
  returns (MultiAgentSystem.arxiv_stage w self topic).
Proof.
  intros h. unfold MultiAgentSystem.arxiv_stage.
  rewrite fst_bind, print_run. cbn [fst snd]. rewrite fst_bind.
  set (h' := ([EvPrint ("Performing Arxiv search for '" ++ topic ++ "'...")] ++ h)%list).
  destruct (arxiv_search_returns w topic 2 h') as [l Hl].
  rewrite Hl. destruct l as [| r l]; [eexists; reflexivity |].
  apply (block_loop_run (MultiAgentSystem.arxiv_block w) (r :: l)).
  eapply Forall_impl; [| exact (arxiv_search_records w topic 2 h' (r :: l) Hl)].
  intros x [p Hp]. now apply arxiv_block_of_paper with (p := p).
Qed.

(** The records of the web search, as the orchestrator asks for them, have
    a body that its slice leaves whole. *)
Lemma google_body_whole w self query h l :
  fst (SearchTool.google_search w self query 2 500 h) = Ok l ->
  Forall (fun r => Py.slice_to 500 (body r) = Ok (body r)) l.
Proof.
  intros Hl. destruct (google_search_hits w self query 2 500 h) as [l' [Hl' Hr]].
  rewrite Hl in Hl'. apply Ok_inj in Hl'. subst l'.
  destruct Hr as [-> | Hr]; [constructor |].
  apply Forall_forall. intros r Hin.
  destruct (Forall2_right _ _ _ _ _ Hr r Hin) as [item [_ [_ [_ [_ [b [Hb Hlen]]]]]]].
  rewrite Hb. cbn [Py.slice_to]. rewrite take_all; [reflexivity |].
  assert (H0 : (0 <= 500)%Z) by lia. apply Hlen in H0.
  change (Z.to_nat 500) with 500 in H0. exact H0.
Qed.

(** X13.  The first two stages of the review never raise, whatever the
    services answer: every record of the web search has a text as its
    body, which the slice to 500 characters leaves whole since the search
    has cut it already, and every record of the arXiv search has a list of
    texts as its authors. *)
Theorem search_stages_return
        (w : World) (self : MultiAgentSystem.t) (topic : string) (h : trace) :
  (exists google_context,
      fst (MultiAgentSystem.google_stage w self topic h) = Ok google_context)
  /\ (exists arxiv_context,
         fst (MultiAgentSystem.arxiv_stage w self topic h) = Ok arxiv_context)
  /\ (forall l,
         fst (SearchTool.google_search w (MultiAgentSystem.search_tool self) topic 2 500 h)
         = Ok l ->
         Forall (fun r => Py.slice_to 500 (body r) = Ok (body r)) l)
  /\ (forall l,
         fst (SearchTool.arxiv_search w topic 2 h) = Ok l ->
         Forall (fun r => exists names, authors r = VList (map VStr names)) l).
Proof.
  split; [apply google_stage_returns |].
  split; [apply arxiv_stage_returns |].
  split; [intros l; apply google_body_whole |].
  intros l Hl. eapply Forall_impl; [| exact (arxiv_search_records w topic 2 h l Hl)].
  intros r [p [_ [Ha _]]]. now exists (paper_authors p).
Qed.

(* ===================================================================== *)
(** ** The registry block of the review *)

Lemma trial_block_renders w r :
  (exists block, MultiAgentSystem.trial_block w r = Ok block) <-> renders r.
Proof.
  unfold MultiAgentSystem.trial_block, MultiAgentSystem.conditions_line,
    MultiAgentSystem.summary_line, renders.
  destruct (Py.truthy (conditions r)) eqn:Ht.
  - rewrite Ht. destruct (Py.join ", " (conditions r)) as [joined | e].
    + destruct (Py.slice_to 300 (abstract r)) as [head | e].
      * split; [intros _ | intros _; eauto]. split; eauto.
      * split; [intros [b Hb]; discriminate Hb | intros [[head Hh] _]; discriminate Hh].
    + split; [intros [b Hb]; discriminate Hb |].
      intros [_ Hj]. destruct (Hj eq_refl) as [joined Hjoined]. discriminate Hjoined.
  - change (Py.truthy (VList [])) with false. cbv iota.
    destruct (Py.slice_to 300 (abstract r)) as [head | e].
    + split; [intros _ | intros _; eauto]. split; [eauto | discriminate].
    + split; [intros [b Hb]; discriminate Hb | intros [[head Hh] _]; discriminate Hh].
Qed.

Lemma blocks_cases (f : SearchResult -> outcome string) (l : list SearchResult) :
  Forall (fun r => exists b, f r = Ok b) l
  \/ exists r, In r l /\ exists e, f r = Raise e.
Proof.
  induction l as [| r l [IH | [r' [Hin He]]]].
  - left. constructor.
  - destruct (f r) as [b | e] eqn:E.
    + left. constructor; [now exists b | exact IH].
    + right. exists r. split; [now left | now exists e].
  - right. exists r'. split; [now right | exact He].
Qed.

Lemma scraped_renders r : scraped r -> renders r.
Proof.
  intros [href [id [doc [_ ->]]]].
  destruct (scrape_page_clean (show_url id) doc)
    as (t & st & a & ty & ph & cs & _ & _ & _ & _ & Ha & _ & _ & _ & _ & _ & Hc & _).
  unfold renders. rewrite Ha, Hc. split.
  - eexists. reflexivity.
  - intros _. unfold Py.join. cbn [Py.iter]. rewrite strings_of_texts. eauto.
Qed.

Lemma registry_context_run w topic results h :
  snd (MultiAgentSystem.registry_context w topic results h) = []
  /\ ((exists context, fst (MultiAgentSystem.registry_context w topic results h)
                       = Ok context)
      <-> Forall renders results).
Proof.
  unfold MultiAgentSystem.registry_context. cbv zeta.
  destruct results as [| r l].
  - split; [reflexivity |]. split; [constructor | intros _; eexists; reflexivity].
  - set (c0 := PyStr.nl ++ "Based on ClinicalTrials.gov search for '" ++ topic
                 ++ "', here are the clinical trials:" ++ PyStr.nl).
    destruct (block_loop_run (MultiAgentSystem.trial_block w) (r :: l) c0 h)
      as [H1 [H2 H3]].
    split; [exact H1 |]. split.
    + intros [context Hc].
      destruct (blocks_cases (MultiAgentSystem.trial_block w) (r :: l)) as [Hall | Hex].
      * eapply Forall_impl; [| exact Hall]. intros x. apply trial_block_renders.
      * destruct (H3 Hex) as [e He]. rewrite He in Hc. discriminate Hc.
    + intros Hall. apply H2. eapply Forall_impl; [| exact Hall].
      intros x. apply trial_block_renders.
Qed.

(** X14.  The registry block of the review writes nothing to the outside,
    and it is written to the end exactly when every record renders: its
    abstract can be sliced, and its conditions are falsy or can be joined.
    A record whose abstract is [None] makes it raise; the records of the
    scrape always render. *)
Theorem registry_block_outcome
        (w : World) (topic : string) (results : list SearchResult) (h : trace) :
  snd (MultiAgentSystem.registry_context w topic results h) = []
  /\ ((exists context, fst (MultiAgentSystem.registry_context w topic results h)
                       = Ok context)
      <-> Forall renders results)
  /\ (forall r, In r results -> abstract r = VNone ->
                exists e, fst (MultiAgentSystem.registry_context w topic results h)
                          = Raise e)
  /\ (forall r, scraped r -> renders r).
Proof.
  destruct (registry_context_run w topic results h) as [H1 H2].
  split; [exact H1 |]. split; [exact H2 |]. split; [| exact scraped_renders].
  intros r Hin Ha.
  destruct (fst (MultiAgentSystem.registry_context w topic results h)) as [c | e] eqn:E;
    [| now exists e].
  assert (Hall : Forall renders results) by (apply H2; now exists c).
  rewrite Forall_forall in Hall. destruct (Hall r Hin) as [[head Hh] _].
  rewrite Ha in Hh. discriminate Hh.
Qed.

Lemma registry_fetch_renders w self topic :
  (forall h' l, fst (SearchTool.clinicaltrials_search_beta_api w topic 2 h') = Ok l ->
                Forall renders l) ->
  forall h, exists l, fst (MultiAgentSystem.registry_fetch w self topic h) = Ok l
                      /\ Forall renders l.
Proof.
  intros Htier h. unfold MultiAgentSystem.registry_fetch.
  rewrite fst_bind, print_run. cbn [fst snd]. rewrite fst_bind.
  set (h1 := ([EvPrint ("Performing ClinicalTrials.gov search for '" ++ topic ++ "'...")]
                ++ h)%list).
  destruct (beta_api_returns w topic 2 h1) as [l Hl]. rewrite Hl.
  destruct l as [| r l].
  - rewrite fst_bind, print_run. cbn [fst snd].
    set (h2 := ([EvPrint "API search failed, falling back to scrape method..."]
                  ++ snd (SearchTool.clinicaltrials_search_beta_api w topic 2 h1) ++ h1)%list).
    destruct (scrape_returns w topic 2 h2) as [l2 Hl2]. exists l2.
    split; [exact Hl2 |].
    eapply Forall_impl; [| exact (scrape_records_scraped w topic 2 h2 l2 Hl2)].
    exact scraped_renders.
  - exists (r :: l). split; [reflexivity |]. exact (Htier h1 (r :: l) Hl).
Qed.

(** X15.  The review returns a report whenever the records of the
    structured API render, at whatever point it is queried: nothing else
    in the review lets an exception out, the records of the scrape always
    rendering. *)
Theorem review_completes
        (w : World) (self : MultiAgentSystem.t) (topic : string) (h : trace) :
  (forall h' l, fst (SearchTool.clinicaltrials_search_beta_api w topic 2 h') = Ok l ->
                Forall renders l) ->
  exists report, fst (MultiAgentSystem.run_literature_review w self topic h) = Ok report.
Proof.
  intros Htier. unfold MultiAgentSystem.run_literature_review.
  rewrite fst_bind.
  destruct (google_stage_returns w self topic h) as [g ->].
  rewrite fst_bind.
  set (h1 := (snd (MultiAgentSystem.google_stage w self topic h) ++ h)%list).
  destruct (arxiv_stage_returns w self topic h1) as [a ->].
  rewrite fst_bind.
  set (h2 := (snd (MultiAgentSystem.arxiv_stage w self topic h1) ++ h1)%list).
  destruct (registry_fetch_renders w self topic Htier h2) as [l [-> Hl]].
  rewrite fst_bind.
  set (h3 := (snd (MultiAgentSystem.registry_fetch w self topic h2) ++ h2)%list).
  destruct (registry_context_run w topic l h3) as [_ Hc].
  destruct (proj2 Hc Hl) as [c ->].
  rewrite fst_bind, print_run. cbn [fst snd].
  apply process_returns.
Qed.

Lemma review_completes_witness :
  exists report,
    fst (MultiAgentSystem.run_literature_review generous system "diabetes" []) = Ok report.
Proof.
  apply (review_completes generous system "diabetes" []).
  intros h' l H. vm_compute in H. apply Ok_inj in H. subst l.
  repeat constructor; try discriminate; eexists; reflexivity.
Defined.

(* ===================================================================== *)
(** ** The contacts with the generative service *)

Lemma google_search_no_model_call w self query num_results max_chars :
  silent is_model_call (SearchTool.google_search w self query num_results max_chars).
Proof.
  unfold SearchTool.google_search, SearchTool.google_item, SearchTool._get_page_content.
  silence.
Qed.

Lemma arxiv_search_no_model_call w query max_results :
  silent is_model_call (SearchTool.arxiv_search w query max_results).
Proof.
  unfold SearchTool.arxiv_search, SearchTool.arxiv_entry.
  silence.
Qed.

Lemma beta_api_no_model_call w query max_results :
  silent is_model_call (SearchTool.clinicaltrials_search_beta_api w query max_results).
Proof.
  unfold SearchTool.clinicaltrials_search_beta_api, SearchTool.api_study,
    SearchTool._get_clinical_trial_details_api.
  silence.
Qed.

Lemma scrape_no_model_call w query max_results :
  silent is_model_call (SearchTool.clinicaltrials_search_scrape w query max_results).
Proof.
  unfold SearchTool.clinicaltrials_search_scrape, SearchTool.scrape_link,
    SearchTool._get_clinical_trial_details_scrape.
  silence.
Qed.

Lemma google_stage_no_model_call w self topic :
  silent is_model_call (MultiAgentSystem.google_stage w self topic).
Proof.
  unfold MultiAgentSystem.google_stage.
  apply silent_bind; [apply silent_emit; reflexivity | intros _].
  apply silent_bind; [apply google_search_no_model_call | intros l].
  destruct l; silence.
Qed.

Lemma arxiv_stage_no_model_call w self topic :
  silent is_model_call (MultiAgentSystem.arxiv_stage w self topic).
Proof.
  unfold MultiAgentSystem.arxiv_stage.
  apply silent_bind; [apply silent_emit; reflexivity | intros _].
  apply silent_bind; [apply arxiv_search_no_model_call | intros l].
  destruct l; silence.
Qed.

Lemma registry_fetch_no_model_call w self topic :
  silent is_model_call (MultiAgentSystem.registry_fetch w self topic).
Proof.
  unfold MultiAgentSystem.registry_fetch.
  apply silent_bind; [apply silent_emit; reflexivity | intros _].
  apply silent_bind; [apply beta_api_no_model_call | intros l].
  destruct l; [| apply silent_ret].
  apply silent_bind; [apply silent_emit; reflexivity | intros _].
  apply scrape_no_model_call.
Qed.

Lemma registry_context_no_model_call w topic results :
  silent is_model_call (MultiAgentSystem.registry_context w topic results).
Proof.
  intros h. destruct (registry_context_run w topic results h) as [-> _]. reflexivity.
Qed.

(** The effects of a computation that follows a silent one are counted in
    what follows. *)
Lemma count_after_silent {A B} p (m : M A) (k : A -> M B) h :
  silent p m ->
  count p (snd (bind m k h))
  = match fst (m h) with
    | Ok a => count p (snd (k a (snd (m h) ++ h)%list))
    | Raise _ => 0
    end.
Proof. intros Hm. rewrite count_bind, (Hm h). reflexivity. Qed.

Lemma count_le (p q : event -> bool) (ev : trace) :
  (forall e, p e = true -> q e = true) -> count p ev <= count q ev.
Proof.
  intros H. unfold count. induction ev as [| e ev IH]; simpl; [lia |].
  destruct (p e) eqn:E.
  - rewrite (H e E). simpl. lia.
  - destruct (q e); simpl; lia.
Qed.

Lemma silent_weaken {A} (p q : event -> bool) (m : M A) :
  (forall e, p e = true -> q e = true) -> silent q m -> silent p m.
Proof.
  intros H Hq h. pose proof (count_le p q (snd (m h)) H) as Hle.
  rewrite (Hq h) in Hle. lia.
Qed.

Lemma process_counts p w self message h :
  (forall m, p (EvPrint m) = false) ->
  count p (snd (Agent.process w self message h))
  = match Agent.chat self with
    | Some _ => count p [EvSend message]
    | None => 0
    end.
Proof.
  intros Hp. unfold Agent.process.
  destruct (Agent.chat self) as [session |]; [| reflexivity].
  rewrite try_except_run, bind_run. unfold send_message. cbn [fst snd].
  destruct (genai_send w h session message) as [reply | e]; cbn [fst snd].
  - destruct (response_text reply); cbn [fst snd lift].
    + reflexivity.
    + unfold count. simpl. rewrite Hp. reflexivity.
  - unfold count. simpl. rewrite Hp. reflexivity.
Qed.

(** The effects of a kind that the stages before the report do not
    perform: the review performs those of the report agent, or none when a
    stage raises. *)
Lemma review_counts p w self topic h :
  (forall m, p (EvPrint m) = false) ->
  silent p (MultiAgentSystem.google_stage w self topic) ->
  silent p (MultiAgentSystem.arxiv_stage w self topic) ->
  silent p (MultiAgentSystem.registry_fetch w self topic) ->
  (forall results, silent p (MultiAgentSystem.registry_context w topic results)) ->
  (count p (snd (MultiAgentSystem.run_literature_review w self topic h)) = 0
   /\ exists e, fst (MultiAgentSystem.run_literature_review w self topic h) = Raise e)
  \/ exists message h',
       count p (snd (MultiAgentSystem.run_literature_review w self topic h))
       = count p (snd (Agent.process w (MultiAgentSystem.report_agent self) message h'))
       /\ fst (MultiAgentSystem.run_literature_review w self topic h)
          = fst (Agent.process w (MultiAgentSystem.report_agent self) message h').
Proof.
  intros Hp H1 H2 H3 H4. unfold MultiAgentSystem.run_literature_review.
  rewrite (count_after_silent p _ _ h H1), fst_bind.
  destruct (fst (MultiAgentSystem.google_stage w self topic h)) as [g | e];
    [| left; split; [reflexivity | now exists e]].
  set (h1 := (snd (MultiAgentSystem.google_stage w self topic h) ++ h)%list).
  rewrite (count_after_silent p _ _ h1 H2), fst_bind.
  destruct (fst (MultiAgentSystem.arxiv_stage w self topic h1)) as [a | e];
    [| left; split; [reflexivity | now exists e]].
  set (h2 := (snd (MultiAgentSystem.arxiv_stage w self topic h1) ++ h1)%list).
  rewrite (count_after_silent p _ _ h2 H3), fst_bind.
  destruct (fst (MultiAgentSystem.registry_fetch w self topic h2)) as [l | e];
    [| left; split; [reflexivity | now exists e]].
  set (h3 := (snd (MultiAgentSystem.registry_fetch w self topic h2) ++ h2)%list).
  rewrite (count_after_silent p _ _ h3 (H4 l)), fst_bind.
  destruct (fst (MultiAgentSystem.registry_context w topic l h3)) as [c | e];
    [| left; split; [reflexivity | now exists e]].
  set (h4 := (snd (MultiAgentSystem.registry_context w topic l h3) ++ h3)%list).
  rewrite count_after_silent, fst_bind by (apply silent_emit; apply Hp).
  rewrite print_run. cbn [fst snd].
  right. eexists. eexists. split; reflexivity.
Qed.

(** X16.  Of all the review does, only the report agent contacts the
    generative service: the three search stages and the registry block
    never do.  The review contacts it at most once; not at all when the
    report agent has no session; and when the agent has a session and the
    review returns, it has sent exactly one message and started no
    session. *)
Theorem review_model_calls
        (w : World) (self : MultiAgentSystem.t) (topic : string) (h : trace) :
  let ev := snd (MultiAgentSystem.run_literature_review w self topic h) in
  count is_model_call ev <= 1
  /\ (Agent.chat (MultiAgentSystem.report_agent self) = None ->
      count is_model_call ev = 0)
  /\ (forall session report,
         Agent.chat (MultiAgentSystem.report_agent self) = Some session ->
         fst (MultiAgentSystem.run_literature_review w self topic h) = Ok report ->
         count is_send ev = 1 /\ count is_start ev = 0)
  /\ silent is_model_call (MultiAgentSystem.google_stage w self topic)
  /\ silent is_model_call (MultiAgentSystem.arxiv_stage w self topic)
  /\ silent is_model_call (MultiAgentSystem.registry_fetch w self topic)
  /\ (forall results,
         silent is_model_call (MultiAgentSystem.registry_context w topic results)).
Proof.
  cbv zeta.
  pose proof (google_stage_no_model_call w self topic) as H1.
  pose proof (arxiv_stage_no_model_call w self topic) as H2.
  pose proof (registry_fetch_no_model_call w self topic) as H3.
  pose proof (registry_context_no_model_call w topic) as H4.
  assert (Hsend : forall e, is_send e = true -> is_model_call e = true)
    by (intros []; simpl; congruence).
  assert (Hstart : forall e, is_start e = true -> is_model_call e = true)
    by (intros []; simpl; congruence).
  split; [| split; [| split; [| split; [exact H1 | split; [exact H2 | split;
    [exact H3 | exact H4]]]]]].
  - destruct (review_counts is_model_call w self topic h (fun _ => eq_refl) H1 H2 H3 H4)
      as [[-> _] | [message [h' [-> _]]]]; [lia |].
    rewrite process_counts by reflexivity.
    destruct (Agent.chat _); unfold count; simpl; lia.
  - intros Hnone.
    destruct (review_counts is_model_call w self topic h (fun _ => eq_refl) H1 H2 H3 H4)
      as [[-> _] | [message [h' [-> _]]]]; [reflexivity |].
    rewrite process_counts by reflexivity. now rewrite Hnone.
  - intros session report Hsome Hok. split.
    + destruct (review_counts is_send w self topic h (fun _ => eq_refl)
                  (silent_weaken _ _ _ Hsend H1) (silent_weaken _ _ _ Hsend H2)
                  (silent_weaken _ _ _ Hsend H3)
                  (fun results => silent_weaken _ _ _ Hsend (H4 results)))
        as [[_ [e He]] | [message [h' [-> _]]]].
      * rewrite He in Hok. discriminate Hok.
      * rewrite process_counts by reflexivity. now rewrite Hsome.
    + destruct (review_counts is_start w self topic h (fun _ => eq_refl)
                  (silent_weaken _ _ _ Hstart H1) (silent_weaken _ _ _ Hstart H2)
                  (silent_weaken _ _ _ Hstart H3)
                  (fun results => silent_weaken _ _ _ Hstart (H4 results)))
        as [[-> _] | [message [h' [-> _]]]].
      * reflexivity.
      * rewrite process_counts by reflexivity. now rewrite Hsome.
Qed.

(* ===================================================================== *)
(** ** The construction of the system *)

Lemma agent_init_built w env name model key h :
  env "GOOGLE_API_KEY" = Some key ->
  PyStr.is_empty key = false ->
  exists self,
    fst (Agent.__init__ w env name model h) = Ok self
    /\ Agent.name self = name
    /\ Agent.api_key self = key
    /\ count is_start (snd (Agent.__init__ w env name model h)) = 1
    /\ count is_send (snd (Agent.__init__ w env name model h)) = 0.
Proof.
  intros Hk Hne. unfold Agent.__init__. rewrite Hk, Hne.
  rewrite try_except_run, bind_run. unfold start_chat. cbn [fst snd].
  destruct (genai_start w h key model) as [session | e]; cbn [fst snd].
  - eexists. repeat split.
  - eexists. repeat split.
Qed.

(** X17.  [MultiAgentSystem()] raises [ValueError] before any contact with
    the generative service when the credential is missing or empty.
    Otherwise it never raises, whatever the service answers: it attempts
    exactly four session starts and sends no message, the four agents carry
    their names and the credential, and the search tool holds the two
    credentials as the environment has them. *)
Theorem system_construction (w : World) (env : environ) (h : trace) :
  (env_missing (env "GOOGLE_API_KEY") = true ->
   MultiAgentSystem.__init__ w env h
   = (Raise (ValueError "GOOGLE_API_KEY environment variable not set"), []))
  /\ (env_missing (env "GOOGLE_API_KEY") = false ->
      exists self key,
        env "GOOGLE_API_KEY" = Some key
        /\ fst (MultiAgentSystem.__init__ w env h) = Ok self
        /\ count is_start (snd (MultiAgentSystem.__init__ w env h)) = 4
        /\ count is_send (snd (MultiAgentSystem.__init__ w env h)) = 0
        /\ map Agent.name
               [MultiAgentSystem.google_agent self; MultiAgentSystem.arxiv_agent self;
                MultiAgentSystem.clinical_trials_agent self;
                MultiAgentSystem.report_agent self]
           = ["Google_Search_Agent"; "Arxiv_Search_Agent";
              "ClinicalTrials_Search_Agent"; "Report_Agent"]
        /\ map Agent.api_key
               [MultiAgentSystem.google_agent self; MultiAgentSystem.arxiv_agent self;
                MultiAgentSystem.clinical_trials_agent self;
                MultiAgentSystem.report_agent self]
           = [key; key; key; key]
        /\ MultiAgentSystem.search_tool self
           = {| SearchTool.api_key := Some key;
                SearchTool.search_engine_id := env "GOOGLE_SEARCH_ENGINE_ID" |}).
Proof.
  split.
  - intros Hmiss. unfold MultiAgentSystem.__init__. rewrite bind_run.
    rewrite (init_missing_credential w env "Google_Search_Agent" "gemini-pro" h Hmiss).
    reflexivity.
  - intros Hpresent. unfold env_missing in Hpresent.
    destruct (env "GOOGLE_API_KEY") as [key |] eqn:Hk; [| discriminate Hpresent].
    unfold MultiAgentSystem.__init__.
    rewrite !count_bind, !fst_bind.
    destruct (agent_init_built w env "Google_Search_Agent" "gemini-pro" key h Hk Hpresent)
      as (a1 & -> & N1 & K1 & -> & ->).
    set (h1 := (snd (Agent.__init__ w env "Google_Search_Agent" "gemini-pro" h) ++ h)%list).
    rewrite !count_bind, !fst_bind.
    destruct (agent_init_built w env "Arxiv_Search_Agent" "gemini-pro" key h1 Hk Hpresent)
      as (a2 & -> & N2 & K2 & -> & ->).
    set (h2 := (snd (Agent.__init__ w env "Arxiv_Search_Agent" "gemini-pro" h1) ++ h1)%list).
    rewrite !count_bind, !fst_bind.
    destruct (agent_init_built w env "ClinicalTrials_Search_Agent" "gemini-pro" key h2
                               Hk Hpresent)
      as (a3 & -> & N3 & K3 & -> & ->).
    set (h3 := (snd (Agent.__init__ w env "ClinicalTrials_Search_Agent" "gemini-pro" h2)
                  ++ h2)%list).
    rewrite !count_bind, !fst_bind.
    destruct (agent_init_built w env "Report_Agent" "gemini-pro" key h3 Hk Hpresent)
      as (a4 & -> & N4 & K4 & -> & ->).
    eexists. exists key. split; [reflexivity |].
    split; [reflexivity |]. split; [reflexivity |]. split; [reflexivity |].
    cbn [map MultiAgentSystem.google_agent MultiAgentSystem.arxiv_agent
         MultiAgentSystem.clinical_trials_agent MultiAgentSystem.report_agent
         MultiAgentSystem.search_tool].
    rewrite N1, N2, N3, N4, K1, K2, K3, K4.
    split; [reflexivity |]. split; [reflexivity |].
    unfold SearchTool__init__. now rewrite Hk.
Qed.

(* ===================================================================== *)
(** ** The two operations of the application *)

Lemma arxiv_search_no_request w query max_results :
  silent is_get (SearchTool.arxiv_search w query max_results).
Proof. unfold SearchTool.arxiv_search, SearchTool.arxiv_entry. silence. Qed.

Lemma arxiv_search_one_query w query max_results h :
  count is_arxiv (snd (SearchTool.arxiv_search w query max_results h)) = 1.
Proof.
  rewrite arxiv_search_run. cbv zeta.
  set (papers := fst (arxiv_feed w h query max_results)).
  set (h' := EvArxiv query max_results :: h).
  assert (Hloop : count is_arxiv (snd (for_each papers SearchTool.arxiv_entry [] h')) = 0).
  { apply silent_for_each. intros a s h0.
    destruct (arxiv_entry_run a s h0) as [r [-> _]]. reflexivity. }
  destruct (fst (for_each papers SearchTool.arxiv_entry [] h')) as [rs | e];
    [destruct (snd (arxiv_feed w h query max_results)) |]; cbn [fst snd];
    try change (EvPrint ?m :: ?t) with ([EvPrint m] ++ t)%list;
    rewrite !count_app, Hloop; reflexivity.
Qed.

(** X18.  [run_async_operations] runs the review only when the session
    holds exactly the text "Literature Review", and then lets through
    whatever the review returns or raises.  With anything else, nothing
    included, it runs the quick search, which never raises: it returns the
    records of the arXiv search for the query, after one query to the
    arXiv client, no HTTP request and no contact with the generative
    service. *)
Theorem operations_dispatch
        (w : World) (search_type : value) (system : MultiAgentSystem.t)
        (search_query : string) (max_results : Z) (h : trace) :
  let run := App.run_async_operations w search_type system search_query max_results h in
  (search_type = VStr "Literature Review" ->
   snd run = snd (MultiAgentSystem.run_literature_review w system search_query h)
   /\ fst run
      = match fst (MultiAgentSystem.run_literature_review w system search_query h) with
        | Ok review => Ok (App.Review review)
        | Raise e => Raise e
        end)
  /\ (search_type <> VStr "Literature Review" ->
      exists results,
        fst run = Ok (App.Search results)
        /\ fst (SearchTool.arxiv_search w search_query max_results h) = Ok results
        /\ count is_arxiv (snd run) = 1
        /\ count is_get (snd run) = 0
        /\ count is_model_call (snd run) = 0).
Proof.
  cbv zeta. unfold App.run_async_operations. split.
  - intros ->. change (App.is_literature_review (VStr "Literature Review")) with true.
    cbv iota. rewrite bind_run.
    destruct (fst (MultiAgentSystem.run_literature_review w system search_query h));
      cbn [fst snd ret]; [rewrite app_nil_l |]; split; reflexivity.
  - intros Hne.
    assert (Hq : App.is_literature_review search_type = false).
    { destruct search_type as [| | | | s | |]; try reflexivity.
      apply String.eqb_neq. congruence. }
    rewrite Hq. rewrite !count_bind, fst_bind.
    destruct (arxiv_search_returns w search_query max_results h) as [results Hr].
    rewrite Hr. exists results. cbn [fst snd ret].
    rewrite arxiv_search_one_query.
    rewrite (arxiv_search_no_request w search_query max_results h).
    rewrite (arxiv_search_no_model_call w search_query max_results h).
    repeat split.
Qed.

(* ===================================================================== *)
(** ** The page of one study *)

Lemma page_nct_id_cases u doc :
  (PyStr.contains "/ct2/show/" u = true ->
   SearchTool.page_nct_id u doc = PyStr.last (PyStr.split "/" u))
  /\ (PyStr.contains "/ct2/show/" u = false ->
      SearchTool.page_nct_id u doc = "Unknown"
      \/ (PyStr.nct_here (SearchTool.page_nct_id u doc) = true
          /\ String.length (SearchTool.page_nct_id u doc) = 11)).
Proof.
  unfold SearchTool.page_nct_id. split; intros ->; [reflexivity |].
  destruct (PyStr.search_nct u) as [m |] eqn:E.
  - right. apply search_nct_sound in E. tauto.
  - destruct (doc_find_nct_string doc) as [nct_elem |]; [| now left].
    destruct (PyStr.search_nct nct_elem) as [m |] eqn:E'; [| now left].
    right. apply search_nct_sound in E'. tauto.
Qed.

(** X19.  [_get_clinical_trial_details_scrape] never raises and makes
    exactly one request, without pausing.  It returns [None] when the
    request fails or the page is not served with status 200.  Otherwise it
    returns a record whose link is the address asked for and whose
    identifier is the last path segment of an address holding
    "/ct2/show/", and for any other address either an identifier of the
    form NCT and eight digits or the text "Unknown". *)
Theorem details_scrape_outcome (w : World) (u : string) (h : trace) :
  let run := SearchTool._get_clinical_trial_details_scrape w u h in
  let answer := transport w h (page_request (VStr u)) in
  count is_get (snd run) = 1
  /\ count is_sleep (snd run) = 0
  /\ ((exists e, answer = Raise e)
      \/ (exists page, answer = Ok page /\ status_code page <> 200%Z) ->
      fst run = Ok None)
  /\ (forall page,
         answer = Ok page -> status_code page = 200%Z ->
         exists r id,
           fst run = Ok (Some r)
           /\ link r = VStr u
           /\ nct_id r = VStr id
           /\ (PyStr.contains "/ct2/show/" u = true ->
               id = PyStr.last (PyStr.split "/" u))
           /\ (PyStr.contains "/ct2/show/" u = false ->
               id = "Unknown"
               \/ (PyStr.nct_here id = true /\ String.length id = 11))).
Proof.
  cbv zeta. rewrite details_scrape_run.
  destruct (transport w h (page_request (VStr u))) as [page | e].
  - destruct (Z.eqb_spec (status_code page) 200) as [Heq | Hne]; cbn [negb fst snd].
    + split; [reflexivity |]. split; [reflexivity |]. split.
      * intros [[e He] | [page' [Hp Hs]]]; [discriminate He |].
        apply Ok_inj in Hp. subst page'. contradiction.
      * intros page' Hp _. apply Ok_inj in Hp. subst page'.
        exists (SearchTool.scrape_page u (soup page)),
               (SearchTool.page_nct_id u (soup page)).
        split; [reflexivity |]. split; [reflexivity |]. split; [reflexivity |].
        apply page_nct_id_cases.
    + split; [reflexivity |]. split; [reflexivity |]. split; [reflexivity |].
      intros page' Hp Hs. apply Ok_inj in Hp. subst page'. contradiction.
  - cbn [fst snd]. split; [reflexivity |]. split; [reflexivity |].
    split; [reflexivity |]. intros page Hp. discriminate Hp.
Qed.

(* ===================================================================== *)
(** ** Failures inside a fetch *)

Lemma for_each_all_return {A S} (l : list A) (body : A -> S -> M S) :
  (forall a, In a l -> forall s h, exists s', fst (body a s h) = Ok s') ->
  forall s h, exists s', fst (for_each l body s h) = Ok s'.
Proof.
  induction l as [| a l IH]; intros Hb s h; cbn [for_each].
  - now exists s.
  - rewrite fst_bind. destruct (Hb a (or_introl eq_refl) s h) as [s1 ->].
    apply IH. intros a' Hin. apply Hb. now right.
Qed.

Lemma for_each_appending {A T} (l : list A) (body : A -> list T -> M (list T)) :
  (forall a, In a l ->
             forall s h, exists r, fst (body a s h) = Ok (s ++ [r])%list) ->
  forall s h, exists rs,
    fst (for_each l body s h) = Ok (s ++ rs)%list
    /\ List.length rs = List.length l.
Proof.
  induction l as [| a l IH]; intros Hb s h; cbn [for_each].
  - exists []. now rewrite app_nil_r.
  - rewrite fst_bind. destruct (Hb a (or_introl eq_refl) s h) as [r ->].
    destruct (IH (fun a' Hin => Hb a' (or_intror Hin)) (s ++ [r])%list
                 (snd (body a s h) ++ h)%list) as [rs [-> Hlen]].
    exists (r :: rs). rewrite <- app_assoc. split; [reflexivity |].
    simpl. now rewrite Hlen.
Qed.

(** *** The page of a hit *)

Lemma google_item_complete w max_chars item :
  (forall key, In key ["link"; "title"; "snippet"] ->
               exists v, Py.getitem item key = Ok v) ->
  forall s h, exists s', fst (SearchTool.google_item w max_chars item s h) = Ok s'.
Proof.
  intros Hc s h. unfold SearchTool.google_item.
  destruct (Hc "link") as [item_link Hl]; [simpl; tauto |].
  destruct (Hc "title") as [item_title Ht]; [simpl; tauto |].
  destruct (Hc "snippet") as [item_snippet Hs]; [simpl; tauto |].
  rewrite Hl, Ht, Hs, bind_lift_ok, fst_bind.
  destruct (page_content_returns w item_link max_chars h) as [body ->].
  rewrite !bind_lift_ok.
  eexists. reflexivity.
Qed.

Lemma google_search_complete w self query num_results max_chars h :
  env_missing (SearchTool.api_key self) = false ->
  env_missing (SearchTool.search_engine_id self) = false ->
  failed true (transport w h (SearchTool.google_request self query num_results)) = false ->
  Forall (fun item => forall key, In key ["link"; "title"; "snippet"] ->
                                  exists v, Py.getitem item key = Ok v)
         (listed "items" (transport w h (SearchTool.google_request self query num_results))) ->
  exists l,
    fst (SearchTool.google_search w self query num_results max_chars h) = Ok l
    /\ Forall2 (record_of_hit max_chars)
         (listed "items" (transport w h (SearchTool.google_request self query num_results)))
         l.
Proof.
  intros Hk Hx Hok Hall. unfold SearchTool.google_search.
  rewrite Hk, Hx. cbn [orb]. rewrite fetch_run.
  destruct (transport w h _) as [response | e]; [| discriminate Hok].
  simpl in Hok. simpl listed in *.
  destruct (negb (status_code response =? 200)%Z); [discriminate Hok |].
  destruct (json response) as [data | e]; [| discriminate Hok].
  rewrite bind_lift_ok.
  destruct (Py.get data "items" (VList [])) as [results | e];
    [| exists []; split; [reflexivity | constructor]].
  rewrite bind_lift_ok.
  destruct (Py.iter results) as [items | e];
    [| exists []; split; [reflexivity | constructor]].
  rewrite bind_lift_ok.
  set (h' := EvGet (SearchTool.google_request self query num_results) :: h).
  destruct (for_each_all_return items (SearchTool.google_item w max_chars)) with
    (s := @nil SearchResult) (h := h') as [l Hl].
  { intros item Hin. apply google_item_complete.
    rewrite Forall_forall in Hall. now apply Hall. }
  rewrite Hl. exists l. split; [reflexivity |].
  apply for_each_forall2 with (R := record_of_hit max_chars) in Hl.
  - destruct Hl as [rs [-> Hrs]]. exact Hrs.
  - intros a s h0 s' Hs. apply google_item_inv in Hs.
    destruct Hs as [r [-> [Hr _]]]. now exists r.
Qed.

(** *** The detail page of a study *)

Lemma scrape_link_keeps w link s h :
  exists s', fst (SearchTool.scrape_link w link s h) = Ok s'
             /\ (s' = s \/ exists r, s' = (s ++ [r])%list).
Proof.
  destruct (fst (SearchTool.scrape_link w link s h)) as [s' | e] eqn:E.
  - exists s'. split; [reflexivity |].
    destruct (scrape_link_inv w link s h s' E) as [[-> _] | [r [-> _]]];
      [now left | right; now exists r].
  - exfalso. revert E. unfold SearchTool.scrape_link.
    destruct (PyStr.is_empty _); [discriminate |].
    destruct (SearchTool.href_nct_id _) as [id |]; [| discriminate].
    rewrite fst_bind.
    destruct (details_scrape_returns w ("https://clinicaltrials.gov/ct2/show/" ++ id) h)
      as [[info |] ->]; discriminate.
Qed.

Lemma scrape_loop_keeps w (links : list element) :
  forall s h, exists rs,
    fst (for_each links (SearchTool.scrape_link w) s h) = Ok (s ++ rs)%list.
Proof.
  induction links as [| link links IH]; intros s h; cbn [for_each].
  - exists []. now rewrite app_nil_r.
  - rewrite fst_bind.
    destruct (scrape_link_keeps w link s h) as [s' [-> [-> | [r ->]]]].
    + apply IH.
    + destruct (IH (s ++ [r])%list
                   (snd (SearchTool.scrape_link w link s h) ++ h)%list) as [rs ->].
      exists (r :: rs). now rewrite <- app_assoc.
Qed.

Lemma scrape_link_page_fails w link id s h :
  SearchTool.href_nct_id (Soup.attr link "href" "") = Some id ->
  failed false (transport w h (page_request (VStr (show_url id)))) = true ->
  fst (SearchTool.scrape_link w link s h) = Ok s.
Proof.
  intros Hid Hf. unfold SearchTool.scrape_link.
  destruct (PyStr.is_empty (Soup.attr link "href" "")) eqn:He.
  { destruct (Soup.attr link "href" ""); [discriminate Hid | discriminate He]. }
  rewrite Hid, fst_bind, details_scrape_run. fold (show_url id).
  destruct (transport w h (page_request (VStr (show_url id)))) as [page | e];
    [| reflexivity].
  simpl in Hf. rewrite orb_false_r in Hf. rewrite Hf. reflexivity.
Qed.

Lemma scrape_is_its_loop w query max_results h response :
  transport w h (SearchTool.scrape_request query) = Ok response ->
  status_code response = 200%Z ->
  fst (SearchTool.clinicaltrials_search_scrape w query max_results h)
  = fst (for_each
           (Py.list_slice_to max_results
              (doc_select (soup response)
                 ".ct-search-result a.ct-search-result__title-link"))
           (SearchTool.scrape_link w) []
           (EvGet (SearchTool.scrape_request query) :: h)).
Proof.
  intros Ht Hs. unfold SearchTool.clinicaltrials_search_scrape.
  rewrite fetch_run, Ht, Hs. cbn [Z.eqb Pos.eqb negb].
  set (links := Py.list_slice_to max_results _).
  destruct links as [| link links]; [reflexivity |].
  destruct (scrape_loop_keeps w (link :: links) []
              (EvGet (SearchTool.scrape_request query) :: h)) as [rs Hrs].
  rewrite Hrs. reflexivity.
Qed.

(** *** The enrichment of a study *)

Lemma details_api_text_returns w s h :
  exists o, fst (SearchTool._get_clinical_trial_details_api w (VStr s) h) = Ok o.
Proof.
  destruct (SearchTool.invalid_nct_id (VStr s)) as [[|] | e] eqn:Hv.
  - unfold SearchTool._get_clinical_trial_details_api. rewrite Hv, bind_lift_ok.
    eexists. reflexivity.
  - rewrite (details_api_valid_run w (VStr s) h Hv).
    destruct (transport w h _) as [page | e]; [| eexists; reflexivity].
    destruct (negb (status_code page =? 200)%Z); [eexists; reflexivity |].
    destruct (and_then _ _); eexists; reflexivity.
  - exfalso. revert Hv. unfold SearchTool.invalid_nct_id.
    destruct (negb (Py.truthy (VStr s))); [discriminate |].
    cbn [Py.startswith and_then]. discriminate.
Qed.

Lemma details_api_non_text w nct h :
  Py.truthy nct = true -> (forall s, nct <> VStr s) ->
  SearchTool._get_clinical_trial_details_api w nct h = (Raise AttributeError, []).
Proof.
  intros Ht Hn. unfold SearchTool._get_clinical_trial_details_api,
    SearchTool.invalid_nct_id. rewrite Ht.
  destruct nct; try reflexivity. now destruct (Hn s).
Qed.

Lemma api_study_text_appends w study r0 need s :
  SearchTool.api_study_result w study = Ok (Some (r0, need)) ->
  nct_id r0 = VStr s ->
  forall results h, exists r,
    fst (SearchTool.api_study w study results h) = Ok (results ++ [r])%list.
Proof.
  intros Hb Hs results h. rewrite api_study_run, Hb.
  destruct need; [| eexists; reflexivity].
  rewrite Hs. destruct (details_api_text_returns w s h) as [o Ho].
  destruct (SearchTool._get_clinical_trial_details_api w (VStr s) h) as [[[d |] | e] ev];
    cbn [fst] in *; [eexists; reflexivity | eexists; reflexivity | discriminate Ho].
Qed.

Lemma api_study_non_text_raises w study r0 :
  SearchTool.api_study_result w study = Ok (Some (r0, true)) ->
  (forall s, nct_id r0 <> VStr s) ->
  forall results h, exists e, fst (SearchTool.api_study w study results h) = Raise e.
Proof.
  intros Hb Hn results h. rewrite api_study_run, Hb.
  destruct (api_study_result_identified w study r0 true Hb) as [_ [Ht _]].
  rewrite (details_api_non_text w (nct_id r0) h Ht Hn). now exists AttributeError.
Qed.

Lemma beta_api_complete w query max_results h :
  failed true (transport w h (SearchTool.api_request query max_results)) = false ->
  Forall (fun study => exists r0 need s,
            SearchTool.api_study_result w study = Ok (Some (r0, need))
            /\ nct_id r0 = VStr s)
         (listed "studies" (transport w h (SearchTool.api_request query max_results))) ->
  exists l,
    fst (SearchTool.clinicaltrials_search_beta_api w query max_results h) = Ok l
    /\ List.length l
       = List.length
           (listed "studies" (transport w h (SearchTool.api_request query max_results))).
Proof.
  intros Hok Hall. unfold SearchTool.clinicaltrials_search_beta_api.
  rewrite fetch_run.
  destruct (transport w h _) as [response | e]; [| discriminate Hok].
  simpl in Hok. simpl listed in *.
  destruct (negb (status_code response =? 200)%Z); [discriminate Hok |].
  destruct (json response) as [data | e]; [| discriminate Hok].
  rewrite bind_lift_ok.
  destruct (Py.get data "studies" (VList [])) as [studies | e];
    [| exists []; split; reflexivity].
  rewrite bind_lift_ok.
  destruct (Py.iter studies) as [each | e] eqn:Hi.
  2:{ exists []. destruct (negb (Py.truthy studies)); split; reflexivity. }
  destruct (negb (Py.truthy studies)) eqn:Hfalsy.
  { exists []. split; [reflexivity |].
    destruct studies as [| | | | t | [| v vs] | [| kv kvs]];
      try discriminate Hi; try discriminate Hfalsy;
      cbn [Py.iter] in Hi; apply Ok_inj in Hi; subst each; try reflexivity.
    destruct t; [reflexivity | discriminate Hfalsy]. }
  rewrite bind_lift_ok.
  set (h' := EvGet (SearchTool.api_request query max_results) :: h).
  destruct (for_each_appending each (SearchTool.api_study w)) with
    (s := @nil SearchResult) (h := h') as [l [Hl Hlen]].
  { intros study Hin s0 h0. rewrite Forall_forall in Hall.
    destruct (Hall study Hin) as [r0 [need [s [Hb Hs]]]].
    exact (api_study_text_appends w study r0 need s Hb Hs s0 h0). }
  rewrite Hl. exists l. split; [reflexivity | exact Hlen].
Qed.

Lemma beta_api_non_text w query max_results h study r0 :
  In study (listed "studies" (transport w h (SearchTool.api_request query max_results))) ->
  SearchTool.api_study_result w study = Ok (Some (r0, true)) ->
  (forall s, nct_id r0 <> VStr s) ->
  fst (SearchTool.clinicaltrials_search_beta_api w query max_results h) = Ok [].
Proof.
  intros Hin Hb Hn. unfold SearchTool.clinicaltrials_search_beta_api.
  rewrite fetch_run.
  destruct (transport w h _) as [response | e]; [| reflexivity].
  simpl in Hin.
  destruct (negb (status_code response =? 200)%Z); [reflexivity |].
  destruct (json response) as [data | e]; [| reflexivity].
  rewrite bind_lift_ok.
  destruct (Py.get data "studies" (VList [])) as [studies | e]; [| reflexivity].
  rewrite bind_lift_ok.
  destruct (negb (Py.truthy studies)); [reflexivity |].
  destruct (Py.iter studies) as [each | e]; [| reflexivity].
  rewrite bind_lift_ok.
  destruct (for_each_raises each (SearchTool.api_study w) study Hin
              (api_study_non_text_raises w study r0 Hb Hn) []
              (EvGet (SearchTool.api_request query max_results) :: h))
    as [e ->].
  reflexivity.
Qed.

(** C4, as the program has it.  No adapter lets an exception out, whatever
    the world answers.  An adapter returns the empty list when its own
    request fails (no answer, a status other than 200, or, for the two JSON
    adapters, a body that does not decode), when the arXiv feed ends on an
    error, when a web-search hit lacks its title, link or snippet, and when
    a listed study that needs enrichment has an identifier that is not a
    text, the enrichment helper then raising outside its own handler.  A
    request that fails inside a helper does not empty the list.  The web
    search whose own request succeeded returns one record for each listed
    hit that has its three fields, whatever the page requests answer, a
    page that cannot be fetched giving the empty body.  The structured API
    whose own request succeeded returns one record for each listed study
    that builds a record with a text identifier, whatever the enrichment
    requests answer.  The scrape whose own request was served returns what
    its loop over the result links returns; that loop never raises and
    keeps every record collected before a round, and the round of a link
    whose detail page fails adds none. *)
Theorem adapters_fail_soft
        (w : World) (self : SearchTool.t) (query : string) (n max_chars : Z) :
  (returns (SearchTool.google_search w self query n max_chars)
   /\ returns (SearchTool.arxiv_search w query n)
   /\ returns (SearchTool.clinicaltrials_search_beta_api w query n)
   /\ returns (SearchTool.clinicaltrials_search_scrape w query n))
  /\ (forall h,
        failed true (transport w h (SearchTool.google_request self query n)) = true ->
        fst (SearchTool.google_search w self query n max_chars h) = Ok [])
  /\ (forall h item,
        In item (listed "items" (transport w h (SearchTool.google_request self query n))) ->
        (exists key e, In key ["link"; "title"; "snippet"]
                       /\ Py.getitem item key = Raise e) ->
        fst (SearchTool.google_search w self query n max_chars h) = Ok [])
  /\ (forall h e,
        snd (arxiv_feed w h query n) = Some e ->
        fst (SearchTool.arxiv_search w query n h) = Ok [])
  /\ (forall h,
        failed true (transport w h (SearchTool.api_request query n)) = true ->
        fst (SearchTool.clinicaltrials_search_beta_api w query n h) = Ok [])
  /\ (forall h,
        failed false (transport w h (SearchTool.scrape_request query)) = true ->
        fst (SearchTool.clinicaltrials_search_scrape w query n h) = Ok [])
  /\ (forall h study r0,
        In study (listed "studies" (transport w h (SearchTool.api_request query n))) ->
        SearchTool.api_study_result w study = Ok (Some (r0, true)) ->
        (forall s, nct_id r0 <> VStr s) ->
        fst (SearchTool.clinicaltrials_search_beta_api w query n h) = Ok [])
  /\ (forall h,
        env_missing (SearchTool.api_key self) = false ->
        env_missing (SearchTool.search_engine_id self) = false ->
        failed true (transport w h (SearchTool.google_request self query n)) = false ->
        Forall (fun item => forall key, In key ["link"; "title"; "snippet"] ->
                                        exists v, Py.getitem item key = Ok v)
               (listed "items" (transport w h (SearchTool.google_request self query n))) ->
        exists l,
          fst (SearchTool.google_search w self query n max_chars h) = Ok l
          /\ Forall2 (record_of_hit max_chars)
               (listed "items" (transport w h (SearchTool.google_request self query n)))
               l)
  /\ (forall u h e,
        transport w h (page_request u) = Raise e ->
        fst (SearchTool._get_page_content w u max_chars h) = Ok (VStr ""))
  /\ (forall h,
        failed true (transport w h (SearchTool.api_request query n)) = false ->
        Forall (fun study => exists r0 need s,
                  SearchTool.api_study_result w study = Ok (Some (r0, need))
                  /\ nct_id r0 = VStr s)
               (listed "studies" (transport w h (SearchTool.api_request query n))) ->
        exists l,
          fst (SearchTool.clinicaltrials_search_beta_api w query n h) = Ok l
          /\ List.length l
             = List.length
                 (listed "studies" (transport w h (SearchTool.api_request query n))))
  /\ (forall h response,
        transport w h (SearchTool.scrape_request query) = Ok response ->
        status_code response = 200%Z ->
        fst (SearchTool.clinicaltrials_search_scrape w query n h)
        = fst (for_each
                 (Py.list_slice_to n
                    (doc_select (soup response)
                       ".ct-search-result a.ct-search-result__title-link"))
                 (SearchTool.scrape_link w) []
                 (EvGet (SearchTool.scrape_request query) :: h)))
  /\ (forall links s h,
        exists rs,
          fst (for_each links (SearchTool.scrape_link w) s h) = Ok (s ++ rs)%list)
  /\ (forall link id s h,
        SearchTool.href_nct_id (Soup.attr link "href" "") = Some id ->
        failed false (transport w h (page_request (VStr (show_url id)))) = true ->
        fst (SearchTool.scrape_link w link s h) = Ok s).
Proof.
  split; [| split; [| split; [| split; [| split; [| split; [| split; [| split;
    [| split; [| split; [| split; [| split]]]]]]]]]]].
  - split; [apply google_search_returns |].
    split; [apply arxiv_search_returns |].
    split; [apply beta_api_returns | apply scrape_returns].
  - intros h. apply google_search_failed.
  - intros h item. apply google_search_hit_incomplete.
  - intros h e. apply arxiv_search_failed.
  - intros h. apply beta_api_failed.
  - intros h. apply scrape_failed.
  - intros h study r0. apply beta_api_non_text.
  - intros h. apply google_search_complete.
  - intros u h e H. rewrite page_content_run, H. reflexivity.
  - intros h. apply beta_api_complete.
  - intros h response. apply scrape_is_its_loop.
  - intros links s h. apply scrape_loop_keeps.
  - intros link id s h. apply scrape_link_page_fails.
Qed.

Lemma adapters_fail_soft_witness :
  fst (SearchTool.clinicaltrials_search_beta_api offline "diabetes" 2 []) = Ok [].
Proof.
  apply (proj1 (proj2 (proj2 (proj2 (proj2
           (adapters_fail_soft offline with_credentials "diabetes" 2 500))))) []).
  reflexivity.
Defined.

(** C4 as stated fails: a request that times out inside the fetch does not
    always empty the list (the page of a hit is out of reach, the hit is
    returned with an empty body), and a study that lacks most of its
    fields is returned with defaults. *)
Lemma failure_inside_fetch_keeps_records :
  (let search := SearchTool.google_request with_credentials "diabetes" 2 in
   let page := {| url := VStr "https://example.org/1"; params := [];
                  headers := SearchTool.page_headers; timeout := Some 15%Z |} in
   let run := SearchTool.google_search dead_link with_credentials "diabetes" 2 500 [] in
   In (EvGet page) (snd run)
   /\ transport dead_link [EvGet search] page = Raise (RemoteError "timed out")
   /\ exists r, fst run = Ok [r] /\ body r = VStr "")
  /\ (exists r,
        fst (SearchTool.clinicaltrials_search_beta_api detailed_only "diabetes" 2 [])
        = Ok [r]
        /\ title r = VStr "" /\ status r = VStr "").
Proof.
  split.
  - cbv zeta. split; [vm_compute; tauto |].
    split; [reflexivity |].
    eexists. split; reflexivity.
  - eexists. split; [reflexivity |]. split; reflexivity.
Qed.

(** A numbered study that needs enrichment costs the whole list, the
    record of the study listed before it included. *)
Example numbered_study_empties_the_list :
  (exists r0, SearchTool.api_study_result numbered_listing numbered_study
              = Ok (Some (r0, true))
              /\ nct_id r0 = VInt 12345)
  /\ SearchTool._get_clinical_trial_details_api numbered_listing (VInt 12345) []
     = (Raise AttributeError, [])
  /\ fst (SearchTool.clinicaltrials_search_beta_api numbered_listing "diabetes" 2 [])
     = Ok [].
Proof.
  split; [eexists; split; reflexivity |]. split; reflexivity.
Qed.
